(** * Confidence dashboard: the aggregation and filtering layer

    A shallow embedding of the data-processing code of the two dashboards of
    the repository:

    - the React dashboard: [App.filteredData] (the [useMemo] filter of
      [App.tsx]) and the helpers of [utils/dataProcessing.ts]
      ([calculateCategoryStats], [getOverallStats],
      [getPowerLevelDistribution]);
    - the plain JavaScript dashboard: the methods of the class
      [ConfidenceVisualizer] ([calculateStats], [calculateGrowthTrend],
      [getAverageForDates], [applyFilters], [getDominantType],
      [processData]).

    Modelling conventions.

    - A JavaScript [number] is a finite value, [Infinity], [-Infinity] or
      [NaN].  Finite values are exact rationals in canonical form ([Qc]):
      the rounding of IEEE doubles and the sign of zero are abstracted, the
      special values and the places where they arise (0/0, [Math.max()] of
      nothing, [undefined++]) are kept.  Where a property depends on the
      rounding (percentages that add up to 100), the function is embedded
      a second time in the module [Binary64], which rounds the result of
      every arithmetic operation to the nearest double.
    - [power_level], counters and lengths are integers ([Z], [nat]); they
      become a [number] where the code divides.
    - A JavaScript object used as a dictionary (and a [Map]) is an
      association list in insertion order; writing an existing key keeps its
      position, writing a new key appends.  (The keys are dates and type
      names, never array indices, so the enumeration order is the insertion
      order.)
    - The strings ['personal'] and ['professional'] and the eight category
      names are the constructors of [ConfidenceType] and [Category]; a
      [null] selection and the ['all'] choice of a control are [None].
    - [Array.prototype.sort] is stable, so any consistent comparator gives
      the result of a stable insertion sort. *)

From Stdlib Require Import String Ascii ZArith QArith Qcanon Lia Bool.
From Stdlib Require Import List Permutation Sorted.
Import ListNotations.
Local Open Scope list_scope.

Set Implicit Arguments.

(** ** JavaScript values *)

Module JS.

Inductive number : Type :=
| Num (q : Qc)
| Infinity
| NegInfinity
| NaN.

Definition of_Z (z : Z) : number := Num (Q2Qc (inject_Z z)).
Definition of_nat (n : nat) : number := of_Z (Z.of_nat n).

Definition is_zero (q : Qc) : bool := Qeq_bool q 0.
Definition is_pos (q : Qc) : bool := negb (Qle_bool q 0).

Definition nneg (a : number) : number :=
  match a with
  | Num q => Num (- q)%Qc
  | Infinity => NegInfinity
  | NegInfinity => Infinity
  | NaN => NaN
  end.

(** [a + b] *)
Definition nadd (a b : number) : number :=
  match a, b with
  | NaN, _ | _, NaN => NaN
  | Num x, Num y => Num (x + y)%Qc
  | Infinity, NegInfinity | NegInfinity, Infinity => NaN
  | Infinity, _ | _, Infinity => Infinity
  | NegInfinity, _ | _, NegInfinity => NegInfinity
  end.

(** [a - b] *)
Definition nsub (a b : number) : number := nadd a (nneg b).

Definition signed_inf (positive : bool) : number :=
  if positive then Infinity else NegInfinity.

(** [a * b] *)
Definition nmul (a b : number) : number :=
  match a, b with
  | NaN, _ | _, NaN => NaN
  | Num x, Num y => Num (x * y)%Qc
  | Infinity, Num y | Num y, Infinity =>
      if is_zero y then NaN else signed_inf (is_pos y)
  | NegInfinity, Num y | Num y, NegInfinity =>
      if is_zero y then NaN else signed_inf (negb (is_pos y))
  | Infinity, Infinity | NegInfinity, NegInfinity => Infinity
  | Infinity, NegInfinity | NegInfinity, Infinity => NegInfinity
  end.

(** [a / b]; a zero divisor is the positive zero (every divisor of the
    code is a length, a counter or a value tested against zero). *)
Definition ndiv (a b : number) : number :=
  match a, b with
  | NaN, _ | _, NaN => NaN
  | Num x, Num y =>
      if is_zero y
      then (if is_zero x then NaN else signed_inf (is_pos x))
      else Num (x / y)%Qc
  | Num _, (Infinity | NegInfinity) => Num 0%Qc
  | Infinity, Num y => signed_inf (is_pos y || is_zero y)
  | NegInfinity, Num y => signed_inf (negb (is_pos y || is_zero y))
  | (Infinity | NegInfinity), (Infinity | NegInfinity) => NaN
  end.

(** [a > b]; every comparison with [NaN] is false. *)
Definition ngt (a b : number) : bool :=
  match a, b with
  | NaN, _ | _, NaN => false
  | Num x, Num y => negb (Qle_bool x y)
  | Infinity, (Num _ | NegInfinity) => true
  | Num _, NegInfinity => true
  | _, _ => false
  end.

(** [a < b] *)
Definition nlt (a b : number) : bool := ngt b a.

(** [a === b] on numbers *)
Definition strict_eq (a b : number) : bool :=
  match a, b with
  | Num x, Num y => Qeq_bool x y
  | Infinity, Infinity | NegInfinity, NegInfinity => true
  | _, _ => false
  end.

Definition is_NaN (a : number) : bool :=
  match a with NaN => true | _ => false end.

Definition nmax (a b : number) : number :=
  if is_NaN a || is_NaN b then NaN else if ngt b a then b else a.
Definition nmin (a b : number) : number :=
  if is_NaN a || is_NaN b then NaN else if nlt b a then b else a.

(** [Math.max(...l)] and [Math.min(...l)]: with no argument they are
    [-Infinity] and [Infinity]. *)
Definition Math_max (l : list number) : number := fold_left nmax l NegInfinity.
Definition Math_min (l : list number) : number := fold_left nmin l Infinity.

(** Objects and [Map]s: association lists in insertion order. *)
Section Obj.
Context {K V : Type} (eqb : K -> K -> bool).

Fixpoint obj_get (k : K) (o : list (K * V)) : option V :=
  match o with
  | [] => None
  | (k', v) :: o' => if eqb k k' then Some v else obj_get k o'
  end.

Fixpoint obj_set (k : K) (v : V) (o : list (K * V)) : list (K * V) :=
  match o with
  | [] => [(k, v)]
  | (k', v') :: o' =>
      if eqb k k' then (k', v) :: o' else (k', v') :: obj_set k v o'
  end.
End Obj.

Definition keys {K V : Type} (o : list (K * V)) : list K := map fst o.
Definition values {K V : Type} (o : list (K * V)) : list V := map snd o.

(** [l.sort(cmp)], where [after a b] says that [cmp(a, b) > 0]. *)
Section Sort.
Context {A : Type} (after : A -> A -> bool).

Fixpoint insert_sorted (x : A) (l : list A) : list A :=
  match l with
  | [] => [x]
  | y :: ys => if after x y then y :: insert_sorted x ys else x :: y :: ys
  end.

Fixpoint sort (l : list A) : list A :=
  match l with
  | [] => []
  | x :: xs => insert_sorted x (sort xs)
  end.
End Sort.

(** Arrays with holes: [None] is an index that was never written. *)
Definition array (A : Type) : Type := list (option A).

Definition arr_get {A : Type} (i : Z) (a : array A) : option A :=
  if (i <? 0)%Z then None
  else match nth_error a (Z.to_nat i) with
       | Some (Some v) => Some v
       | _ => None
       end.

Fixpoint list_update {A : Type} (n : nat) (v : A) (l : list A) : list A :=
  match l, n with
  | [], _ => []
  | _ :: l', O => v :: l'
  | x :: l', S n' => x :: list_update n' v l'
  end.

(** [a[i] = v]: inside the array the element is replaced, past its end the
    array grows (the indices in between are holes), and a negative [i]
    is an ordinary property that is no element of the array. *)
Definition arr_set {A : Type} (i : Z) (v : A) (a : array A) : array A :=
  if (i <? 0)%Z then a
  else
    let n := Z.to_nat i in
    if (n <? length a)%nat then list_update n (Some v) a
    else a ++ repeat None (n - length a) ++ [Some v].

(** [x++] on a slot: [undefined] becomes [NaN]. *)
Definition incr (slot : option number) : number :=
  match slot with
  | Some n => nadd n (of_Z 1)
  | None => NaN
  end.

(** [l.slice(start, end)], with [None] for an absent [end]. *)
Definition slice {A : Type} (start : Z) (end_ : option Z) (l : list A) : list A :=
  let len := Z.of_nat (length l) in
  let clamp (i : Z) : Z :=
    if (i <? 0)%Z then Z.max (len + i) 0 else Z.min i len in
  let k := clamp start in
  let final := match end_ with Some e => clamp e | None => len end in
  firstn (Z.to_nat (final - k)) (skipn (Z.to_nat k) l).

(** [l.sort()] on strings: increasing code units. *)
Definition sort_strings (l : list string) : list string :=
  sort (fun a b => String.ltb b a) l.

(** [a >= b]; every comparison with [NaN] is false. *)
Definition nge (a b : number) : bool :=
match a, b with
| NaN, _ | _, NaN => false
| Num x, Num y => Qle_bool y x
| Infinity, _ => true
| _, NegInfinity => true
| _, _ => false
end.

(** [l.map(f)] when [f] may throw: [None] is the exception, which ends the
    whole [map]. *)
Fixpoint traverse {A B : Type} (f : A -> option B) (l : list A) : option (list B) :=
match l with
| [] => Some []
| x :: xs =>
    match f x with
    | Some y =>
        match traverse f xs with
        | Some ys => Some (y :: ys)
        | None => None
        end
    | None => None
    end
end.

(** [c.toUpperCase()] on the ASCII characters (the only ones of the
    category names): the letters a..z move to A..Z. *)
Definition toUpperCase (c : ascii) : ascii :=
let n := nat_of_ascii c in
if ((97 <=? n) && (n <=? 122))%nat then ascii_of_nat (n - 32) else c.

(** [s.split(sep)] for a separator of one character. *)
Fixpoint split (sep : ascii) (s : string) : list string :=
match s with
| EmptyString => [EmptyString]
| String c r =>
    if Ascii.eqb c sep then EmptyString :: split sep r
    else match split sep r with
         | w :: ws => String c w :: ws
         | [] => [String c EmptyString]
         end
end.

(** [word.charAt(0).toUpperCase() + word.slice(1)] *)
Definition capitalize (word : string) : string :=
match word with
| EmptyString => EmptyString
| String c r => String (toUpperCase c) r
end.

(** [words.join(sep)] *)
Definition join (sep : string) (words : list string) : string :=
String.concat sep words.

End JS.

Import JS.

(** ** The data model ([types.ts]) *)

Inductive ConfidenceType : Type := personal | professional.

Inductive Category : Type :=
| career_development
| personal_growth
| professional_presentation
| technical_skills
| social_interactions
| self_image
| physical_wellness
| creative_work.

Definition ConfidenceType_eqb (a b : ConfidenceType) : bool :=
  match a, b with
  | personal, personal | professional, professional => true
  | _, _ => false
  end.

Definition Category_eqb (a b : Category) : bool :=
  match a, b with
  | career_development, career_development
  | personal_growth, personal_growth
  | professional_presentation, professional_presentation
  | technical_skills, technical_skills
  | social_interactions, social_interactions
  | self_image, self_image
  | physical_wellness, physical_wellness
  | creative_work, creative_work => true
  | _, _ => false
  end.

(** The strings of the categories. *)
Definition category_name (c : Category) : string :=
  match c with
  | career_development => "career_development"
  | personal_growth => "personal_growth"
  | professional_presentation => "professional_presentation"
  | technical_skills => "technical_skills"
  | social_interactions => "social_interactions"
  | self_image => "self_image"
  | physical_wellness => "physical_wellness"
  | creative_work => "creative_work"
  end.

Record ConfidenceEntry : Type := {
  text : string;
  category : Category;
  confidence_type : ConfidenceType;
  power_level : Z
}.

Record DailyData : Type := {
  entries : list ConfidenceEntry;
  daily_confidence_average : number;
  dominant_confidence_area : ConfidenceType
}.

(** [{ [date: string]: DailyData }] *)
Definition ConfidenceData : Type := list (string * DailyData).

(** [l.reduce((a, b) => a + b, 0)] on integers. *)
Definition sum_Z (l : list Z) : Z := fold_left Z.add l 0%Z.

(** ** The React dashboard: [App.tsx] *)

Module App.

(** The body of the [useMemo] of [filteredData]; [None] is a [null]
    selection (every selectable value is a non-empty string, so it is
    truthy). *)
Definition filteredData
    (selectedCategory : option Category)
    (selectedType : option ConfidenceType)
    (confidenceData : ConfidenceData) : ConfidenceData :=
  match selectedCategory, selectedType with
  | None, None => confidenceData
  | _, _ =>
      fold_left
        (fun (filtered : ConfidenceData) '(date, dayData) =>
           let filteredEntries :=
             filter
               (fun entry =>
                  let categoryMatch :=
                    match selectedCategory with
                    | None => true
                    | Some c => Category_eqb (category entry) c
                    end in
                  let typeMatch :=
                    match selectedType with
                    | None => true
                    | Some t => ConfidenceType_eqb (confidence_type entry) t
                    end in
                  categoryMatch && typeMatch)
               (entries dayData) in
           if (0 <? length filteredEntries)%nat then
             let powerLevels := map power_level filteredEntries in
             let avg := ndiv (of_Z (sum_Z powerLevels)) (of_nat (length powerLevels)) in
             let personalCount :=
               length
                 (filter
                    (fun e => ConfidenceType_eqb (confidence_type e) personal)
                    filteredEntries) in
             obj_set String.eqb date
               {| entries := filteredEntries;
                  daily_confidence_average := avg;
                  dominant_confidence_area :=
                    if ngt (of_nat personalCount)
                           (ndiv (of_nat (length filteredEntries)) (of_Z 2))
                    then personal else professional |}
               filtered
           else filtered)
        confidenceData
        []
  end.

End App.

(** ** The React dashboard: [utils/dataProcessing.ts] *)

Module DataProcessing.

Record CategoryStats : Type := {
  cs_category : Category;
  avgPowerLevel : number;
  entryCount : Z;
  percentage : number
}.

(** The values of [categoryMap]. *)
Record Tally : Type := { total : Z; count : Z }.

Definition calculateCategoryStats (data : ConfidenceData) : list CategoryStats :=
  let '(categoryMap, totalEntries) :=
    fold_left
      (fun acc day =>
         fold_left
           (fun '(categoryMap, totalEntries) entry =>
              let totalEntries := (totalEntries + 1)%Z in
              let current :=
                match obj_get Category_eqb (category entry) categoryMap with
                | Some c => c
                | None => {| total := 0; count := 0 |}
                end in
              (obj_set Category_eqb (category entry)
                 {| total := total current + power_level entry;
                    count := count current + 1 |}
                 categoryMap,
               totalEntries))
           (entries day) acc)
      (values data)
      ([], 0%Z) in
  let stats :=
    map
      (fun '(category, value) =>
         {| cs_category := category;
            avgPowerLevel := ndiv (of_Z (total value)) (of_Z (count value));
            entryCount := count value;
            percentage :=
              nmul (ndiv (of_Z (count value)) (of_Z totalEntries)) (of_Z 100) |})
      categoryMap in
  sort (fun a b => ngt (nsub (avgPowerLevel b) (avgPowerLevel a)) (of_Z 0)) stats.

Record OverallStats : Type := {
  totalDays : nat;
  totalEntries : nat;
  avgConfidence : number;
  highestConfidence : number;
  lowestConfidence : number;
  personalPercentage : number;
  professionalPercentage : number
}.

Definition getOverallStats (data : ConfidenceData) : OverallStats :=
  let allEntries := flat_map entries (values data) in
  let allPowerLevels := map power_level allEntries in
  let personalEntries :=
    filter (fun e => ConfidenceType_eqb (confidence_type e) personal) allEntries in
  let professionalEntries :=
    filter (fun e => ConfidenceType_eqb (confidence_type e) professional) allEntries in
  {| totalDays := length (keys data);
     totalEntries := length allEntries;
     avgConfidence :=
       ndiv (of_Z (sum_Z allPowerLevels)) (of_nat (length allPowerLevels));
     highestConfidence := Math_max (map of_Z allPowerLevels);
     lowestConfidence := Math_min (map of_Z allPowerLevels);
     personalPercentage :=
       nmul (ndiv (of_nat (length personalEntries)) (of_nat (length allEntries)))
            (of_Z 100);
     professionalPercentage :=
       nmul (ndiv (of_nat (length professionalEntries)) (of_nat (length allEntries)))
            (of_Z 100) |}.

Record Bucket : Type := { level : Z; bucket_count : number }.

(** The array [distribution] after the two nested [forEach]. *)
Definition distribution (data : ConfidenceData) : array number :=
  fold_left
    (fun distribution day =>
       fold_left
         (fun distribution entry =>
            let i := (power_level entry - 1)%Z in
            arr_set i (incr (arr_get i distribution)) distribution)
         (entries day) distribution)
    (values data)
    (repeat (Some (of_Z 0)) 10).

(** [a.map((count, index) => ...)]: holes stay holes. *)
Definition map_indexed {A B : Type} (f : A -> nat -> B) (a : array A) : array B :=
  map (fun '(index, slot) => option_map (fun x => f x index) slot)
      (combine (seq 0 (length a)) a).

Definition getPowerLevelDistribution (data : ConfidenceData) : array Bucket :=
  map_indexed
    (fun count index => {| level := Z.of_nat index + 1; bucket_count := count |})
    (distribution data).

Definition formatCategoryName (category : Category) : string :=
join " " (map capitalize (split "_" (category_name category))).

Record ChartDataPoint : Type := {
cdp_date : string;
cdp_value : number;
cdp_personal : option number;
cdp_professional : option number
}.

(** [format(parseISO(date), 'MMM d')] comes from the library date-fns: it
    is the parameter [format], [None] where the library throws (a key that
    is no date). *)
Definition processTimeSeriesData (format : string -> option string)
  (data : ConfidenceData) : option (list ChartDataPoint) :=
let sortedDates := sort_strings (keys data) in
traverse
  (fun date =>
     match format date, obj_get String.eqb date data with
     | Some label, Some day =>
         Some {| cdp_date := label;
                 cdp_value := daily_confidence_average day;
                 cdp_personal := None;
                 cdp_professional := None |}
     | _, _ => None
     end)
  sortedDates.

Definition processConfidenceTypeData (format : string -> option string)
  (data : ConfidenceData) : option (list ChartDataPoint) :=
let sortedDates := sort_strings (keys data) in
traverse
  (fun date =>
     match obj_get String.eqb date data with
     | Some day =>
         let entries := entries day in
         let personalEntries :=
           filter (fun e => ConfidenceType_eqb (confidence_type e) personal) entries in
         let professionalEntries :=
           filter (fun e => ConfidenceType_eqb (confidence_type e) professional) entries in
         let personalAvg :=
           if (0 <? length personalEntries)%nat
           then ndiv (of_Z (sum_Z (map power_level personalEntries)))
                     (of_nat (length personalEntries))
           else of_Z 0 in
         let professionalAvg :=
           if (0 <? length professionalEntries)%nat
           then ndiv (of_Z (sum_Z (map power_level professionalEntries)))
                     (of_nat (length professionalEntries))
           else of_Z 0 in
         match format date with
         | Some label =>
             Some {| cdp_date := label;
                     cdp_value := daily_confidence_average day;
                     cdp_personal := Some personalAvg;
                     cdp_professional := Some professionalAvg |}
         | None => None
         end
     | None => None
     end)
  sortedDates.

End DataProcessing.

(** ** The React dashboard: [components/CategoryBreakdown.tsx] *)

Module CategoryBreakdown.

Definition COLORS : list string :=
["#8884d8"; "#82ca9d"; "#ffc658"; "#ff7c7c"; "#8dd1e1";
 "#d084d0"; "#ffb347"; "#67b7dc"; "#a4de6c"]%string.

Record Bar : Type := {
name : string;
bar_category : Category;
bar_value : number;
bar_count : Z
}.

Definition chartData (data : ConfidenceData) : list Bar :=
map
  (fun stat =>
     {| name := DataProcessing.formatCategoryName (DataProcessing.cs_category stat);
        bar_category := DataProcessing.cs_category stat;
        bar_value := DataProcessing.avgPowerLevel stat;
        bar_count := DataProcessing.entryCount stat |})
  (DataProcessing.calculateCategoryStats data).

(** The [fill] of the [Cell] of every bar. *)
Definition fills (selectedCategory : option Category) (data : ConfidenceData)
  : list string :=
map
  (fun '(index, entry) =>
     if match selectedCategory with
        | Some c => Category_eqb (bar_category entry) c
        | None => false
        end
     then "#ff6b6b"%string
     else nth (index mod length COLORS) COLORS EmptyString)
  (combine (seq 0 (length (chartData data))) (chartData data)).

End CategoryBreakdown.

(** ** The React dashboard: [components/CalendarHeatmap.tsx] *)

Module CalendarHeatmap.

Definition getHeatmapColor (value : number) : string :=
if nge value (of_Z 8) then "#22c55e"%string
else if nge value (of_Z 7) then "#84cc16"%string
else if nge value (of_Z 6) then "#facc15"%string
else if nge value (of_Z 5) then "#fb923c"%string
else "#ef4444"%string.

(** The map [months] after the [forEach]; [format(parseISO(date),
    'MMM yyyy')] is the parameter [format], [None] where date-fns throws. *)
Definition months (format : string -> option string) (data : ConfidenceData)
  : option (list (string * list string)) :=
let dates := sort_strings (keys data) in
fold_left
  (fun acc date =>
     match acc with
     | None => None
     | Some months =>
         match format date with
         | None => None
         | Some month =>
             let months :=
               match obj_get String.eqb month months with
               | Some _ => months
               | None => obj_set String.eqb month [] months
               end in
             match obj_get String.eqb month months with
             | Some monthDates =>
                 Some (obj_set String.eqb month (monthDates ++ [date]) months)
             | None => None
             end
         end
     end)
  dates
  (Some []).

(** The colours of the legend. *)
Definition legend : list string :=
map (fun level => getHeatmapColor (of_Z level)) [4; 5; 6; 7; 8]%Z.

End CalendarHeatmap.

(** ** The React dashboard: [components/DailyDetails.tsx] *)

Module DailyDetails.

(** The icon and its colour. *)
Definition getPowerLevelIcon (level : number) : string * string :=
if nge level (of_Z 8) then ("TrendingUp", "#22c55e")%string
else if nge level (of_Z 6) then ("Activity", "#facc15")%string
else ("TrendingDown", "#ef4444")%string.

Definition getPowerLevelClass (level : number) : string :=
if nge level (of_Z 8) then "high"%string
else if nge level (of_Z 6) then "medium"%string
else "low"%string.

End DailyDetails.

(** ** The plain JavaScript dashboard: class [ConfidenceVisualizer] *)

Module ConfidenceVisualizer.

(** The two fields of the object that the data processing reads and
    writes ([charts], [categories] and [categoryColors] only serve the
    drawing code). *)
Record t : Type := {
  data : ConfidenceData;
  filteredData : ConfidenceData
}.

(** The values of the three filter controls of the page:
    ['all'] is [None]; [powerFilter] is the result of [parseInt], with
    [None] for [NaN]. *)
Record Controls : Type := {
  typeFilter : option ConfidenceType;
  categoryFilter : option Category;
  powerFilter : option Z
}.

Record Stats : Type := {
  avgConfidence : number;
  totalEntries : Z;
  peakDay : string;
  peakScore : number
}.

Definition calculateStats (this : t) : Stats :=
  let '(totalPower, totalEntries, peakDay, peakScore) :=
    fold_left
      (fun '(totalPower, totalEntries, peakDay, peakScore) '(date, dayData) =>
         let '(totalPower, totalEntries) :=
           fold_left
             (fun '(totalPower, totalEntries) entry =>
                ((totalPower + power_level entry)%Z, (totalEntries + 1)%Z))
             (entries dayData)
             (totalPower, totalEntries) in
         if ngt (daily_confidence_average dayData) peakScore
         then (totalPower, totalEntries, date, daily_confidence_average dayData)
         else (totalPower, totalEntries, peakDay, peakScore))
      (filteredData this)
      (0%Z, 0%Z, EmptyString, of_Z 0) in
  {| avgConfidence :=
       if (0 <? totalEntries)%Z
       then ndiv (of_Z totalPower) (of_Z totalEntries)
       else of_Z 0;
     totalEntries := totalEntries;
     peakDay := peakDay;
     peakScore := peakScore |}.

Definition getAverageForDates (this : t) (dates : list string) : number :=
  let '(total, count) :=
    fold_left
      (fun '(total, count) date =>
         match obj_get String.eqb date (data this) with
         | Some day =>
             fold_left
               (fun '(total, count) entry =>
                  ((total + power_level entry)%Z, (count + 1)%Z))
               (entries day)
               (total, count)
         | None => (total, count)
         end)
      dates
      (0%Z, 0%Z) in
  if (0 <? count)%Z then ndiv (of_Z total) (of_Z count) else of_Z 0.

Definition calculateGrowthTrend (this : t) : number :=
  let dates := sort_strings (keys (data this)) in
  if (length dates <? 2)%nat then of_Z 0
  else
    let third := (Z.of_nat (length dates) / 3)%Z in
    let firstMonth := slice 0 (Some third) dates in
    let lastMonth := slice (- third) None dates in
    let firstAvg := getAverageForDates this firstMonth in
    let lastAvg := getAverageForDates this lastMonth in
    if strict_eq firstAvg (of_Z 0) then of_Z 0
    else nmul (ndiv (nsub lastAvg firstAvg) firstAvg) (of_Z 100).

(** [counts[t] || 0] *)
Definition or_zero (c : option Z) : Z :=
  match c with
  | Some n => if (n =? 0)%Z then 0%Z else n
  | None => 0%Z
  end.

Definition getDominantType (entries : list ConfidenceEntry) : ConfidenceType :=
  let counts :=
    fold_left
      (fun counts entry =>
         obj_set ConfidenceType_eqb (confidence_type entry)
           (or_zero (obj_get ConfidenceType_eqb (confidence_type entry) counts) + 1)%Z
           counts)
      entries
      [] in
  match sort (fun a b => (snd b - snd a >? 0)%Z) counts with
  | (type, _) :: _ => type
  | [] => personal
  end.

(** What [processData] writes into the overview cards, before it is
    formatted. *)
Record Overview : Type := {
  stats : Stats;
  trend : number
}.

Definition processData (this : t) : Overview :=
  {| stats := calculateStats this;
     trend := calculateGrowthTrend this |}.

(** [createCharts] and [displayEntries] only draw. *)
Definition updateUI (this : t) : Overview := processData this.

(** The loop of [applyFilters]: the new value of [this.filteredData]. *)
Definition applyFilters_filteredData (dom : Controls) (source : ConfidenceData) : ConfidenceData :=
  fold_left
    (fun (filteredData : ConfidenceData) '(date, dayData) =>
       let filteredEntries :=
         filter
           (fun entry =>
              if match typeFilter dom with
                 | Some t => negb (ConfidenceType_eqb (confidence_type entry) t)
                 | None => false
                 end then false
              else if match categoryFilter dom with
                      | Some c => negb (Category_eqb (category entry) c)
                      | None => false
                      end then false
              else if match powerFilter dom with
                      | Some p => (power_level entry <? p)%Z
                      | None => false
                      end then false
              else true)
           (entries dayData) in
       if (0 <? length filteredEntries)%nat then
         obj_set String.eqb date
           {| entries := filteredEntries;
              daily_confidence_average :=
                ndiv (of_Z (sum_Z (map power_level filteredEntries)))
                     (of_nat (length filteredEntries));
              dominant_confidence_area := getDominantType filteredEntries |}
           filteredData
       else filteredData)
    source
    [].

(** [applyFilters]: the object after the call and what [updateUI] shows. *)
Definition applyFilters (dom : Controls) (this : t) : t * Overview :=
  let this' :=
    {| data := data this;
       filteredData := applyFilters_filteredData dom (data this) |} in
  (this', updateUI this').

(** [this.categories] and [this.categoryColors] of the constructor. *)
Definition categories : list Category :=
[career_development; personal_growth; self_image; social_interactions;
 technical_skills; professional_presentation; creative_work; physical_wellness].

Definition categoryColors : list (Category * string) :=
[(career_development, "#8B5CF6"); (personal_growth, "#10B981");
 (self_image, "#F59E0B"); (social_interactions, "#3B82F6");
 (technical_skills, "#EF4444"); (professional_presentation, "#6366F1");
 (creative_work, "#EC4899"); (physical_wellness, "#14B8A6")]%string.

Definition formatCategoryName (category : string) : string :=
join " " (map capitalize (split "_" category)).

(** [{ ...entry, date }] *)
Record DatedEntry : Type := {
de_entry : ConfidenceEntry;
de_date : string
}.

(** The array [allEntries] that [getTopMoments], [getGrowthAreas] and
    [displayEntries] build from [this.filteredData]. *)
Definition allEntries (this : t) : list DatedEntry :=
fold_left
  (fun allEntries '(date, dayData) =>
     fold_left
       (fun allEntries entry =>
          allEntries ++ [{| de_entry := entry; de_date := date |}])
       (entries dayData)
       allEntries)
  (filteredData this)
  [].

Definition getTopMoments (this : t) (count : Z) : list DatedEntry :=
slice 0 (Some count)
  (sort (fun a b =>
           (power_level (de_entry b) - power_level (de_entry a) >? 0)%Z)
     (allEntries this)).

Definition getGrowthAreas (this : t) (count : Z) : list DatedEntry :=
slice 0 (Some count)
  (sort (fun a b =>
           (power_level (de_entry a) - power_level (de_entry b) >? 0)%Z)
     (allEntries this)).

Record Breakdown : Type := {
count : Z;
totalPower : Z;
avgPower : number
}.

Definition getCategoryBreakdown (this : t) : list (Category * Breakdown) :=
let breakdown :=
  fold_left
    (fun breakdown category =>
       obj_set Category_eqb category
         {| count := 0; totalPower := 0; avgPower := of_Z 0 |} breakdown)
    categories
    [] in
let breakdown :=
  fold_left
    (fun breakdown dayData =>
       fold_left
         (fun breakdown entry =>
            match obj_get Category_eqb (category entry) breakdown with
            | Some b =>
                obj_set Category_eqb (category entry)
                  {| count := count b + 1;
                     totalPower := totalPower b + power_level entry;
                     avgPower := avgPower b |}
                  breakdown
            | None => breakdown
            end)
         (entries dayData)
         breakdown)
    (values (data this))
    breakdown in
fold_left
  (fun breakdown category =>
     match obj_get Category_eqb category breakdown with
     | Some b =>
         if (0 <? count b)%Z
         then obj_set Category_eqb category
                {| count := count b;
                   totalPower := totalPower b;
                   avgPower := ndiv (of_Z (totalPower b)) (of_Z (count b)) |}
                breakdown
         else breakdown
     | None => breakdown
     end)
  (keys breakdown)
  breakdown.

(** The object [categoryCounts] of [createCategoryChart]. *)
Definition categoryCounts (this : t) : list (Category * Z) :=
fold_left
  (fun categoryCounts dayData =>
     fold_left
       (fun categoryCounts entry =>
          obj_set Category_eqb (category entry)
            (or_zero (obj_get Category_eqb (category entry) categoryCounts) + 1)%Z
            categoryCounts)
       (entries dayData)
       categoryCounts)
  (values (filteredData this))
  [].

(** What [createCategoryChart] hands to the doughnut chart. *)
Record CategoryChart : Type := {
labels : list string;
chart_data : list Z;
colors : list string
}.

Definition createCategoryChart (this : t) : CategoryChart :=
let categoryCounts := categoryCounts this in
{| labels :=
     map (fun cat => formatCategoryName (category_name cat)) (keys categoryCounts);
   chart_data := values categoryCounts;
   colors :=
     map (fun cat =>
            match obj_get Category_eqb cat categoryColors with
            | Some color => color
            | None => "#999"%string
            end)
       (keys categoryCounts) |}.

(** The two counters that [createTypeChart] hands to the pie chart. *)
Definition createTypeChart (this : t) : Z * Z :=
fold_left
  (fun counters dayData =>
     fold_left
       (fun '(personalCount, professionalCount) entry =>
          if ConfidenceType_eqb (confidence_type entry) personal
          then ((personalCount + 1)%Z, professionalCount)
          else if ConfidenceType_eqb (confidence_type entry) professional
          then (personalCount, (professionalCount + 1)%Z)
          else (personalCount, professionalCount))
       (entries dayData)
       counters)
  (values (filteredData this))
  (0%Z, 0%Z).

(** A point of the time line; [None] is [null]. *)
Record Point : Type := {
x : string;
y : option number
}.

Record Timeline : Type := {
dailyAverages : list Point;
personalData : list Point;
professionalData : list Point
}.

(** The [y] of the series of one type. *)
Definition type_average (type : ConfidenceType) (entries : list ConfidenceEntry)
  : option number :=
let typeEntries :=
  filter (fun e => ConfidenceType_eqb (confidence_type e) type) entries in
let sum := sum_Z (map power_level typeEntries) in
if (0 <? length typeEntries)%nat
then Some (ndiv (of_Z sum) (of_nat (length typeEntries)))
else None.

(** The three data sets of [createTimelineChart]; [None] is the TypeError
    of reading a field of [undefined]. *)
Definition createTimelineChart (this : t) : option Timeline :=
let dates := sort_strings (keys (filteredData this)) in
match
  traverse
    (fun date =>
       match obj_get String.eqb date (filteredData this) with
       | Some day => Some {| x := date; y := Some (daily_confidence_average day) |}
       | None => None
       end)
    dates,
  traverse
    (fun date =>
       match obj_get String.eqb date (filteredData this) with
       | Some day => Some {| x := date; y := type_average personal (entries day) |}
       | None => None
       end)
    dates,
  traverse
    (fun date =>
       match obj_get String.eqb date (filteredData this) with
       | Some day => Some {| x := date; y := type_average professional (entries day) |}
       | None => None
       end)
    dates
with
| Some dailyAverages, Some personalData, Some professionalData =>
    Some {| dailyAverages := dailyAverages;
            personalData := personalData;
            professionalData := professionalData |}
| _, _, _ => None
end.

End ConfidenceVisualizer.

(** ** Notions used by the statements *)

(** The mean of the power levels of a list of entries, as the code computes
    it: the sum divided by the length. *)
Definition mean_power_level (es : list ConfidenceEntry) : number :=
  ndiv (of_Z (sum_Z (map power_level es))) (of_nat (length es)).

Definition count_type (t : ConfidenceType) (es : list ConfidenceEntry) : nat :=
  length (filter (fun e => ConfidenceType_eqb (confidence_type e) t) es).

(** No type has a strict majority: with two types, the counts are equal. *)
Definition tie (es : list ConfidenceEntry) : Prop :=
  count_type personal es = count_type professional es.

(** The shape shared by the two filter loops: every day is either rebuilt
    and written under its date, or skipped. *)
Definition collect (day : DailyData -> option DailyData)
    (source : ConfidenceData) : ConfidenceData :=
  fold_left
    (fun (acc : ConfidenceData) '(date, d) =>
       match day d with
       | Some d' => obj_set String.eqb date d' acc
       | None => acc
       end)
    source
    [].

(** The predicate of the React filter and what it makes of one day. *)
Definition App_matches (selectedCategory : option Category)
    (selectedType : option ConfidenceType) (entry : ConfidenceEntry) : bool :=
  match selectedCategory with
  | None => true
  | Some c => Category_eqb (category entry) c
  end
  &&
  match selectedType with
  | None => true
  | Some t => ConfidenceType_eqb (confidence_type entry) t
  end.

Definition App_dominant (es : list ConfidenceEntry) : ConfidenceType :=
  if ngt (of_nat (count_type personal es)) (ndiv (of_nat (length es)) (of_Z 2))
  then personal else professional.

Definition App_day (selectedCategory : option Category)
    (selectedType : option ConfidenceType) (d : DailyData) : option DailyData :=
  let es := filter (App_matches selectedCategory selectedType) (entries d) in
  if (0 <? length es)%nat
  then Some {| entries := es;
               daily_confidence_average := mean_power_level es;
               dominant_confidence_area := App_dominant es |}
  else None.

(** The predicate of [applyFilters] and what it makes of one day. *)
Definition CV_matches (dom : ConfidenceVisualizer.Controls)
    (entry : ConfidenceEntry) : bool :=
  match ConfidenceVisualizer.typeFilter dom with
  | Some t => ConfidenceType_eqb (confidence_type entry) t
  | None => true
  end
  &&
  match ConfidenceVisualizer.categoryFilter dom with
  | Some c => Category_eqb (category entry) c
  | None => true
  end
  &&
  match ConfidenceVisualizer.powerFilter dom with
  | Some p => negb (power_level entry <? p)%Z
  | None => true
  end.

Definition CV_day (dom : ConfidenceVisualizer.Controls) (d : DailyData)
    : option DailyData :=
  let es := filter (CV_matches dom) (entries d) in
  if (0 <? length es)%nat
  then Some {| entries := es;
               daily_confidence_average := mean_power_level es;
               dominant_confidence_area :=
                 ConfidenceVisualizer.getDominantType es |}
  else None.

Definition other_type (t : ConfidenceType) : ConfidenceType :=
  match t with personal => professional | professional => personal end.

(** The object [counts] of [getDominantType] once a first entry of type
    [t0] has been seen: [t0] comes first, the other type follows from its
    first occurrence on. *)
Definition counts_shape (t0 : ConfidenceType) (a b : Z)
    : list (ConfidenceType * Z) :=
  if (b =? 0)%Z then [(t0, a)] else [(t0, a); (other_type t0, b)].

(** The integer [z] as a finite number. *)
Definition zq (z : Z) : Qc := Q2Qc (inject_Z z).

Definition string_le (a b : string) : Prop := (a <=? b)%string = true.

(** The sum of a list of numbers, from the left. *)
Definition sum_numbers (l : list number) : number := fold_left nadd l (of_Z 0).

Definition sum_Qc (l : list Qc) : Qc := fold_right Qcplus 0%Qc l.

(** All the entries of a collection. *)
Definition all_entries (data : ConfidenceData) : list ConfidenceEntry :=
  flat_map entries (values data).

(** Every day of the collection holds an entry, as the data model has it. *)
Definition days_nonempty (data : ConfidenceData) : Prop :=
  Forall (fun day => entries day <> []) (values data).

(** The number of entries of power level [L]. *)
Definition count_level (L : Z) (es : list ConfidenceEntry) : nat :=
  length (filter (fun e => (power_level e =? L)%Z) es).

(** The power level of an entry is one of 1..10. *)
Definition in_level_range (e : ConfidenceEntry) : bool :=
  (1 <=? power_level e)%Z && (power_level e <=? 10)%Z.

(** Every power level of the collection is in 1..10, as the data model
    has it. *)
Definition levels_in_range (data : ConfidenceData) : Prop :=
  Forall (fun e => (1 <= power_level e <= 10)%Z) (all_entries data).

Definition levels : list Z := [1; 2; 3; 4; 5; 6; 7; 8; 9; 10]%Z.

(** The counts of the buckets of the levels 1..10. *)
Definition ten_bucket_counts (a : array DataProcessing.Bucket) : list number :=
  flat_map
    (fun L =>
       match arr_get (L - 1) a with
       | Some b => [DataProcessing.bucket_count b]
       | None => []
       end)
    levels.

(** One step of the inner loop of [getPowerLevelDistribution]. *)
Definition bucket_step (distribution : array number) (entry : ConfidenceEntry)
    : array number :=
  let i := (power_level entry - 1)%Z in
  arr_set i (incr (arr_get i distribution)) distribution.

(** The first ten slots of [distribution] hold the counters [cnt]. *)
Definition holds_counts (distribution : array number) (cnt : nat -> nat) : Prop :=
  (10 <= length distribution)%nat /\
  forall j, (j < 10)%nat ->
    nth_error distribution j = Some (Some (of_nat (cnt j))).

(** The sum of the counters of a [categoryMap]. *)
Definition sum_counts (m : list (Category * DataProcessing.Tally)) : Z :=
  fold_right (fun kv acc => (DataProcessing.count (snd kv) + acc)%Z) 0%Z m.

(** One step of the inner loop of [calculateCategoryStats]. *)
Definition tally_step
    (acc : list (Category * DataProcessing.Tally) * Z) (entry : ConfidenceEntry)
    : list (Category * DataProcessing.Tally) * Z :=
  let '(categoryMap, totalEntries) := acc in
  let totalEntries := (totalEntries + 1)%Z in
  let current :=
    match obj_get Category_eqb (category entry) categoryMap with
    | Some c => c
    | None => {| DataProcessing.total := 0; DataProcessing.count := 0 |}
    end in
  (obj_set Category_eqb (category entry)
     {| DataProcessing.total := DataProcessing.total current + power_level entry;
        DataProcessing.count := DataProcessing.count current + 1 |}
     categoryMap,
   totalEntries).

(** *** The growth trend in the words of the specification *)

(** The entries of the days of a list of dates. *)
Definition entries_of_dates (data : ConfidenceData) (dates : list string)
    : list ConfidenceEntry :=
  flat_map
    (fun date =>
       match obj_get String.eqb date data with
       | Some day => entries day
       | None => []
       end)
    dates.

(** The mean power level of a list of entries, 0 when there is none. *)
Definition mean_or_zero (es : list ConfidenceEntry) : Qc :=
  match es with
  | [] => 0%Qc
  | _ => (zq (sum_Z (map power_level es)) / zq (Z.of_nat (length es)))%Qc
  end.

(** The date keys in increasing order; the first [n / 3] of them are the
    early third, the last [n / 3] the late third; the trend is
    [(late - early) / early * 100], and 0 with fewer than two dates or a
    zero early mean. *)
Definition growth_trend_spec (data : ConfidenceData) : Qc :=
  let dates := sort_strings (keys data) in
  let n := length dates in
  let early := firstn (n / 3) dates in
  let late := skipn (n - n / 3) dates in
  let early_mean := mean_or_zero (entries_of_dates data early) in
  let late_mean := mean_or_zero (entries_of_dates data late) in
  if (n <? 2)%nat then 0%Qc
  else if Qc_eq_dec early_mean 0%Qc then 0%Qc
  else ((late_mean - early_mean) / early_mean * zq 100)%Qc.

(** ** Sample collections *)

Definition mk_entry (t : ConfidenceType) (c : Category) (p : Z) : ConfidenceEntry :=
  {| text := "note"; category := c; confidence_type := t; power_level := p |}.

(** The scenario of the specification: one day, a personal entry of level 8
    and a professional entry of level 4. *)
Definition scenario_day : DailyData :=
  {| entries := [mk_entry personal self_image 8;
                 mk_entry professional technical_skills 4];
     daily_confidence_average := of_Z 6;
     dominant_confidence_area := personal |}.

Definition scenario : ConfidenceData := [("2025-01-01"%string, scenario_day)].

(** A day whose first entry is professional and whose types are tied. *)
Definition tied_entries : list ConfidenceEntry :=
  [mk_entry professional self_image 7; mk_entry personal self_image 5].

Definition tied_day : DailyData :=
  {| entries := tied_entries;
     daily_confidence_average := mean_power_level tied_entries;
     dominant_confidence_area := professional |}.

Definition tied_source : ConfidenceData := [("2025-05-09"%string, tied_day)].

(** A day stored with no entry, and a day stored with an average that is
    not the mean of its entries. *)
Definition empty_day : DailyData :=
  {| entries := [];
     daily_confidence_average := of_Z 0;
     dominant_confidence_area := personal |}.

Definition stale_day : DailyData :=
  {| entries := [mk_entry personal self_image 8];
     daily_confidence_average := of_Z 5;
     dominant_confidence_area := personal |}.

(** Three days, stored out of chronological order. *)
Definition one_entry_day (t : ConfidenceType) (p : Z) : DailyData :=
  {| entries := [mk_entry t self_image p];
     daily_confidence_average := of_Z p;
     dominant_confidence_area := t |}.

Definition three_days : ConfidenceData :=
  [("2025-01-02"%string, one_entry_day professional 9);
   ("2025-01-03"%string, one_entry_day personal 8);
   ("2025-01-01"%string, one_entry_day personal 4)].

(** The filter controls of the page as it loads: every type, every
    category, the slider at its minimum. *)
Definition no_constraint : ConfidenceVisualizer.Controls :=
  {| ConfidenceVisualizer.typeFilter := None;
     ConfidenceVisualizer.categoryFilter := None;
     ConfidenceVisualizer.powerFilter := Some 1%Z |}.

Definition only_personal : ConfidenceVisualizer.Controls :=
  {| ConfidenceVisualizer.typeFilter := Some personal;
     ConfidenceVisualizer.categoryFilter := None;
     ConfidenceVisualizer.powerFilter := Some 1%Z |}.


(** One day with one personal entry and two professional ones: the shares
    are a third and two thirds. *)
Definition thirds : ConfidenceData :=
  [("2025-06-01"%string,
    {| entries := [mk_entry personal self_image 6;
                   mk_entry professional career_development 6;
                   mk_entry professional technical_skills 6];
       daily_confidence_average := of_Z 6;
       dominant_confidence_area := professional |})].

(** ** Notions used by the further properties *)

(** The collection that lists, in the order of the source, every date whose
    day is rebuilt, with the rebuilt day. *)
Definition rebuild (day : DailyData -> option DailyData)
    (source : ConfidenceData) : ConfidenceData :=
  flat_map
    (fun '(date, d) =>
       match day d with
       | Some d' => [(date, d')]
       | None => []
       end)
    source.

(** A day without its dominant type. *)
Definition entries_and_average (kd : string * DailyData)
    : string * list ConfidenceEntry * number :=
  (fst kd, entries (snd kd), daily_confidence_average (snd kd)).

(** The entries of one category. *)
Definition entries_of_category (c : Category) (es : list ConfidenceEntry)
    : list ConfidenceEntry :=
  filter (fun e => Category_eqb (category e) c) es.

(** The value of [categoryMap] for a category whose value was [o] and that
    receives the entries [es]. *)
Definition merge_tally (o : option DataProcessing.Tally)
    (es : list ConfidenceEntry) : option DataProcessing.Tally :=
  match es with
  | [] => o
  | _ =>
      let current :=
        match o with
        | Some c => c
        | None => {| DataProcessing.total := 0; DataProcessing.count := 0 |}
        end in
      Some {| DataProcessing.total :=
                DataProcessing.total current + sum_Z (map power_level es);
              DataProcessing.count :=
                DataProcessing.count current + Z.of_nat (length es) |}
  end.

(** [a] comes before [b] when sorting by decreasing average. *)
Definition not_below (a b : DataProcessing.CategoryStats) : Prop :=
  ngt (DataProcessing.avgPowerLevel b) (DataProcessing.avgPowerLevel a) = false.

(** One step of the counting loop of [getCategoryBreakdown]. *)
Definition breakdown_step
    (breakdown : list (Category * ConfidenceVisualizer.Breakdown))
    (entry : ConfidenceEntry) : list (Category * ConfidenceVisualizer.Breakdown) :=
  match obj_get Category_eqb (category entry) breakdown with
  | Some b =>
      obj_set Category_eqb (category entry)
        {| ConfidenceVisualizer.count := ConfidenceVisualizer.count b + 1;
           ConfidenceVisualizer.totalPower :=
             ConfidenceVisualizer.totalPower b + power_level entry;
           ConfidenceVisualizer.avgPower := ConfidenceVisualizer.avgPower b |}
        breakdown
  | None => breakdown
  end.

(** One step of the averaging loop of [getCategoryBreakdown]. *)
Definition average_step
    (breakdown : list (Category * ConfidenceVisualizer.Breakdown))
    (category : Category) : list (Category * ConfidenceVisualizer.Breakdown) :=
  match obj_get Category_eqb category breakdown with
  | Some b =>
      if (0 <? ConfidenceVisualizer.count b)%Z
      then obj_set Category_eqb category
             {| ConfidenceVisualizer.count := ConfidenceVisualizer.count b;
                ConfidenceVisualizer.totalPower := ConfidenceVisualizer.totalPower b;
                ConfidenceVisualizer.avgPower :=
                  ndiv (of_Z (ConfidenceVisualizer.totalPower b))
                       (of_Z (ConfidenceVisualizer.count b)) |}
             breakdown
      else breakdown
  | None => breakdown
  end.

(** What the averaging loop makes of one value. *)
Definition averaged (b : ConfidenceVisualizer.Breakdown)
    : ConfidenceVisualizer.Breakdown :=
  if (0 <? ConfidenceVisualizer.count b)%Z
  then {| ConfidenceVisualizer.count := ConfidenceVisualizer.count b;
          ConfidenceVisualizer.totalPower := ConfidenceVisualizer.totalPower b;
          ConfidenceVisualizer.avgPower :=
            ndiv (of_Z (ConfidenceVisualizer.totalPower b))
                 (of_Z (ConfidenceVisualizer.count b)) |}
  else b.

(** The counters of a category after the entries [es]. *)
Definition counted (c : Category) (es : list ConfidenceEntry)
    : ConfidenceVisualizer.Breakdown :=
  {| ConfidenceVisualizer.count := Z.of_nat (length (entries_of_category c es));
     ConfidenceVisualizer.totalPower :=
       sum_Z (map power_level (entries_of_category c es));
     ConfidenceVisualizer.avgPower := of_Z 0 |}.

(** The peak that [calculateStats] keeps while it goes through the days. *)
Definition peak (days : ConfidenceData) (start : string * number)
    : string * number :=
  fold_left
    (fun '(peakDay, peakScore) '(date, dayData) =>
       if ngt (daily_confidence_average dayData) peakScore
       then (date, daily_confidence_average dayData)
       else (peakDay, peakScore))
    days
    start.

(** One step of the counting loop of [createCategoryChart]. *)
Definition count_step (categoryCounts : list (Category * Z))
    (entry : ConfidenceEntry) : list (Category * Z) :=
  obj_set Category_eqb (category entry)
    (ConfidenceVisualizer.or_zero
       (obj_get Category_eqb (category entry) categoryCounts) + 1)%Z
    categoryCounts.

(** The counter of a category whose counter was [o] and that receives the
    entries [es]. *)
Definition merge_count (o : option Z) (es : list ConfidenceEntry) : option Z :=
  match es with
  | [] => o
  | _ => Some (ConfidenceVisualizer.or_zero o + Z.of_nat (length es))%Z
  end.

(** The date [date] is of the month [month]. *)
Definition in_month (format : string -> option string) (month date : string) : bool :=
  match format date with
  | Some m => String.eqb m month
  | None => false
  end.

(** The bucket of a month among the dates [dates]: its dates in their
    order, and no bucket for a month without date. *)
Definition month_bucket (format : string -> option string) (month : string)
    (dates : list string) : option (list string) :=
  match filter (in_month format month) dates with
  | [] => None
  | ds => Some ds
  end.

(** One round of the [forEach] of [CalendarHeatmap.months]. *)
Definition month_step (format : string -> option string)
    (acc : option (list (string * list string))) (date : string)
    : option (list (string * list string)) :=
  match acc with
  | None => None
  | Some months =>
      match format date with
      | None => None
      | Some month =>
          let months :=
            match obj_get String.eqb month months with
            | Some _ => months
            | None => obj_set String.eqb month [] months
            end in
          match obj_get String.eqb month months with
          | Some monthDates =>
              Some (obj_set String.eqb month (monthDates ++ [date]) months)
          | None => None
          end
      end
  end.

(** The character [c] occurs in [s]. *)
Fixpoint has_char (c : ascii) (s : string) : bool :=
  match s with
  | EmptyString => false
  | String c' r => Ascii.eqb c' c || has_char c r
  end.

(** The words of [s] joined by spaces, every word but the first one
    capitalised. *)
Definition spaced (s : string) : string :=
  match split "_" s with
  | [] => EmptyString
  | w :: ws => join " " (w :: map capitalize ws)
  end.

(** ** Double precision

    The functions whose results are compared up to rounding are embedded a
    second time with the arithmetic of IEEE 754 doubles: every division,
    product, sum and difference is the exact result rounded to the nearest
    number with a significand of 53 bits, ties to the even significand.
    The counters are integers far below [2 ^ 53] and stay exact.  The
    range of the exponent is not bounded: the values of these functions
    (ratios of counters, percentages, averages of levels) are far from the
    thresholds of overflow and underflow. *)

Module Binary64.

(** The integer nearest to [n / d], for [0 < d]; ties go to the even one. *)
Definition nearest_even (n d : Z) : Z :=
  let q := (n / d)%Z in
  match (2 * (n mod d) ?= d)%Z with
  | Lt => q
  | Gt => (q + 1)%Z
  | Eq => if Z.even q then q else (q + 1)%Z
  end.

(** The fraction [n / d / 2 ^ e]. *)
Definition scaled (n d e : Z) : Z * Z :=
  if (0 <=? e)%Z then (n, (d * 2 ^ e)%Z) else ((n * 2 ^ (- e))%Z, d).

(** The weight of the last bit of the significand of [n / d], for
    [0 < n] and [0 < d]: the [e] with [2 ^ 52 <= n / d / 2 ^ e < 2 ^ 53]. *)
Definition exponent (n d : Z) : Z :=
  let e := (Z.log2 n - Z.log2 d - 52)%Z in
  let '(num, den) := scaled n d e in
  if (2 ^ 52 * den <=? num)%Z then e else (e - 1)%Z.

Definition round_pos (n d : Z) : Qc :=
  let e := exponent n d in
  let '(num, den) := scaled n d e in
  let m := nearest_even num den in
  if (0 <=? e)%Z then zq (m * 2 ^ e) else (zq m / zq (2 ^ (- e)))%Qc.

(** The double nearest to [x]. *)
Definition round (x : Qc) : Qc :=
  match Qnum x with
  | Z0 => x
  | Zpos n => round_pos (Zpos n) (Zpos (Qden x))
  | Zneg n => (- round_pos (Zpos n) (Zpos (Qden x)))%Qc
  end.

(** Half the distance between 1 and the next double. *)
Definition unit_roundoff : Qc := (1 / zq (2 ^ 53))%Qc.

Definition fl (a : number) : number :=
  match a with
  | Num q => Num (round q)
  | _ => a
  end.

Definition nadd (a b : number) : number := fl (JS.nadd a b).
Definition nsub (a b : number) : number := fl (JS.nsub a b).
Definition nmul (a b : number) : number := fl (JS.nmul a b).
Definition ndiv (a b : number) : number := fl (JS.ndiv a b).

(** [l.reduce((sum, x) => sum + x, 0)] *)
Definition sum (l : list number) : number := fold_left nadd l (of_Z 0).

(** [calculateCategoryStats] of [utils/dataProcessing.ts]. *)
Definition calculateCategoryStats (data : ConfidenceData)
    : list DataProcessing.CategoryStats :=
  let '(categoryMap, totalEntries) :=
    fold_left
      (fun acc day =>
         fold_left
           (fun '(categoryMap, totalEntries) entry =>
              let totalEntries := (totalEntries + 1)%Z in
              let current :=
                match obj_get Category_eqb (category entry) categoryMap with
                | Some c => c
                | None => {| DataProcessing.total := 0; DataProcessing.count := 0 |}
                end in
              (obj_set Category_eqb (category entry)
                 {| DataProcessing.total :=
                      DataProcessing.total current + power_level entry;
                    DataProcessing.count := DataProcessing.count current + 1 |}
                 categoryMap,
               totalEntries))
           (entries day) acc)
      (values data)
      ([], 0%Z) in
  let stats :=
    map
      (fun '(category, value) =>
         {| DataProcessing.cs_category := category;
            DataProcessing.avgPowerLevel :=
              ndiv (of_Z (DataProcessing.total value))
                   (of_Z (DataProcessing.count value));
            DataProcessing.entryCount := DataProcessing.count value;
            DataProcessing.percentage :=
              nmul (ndiv (of_Z (DataProcessing.count value)) (of_Z totalEntries))
                   (of_Z 100) |})
      categoryMap in
  sort (fun a b =>
          ngt (nsub (DataProcessing.avgPowerLevel b) (DataProcessing.avgPowerLevel a))
              (of_Z 0))
       stats.

(** [getOverallStats] of [utils/dataProcessing.ts]. *)
Definition getOverallStats (data : ConfidenceData) : DataProcessing.OverallStats :=
  let allEntries := flat_map entries (values data) in
  let allPowerLevels := map power_level allEntries in
  let personalEntries :=
    filter (fun e => ConfidenceType_eqb (confidence_type e) personal) allEntries in
  let professionalEntries :=
    filter (fun e => ConfidenceType_eqb (confidence_type e) professional) allEntries in
  {| DataProcessing.totalDays := length (keys data);
     DataProcessing.totalEntries := length allEntries;
     DataProcessing.avgConfidence :=
       ndiv (of_Z (sum_Z allPowerLevels)) (of_nat (length allPowerLevels));
     DataProcessing.highestConfidence := Math_max (map of_Z allPowerLevels);
     DataProcessing.lowestConfidence := Math_min (map of_Z allPowerLevels);
     DataProcessing.personalPercentage :=
       nmul (ndiv (of_nat (length personalEntries)) (of_nat (length allEntries)))
            (of_Z 100);
     DataProcessing.professionalPercentage :=
       nmul (ndiv (of_nat (length professionalEntries)) (of_nat (length allEntries)))
            (of_Z 100) |}.

End Binary64.

(** The tolerance of the sums of percentages: [2 ^ -42], about
    [2.3e-13]. *)
Definition tolerance : Qc := (1 / zq (2 ^ 42))%Qc.

(** The number [s] is finite and within the tolerance of 100. *)
Definition about_100 (s : number) : Prop :=
  exists q : Qc,
    s = Num q /\ (zq 100 - tolerance <= q)%Qc /\ (q <= zq 100 + tolerance)%Qc.

(** The share of a counter [c] in a total [T], in percent, as the doubles
    give it: the quotient is rounded, then its product by 100. *)
Definition percent64 (c T : Z) : Qc :=
  Binary64.round (Binary64.round (zq c / zq T) * zq 100).

(** The row that [calculateCategoryStats] makes of an entry of
    [categoryMap], for the grand total [T], in double precision. *)
Definition row64 (T : Z) (kv : Category * DataProcessing.Tally)
    : DataProcessing.CategoryStats :=
  {| DataProcessing.cs_category := fst kv;
     DataProcessing.avgPowerLevel :=
       Binary64.ndiv (of_Z (DataProcessing.total (snd kv)))
                     (of_Z (DataProcessing.count (snd kv)));
     DataProcessing.entryCount := DataProcessing.count (snd kv);
     DataProcessing.percentage :=
       Binary64.nmul (Binary64.ndiv (of_Z (DataProcessing.count (snd kv))) (of_Z T))
                     (of_Z 100) |}.

(** ** Facts on lists and objects *)

Lemma fold_left_ext {A B : Type} (f g : A -> B -> A) (l : list B) (a : A) :
  (forall x y, f x y = g x y) -> fold_left f l a = fold_left g l a.
Proof.
  intros Hfg. revert a.
  induction l as [|b l IH]; intros a; simpl; [reflexivity|].
  rewrite Hfg. apply IH.
Qed.

Lemma filter_ext_bool {A : Type} (f g : A -> bool) (l : list A) :
  (forall x, f x = g x) -> filter f l = filter g l.
Proof.
  intros Hfg. induction l as [|x l IH]; simpl; [reflexivity|].
  rewrite Hfg, IH. reflexivity.
Qed.

Lemma filter_filter_same {A : Type} (f : A -> bool) (l : list A) :
  filter f (filter f l) = filter f l.
Proof.
  induction l as [|x l IH]; simpl; [reflexivity|].
  destruct (f x) eqn:Hx; simpl; [rewrite Hx, IH|]; auto.
Qed.

Section ObjFacts.
Context {V : Type}.
Implicit Types (o : list (string * V)) (k : string) (v : V).

Lemma obj_set_In o k v k' v' :
  In (k', v') (obj_set String.eqb k v o) ->
  (k' = k /\ v' = v) \/ In (k', v') o.
Proof.
  induction o as [|[k0 v0] o IH]; simpl.
  - intros [H|[]]. inversion H; auto.
  - destruct (String.eqb k k0) eqn:E.
    + apply String.eqb_eq in E. subst k0.
      intros [H|H]; [inversion H; auto | auto].
    + intros [H|H]; [auto|]. destruct (IH H); auto.
Qed.

Lemma obj_set_fresh o k v :
  ~ In k (keys o) -> obj_set String.eqb k v o = o ++ [(k, v)].
Proof.
  induction o as [|[k0 v0] o IH]; simpl; intros Hk; [reflexivity|].
  destruct (String.eqb k k0) eqn:E.
  - apply String.eqb_eq in E. subst. tauto.
  - rewrite IH; tauto.
Qed.

Lemma obj_set_keys_In o k v k' :
  In k' (keys (obj_set String.eqb k v o)) <-> k' = k \/ In k' (keys o).
Proof.
  induction o as [|[k0 v0] o IH]; simpl.
  - intuition.
  - destruct (String.eqb k k0) eqn:E; simpl.
    + apply String.eqb_eq in E. subst k0. intuition.
    + rewrite IH. intuition.
Qed.

Lemma obj_set_NoDup o k v :
  NoDup (keys o) -> NoDup (keys (obj_set String.eqb k v o)).
Proof.
  induction o as [|[k0 v0] o IH]; simpl; intros Hnd.
  - constructor; [intros []|constructor].
  - inversion Hnd as [|? ? Hnotin Hnd']; subst.
    destruct (String.eqb k k0) eqn:E; simpl.
    + constructor; assumption.
    + constructor; [|auto].
      rewrite obj_set_keys_In. intros [->|H]; [|tauto].
      rewrite String.eqb_refl in E. discriminate.
Qed.
End ObjFacts.

(** ** The filter loops *)

Section Collect.
Variable day : DailyData -> option DailyData.

Let step (acc : ConfidenceData) (kd : string * DailyData) : ConfidenceData :=
  let '(date, d) := kd in
  match day d with
  | Some d' => obj_set String.eqb date d' acc
  | None => acc
  end.

Lemma collect_fold source : collect day source = fold_left step source [].
Proof. reflexivity. Qed.

Lemma fold_step_In source : forall acc date d',
  In (date, d') (fold_left step source acc) ->
  In (date, d') acc \/ exists d, In (date, d) source /\ day d = Some d'.
Proof.
  induction source as [|[k d] source IH]; simpl; intros acc date d' Hin; [auto|].
  apply IH in Hin. destruct Hin as [Hin|(d0 & Hin & Hd)]; [|eauto].
  destruct (day d) as [dd|] eqn:Hday; [|auto].
  apply obj_set_In in Hin. destruct Hin as [[-> ->]|Hin]; eauto.
Qed.

Lemma fold_step_NoDup source : forall acc,
  NoDup (keys acc) -> NoDup (keys (fold_left step source acc)).
Proof.
  induction source as [|[k d] source IH]; simpl; intros acc Hnd; [assumption|].
  apply IH. destruct (day d); [apply obj_set_NoDup|]; assumption.
Qed.

Lemma fold_step_fixed source : forall acc,
  NoDup (keys source) ->
  (forall k, In k (keys source) -> ~ In k (keys acc)) ->
  Forall (fun kd => day (snd kd) = Some (snd kd)) source ->
  fold_left step source acc = acc ++ source.
Proof.
  induction source as [|[k d] source IH]; simpl; intros acc Hnd Hdis Hfix.
  - now rewrite app_nil_r.
  - inversion Hnd as [|? ? Hk Hnd']; subst.
    inversion Hfix as [|? ? Hd Hfix']; subst. simpl in Hd.
    rewrite Hd, obj_set_fresh by (apply Hdis; auto).
    rewrite IH; auto.
    + now rewrite <- app_assoc.
    + intros k' Hk'. unfold keys. rewrite map_app, in_app_iff. simpl.
      intros [H|[<-|[]]]; [apply (Hdis k'); auto | contradiction].
Qed.

(** Every day of the result comes from a day of the source, under the
    same date. *)
Lemma collect_In source date d' :
  In (date, d') (collect day source) ->
  exists d, In (date, d) source /\ day d = Some d'.
Proof.
  intros H. apply fold_step_In in H. destruct H as [[]|H]. exact H.
Qed.

Lemma collect_NoDup source : NoDup (keys (collect day source)).
Proof. apply fold_step_NoDup. constructor. Qed.

(** When rebuilding a rebuilt day changes nothing, nor does collecting
    twice. *)
Lemma collect_idempotent source :
  (forall d d', day d = Some d' -> day d' = Some d') ->
  collect day (collect day source) = collect day source.
Proof.
  intros Hday.
  rewrite (collect_fold (collect day source)).
  rewrite fold_step_fixed; [reflexivity | apply collect_NoDup | auto |].
  apply Forall_forall. intros [k d'] Hin. simpl.
  apply collect_In in Hin. destruct Hin as (d & _ & Hd). eauto.
Qed.
End Collect.

Lemma App_filteredData_collect sc st data :
  sc <> None \/ st <> None ->
  App.filteredData sc st data = collect (App_day sc st) data.
Proof.
  intros Hsel.
  assert (Hloop :
    fold_left
      (fun (filtered : ConfidenceData) '(date, dayData) =>
         let filteredEntries :=
           filter
             (fun entry =>
                match sc with
                | None => true
                | Some c => Category_eqb (category entry) c
                end &&
                match st with
                | None => true
                | Some t => ConfidenceType_eqb (confidence_type entry) t
                end)
             (entries dayData) in
         if (0 <? length filteredEntries)%nat then
           obj_set String.eqb date
             {| entries := filteredEntries;
                daily_confidence_average :=
                  ndiv (of_Z (sum_Z (map power_level filteredEntries)))
                       (of_nat (length (map power_level filteredEntries)));
                dominant_confidence_area :=
                  if ngt (of_nat (length
                            (filter
                               (fun e => ConfidenceType_eqb (confidence_type e) personal)
                               filteredEntries)))
                         (ndiv (of_nat (length filteredEntries)) (of_Z 2))
                  then personal else professional |}
             filtered
         else filtered)
      data [] = collect (App_day sc st) data).
  { unfold collect. apply fold_left_ext. intros acc [date d].
    unfold App_day, App_matches, App_dominant, mean_power_level, count_type.
    cbv zeta. rewrite length_map.
    destruct (0 <? _)%nat; reflexivity. }
  unfold App.filteredData.
  destruct sc, st; try exact Hloop. destruct Hsel; congruence.
Qed.

Lemma CV_filteredData_collect dom data :
  ConfidenceVisualizer.applyFilters_filteredData dom data
  = collect (CV_day dom) data.
Proof.
  unfold ConfidenceVisualizer.applyFilters_filteredData, collect.
  apply fold_left_ext. intros acc [date d].
  unfold CV_day, mean_power_level. cbv zeta.
  replace (filter (CV_matches dom) (entries d)) with
    (filter
       (fun entry =>
          if match ConfidenceVisualizer.typeFilter dom with
             | Some t => negb (ConfidenceType_eqb (confidence_type entry) t)
             | None => false
             end then false
          else if match ConfidenceVisualizer.categoryFilter dom with
                  | Some c => negb (Category_eqb (category entry) c)
                  | None => false
                  end then false
          else if match ConfidenceVisualizer.powerFilter dom with
                  | Some p => (power_level entry <? p)%Z
                  | None => false
                  end then false
          else true)
       (entries d)).
  - destruct (0 <? _)%nat; reflexivity.
  - apply filter_ext_bool. intros e. unfold CV_matches.
    destruct (ConfidenceVisualizer.typeFilter dom) as [t|];
      [destruct (ConfidenceType_eqb (confidence_type e) t)|];
    (destruct (ConfidenceVisualizer.categoryFilter dom) as [c|];
      [destruct (Category_eqb (category e) c)|]);
    (destruct (ConfidenceVisualizer.powerFilter dom) as [p|];
      [destruct (power_level e <? p)%Z|]); reflexivity.
Qed.

(** ** Facts on numbers *)

(** Closed equations between numbers, by evaluation: the values are
    computed and the canonical forms compared. *)
Ltac number_compute :=
  vm_compute;
  lazymatch goal with
  | |- Num _ = Num _ => f_equal; apply Qc_is_canon; reflexivity
  | |- _ => reflexivity
  end.

Lemma of_Z_zq z : of_Z z = Num (zq z).
Proof. reflexivity. Qed.

Lemma zq_Q z : (zq z : Q) == inject_Z z.
Proof.
  change (this (zq z)) with (Qred (inject_Z z)). apply Qred_correct.
Qed.

Lemma zq_add a b : zq (a + b) = (zq a + zq b)%Qc.
Proof.
  apply Qc_is_canon. rewrite zq_Q.
  change (this (zq a + zq b)%Qc) with (Qred (zq a + zq b)).
  rewrite Qred_correct, !zq_Q, inject_Z_plus. reflexivity.
Qed.

Lemma is_zero_zq z : is_zero (zq z) = (z =? 0)%Z.
Proof.
  unfold is_zero. apply eq_true_iff_eq.
  rewrite Qeq_bool_iff, zq_Q, Z.eqb_eq.
  unfold Qeq. simpl. lia.
Qed.

Lemma ndiv_zq a b :
  b <> 0%Z -> ndiv (of_Z a) (of_Z b) = Num (zq a / zq b)%Qc.
Proof.
  intros Hb. unfold ndiv, of_Z. fold (zq a) (zq b).
  rewrite is_zero_zq. apply Z.eqb_neq in Hb. now rewrite Hb.
Qed.

Lemma nadd_of_Z a b : nadd (of_Z a) (of_Z b) = of_Z (a + b).
Proof. unfold nadd, of_Z. fold (zq a) (zq b) (zq (a + b)). now rewrite zq_add. Qed.

(** [a > n / 2] on counters: twice [a] exceeds [n]. *)
Lemma ngt_half a n :
  ngt (of_nat a) (ndiv (of_nat n) (of_Z 2)) = (n <? 2 * a)%nat.
Proof.
  unfold of_nat. rewrite ndiv_zq by lia. rewrite of_Z_zq. unfold ngt.
  apply eq_true_iff_eq. rewrite negb_true_iff, Nat.ltb_lt.
  rewrite <- not_true_iff_false, Qle_bool_iff.
  assert (H : (zq (Z.of_nat n) / zq 2)%Qc == inject_Z (Z.of_nat n) / inject_Z 2).
  { change (this (zq (Z.of_nat n) / zq 2)%Qc)
      with (Qred (zq (Z.of_nat n) * Qred (/ zq 2))).
    rewrite !Qred_correct, !zq_Q. reflexivity. }
  rewrite H, zq_Q. unfold Qle, Qdiv, Qmult, Qinv. simpl. lia.
Qed.

(** ** What the two filters make of one day *)

Lemma filter_nonempty_length {A : Type} (l : list A) :
  (0 <? length l)%nat = true <-> l <> [].
Proof.
  destruct l; simpl; split; intros H; try congruence; try discriminate.
  reflexivity.
Qed.

Lemma App_day_Some sc st d d' :
  App_day sc st d = Some d' ->
  entries d' = filter (App_matches sc st) (entries d) /\
  entries d' <> [] /\
  daily_confidence_average d' = mean_power_level (entries d') /\
  dominant_confidence_area d' = App_dominant (entries d').
Proof.
  unfold App_day.
  destruct (0 <? _)%nat eqn:Hlen; [|discriminate].
  intros H. injection H as <-. simpl.
  apply filter_nonempty_length in Hlen. auto.
Qed.

Lemma App_day_fixed sc st d d' :
  App_day sc st d = Some d' -> App_day sc st d' = Some d'.
Proof.
  unfold App_day.
  destruct (0 <? _)%nat eqn:Hlen; [|discriminate].
  intros H. injection H as <-. simpl.
  rewrite filter_filter_same, Hlen. reflexivity.
Qed.

Lemma CV_day_Some dom d d' :
  CV_day dom d = Some d' ->
  entries d' = filter (CV_matches dom) (entries d) /\
  entries d' <> [] /\
  daily_confidence_average d' = mean_power_level (entries d') /\
  dominant_confidence_area d' =
    ConfidenceVisualizer.getDominantType (entries d').
Proof.
  unfold CV_day.
  destruct (0 <? _)%nat eqn:Hlen; [|discriminate].
  intros H. injection H as <-. simpl.
  apply filter_nonempty_length in Hlen. auto.
Qed.

Lemma CV_day_fixed dom d d' :
  CV_day dom d = Some d' -> CV_day dom d' = Some d'.
Proof.
  unfold CV_day.
  destruct (0 <? _)%nat eqn:Hlen; [|discriminate].
  intros H. injection H as <-. simpl.
  rewrite filter_filter_same, Hlen. reflexivity.
Qed.

Lemma In_keys {V : Type} (k : string) (v : V) (o : list (string * V)) :
  In (k, v) o -> In k (keys o).
Proof. intros H. apply (in_map fst) in H. exact H. Qed.

(** ** The dominant type *)

Lemma count_type_total es :
  (count_type personal es + count_type professional es = length es)%nat.
Proof.
  unfold count_type. induction es as [|e es IH]; simpl; [reflexivity|].
  destruct (confidence_type e); simpl; lia.
Qed.

(** The React rule: [personal] needs a strict majority. *)
Lemma App_dominant_spec es :
  App_dominant es =
  if (count_type professional es <? count_type personal es)%nat
  then personal else professional.
Proof.
  unfold App_dominant. rewrite ngt_half.
  pose proof (count_type_total es) as Ht.
  destruct (Nat.ltb_spec (length es) (2 * count_type personal es));
    destruct (Nat.ltb_spec (count_type professional es) (count_type personal es));
    try reflexivity; lia.
Qed.

Lemma counts_fold t0 es : forall a b,
  (0 < a)%Z -> (0 <= b)%Z ->
  fold_left
    (fun counts entry =>
       obj_set ConfidenceType_eqb (confidence_type entry)
         (ConfidenceVisualizer.or_zero
            (obj_get ConfidenceType_eqb (confidence_type entry) counts) + 1)%Z
         counts)
    es (counts_shape t0 a b)
  = counts_shape t0 (a + Z.of_nat (count_type t0 es))
                    (b + Z.of_nat (count_type (other_type t0) es)).
Proof.
  induction es as [|e es IH]; intros a b Ha Hb.
  - simpl. now rewrite !Z.add_0_r.
  - cbn [fold_left].
    assert (Hstep :
      obj_set ConfidenceType_eqb (confidence_type e)
        (ConfidenceVisualizer.or_zero
           (obj_get ConfidenceType_eqb (confidence_type e) (counts_shape t0 a b)) + 1)%Z
        (counts_shape t0 a b)
      = counts_shape t0
          (a + Z.of_nat (count_type t0 [e]))
          (b + Z.of_nat (count_type (other_type t0) [e]))).
    { unfold counts_shape, count_type, ConfidenceVisualizer.or_zero.
      destruct e as [tx c t p].
      destruct (Z.eqb_spec b 0) as [->|Hb0]; destruct t0, t; simpl;
        repeat match goal with
               | |- context [(?x =? 0)%Z] => destruct (Z.eqb_spec x 0); try lia
               end;
        try reflexivity; repeat f_equal; lia. }
    rewrite Hstep, IH.
    + f_equal; unfold count_type; destruct e as [tx c t p];
        destruct t0, t; simpl; lia.
    + unfold count_type; destruct e as [tx c t p]; destruct t0, t; simpl; lia.
    + unfold count_type; destruct e as [tx c t p]; destruct t0, t; simpl; lia.
Qed.

(** [getDominantType]: the type of the first entry wins unless the other
    type has strictly more entries; [personal] is the answer for no entry. *)
Lemma getDominantType_cons e es :
  ConfidenceVisualizer.getDominantType (e :: es) =
  let t0 := confidence_type e in
  if (count_type t0 (e :: es) <? count_type (other_type t0) (e :: es))%nat
  then other_type t0 else t0.
Proof.
  unfold ConfidenceVisualizer.getDominantType. cbn [fold_left].
  change (obj_set ConfidenceType_eqb (confidence_type e)
            (ConfidenceVisualizer.or_zero
               (obj_get ConfidenceType_eqb (confidence_type e) []) + 1)%Z [])
    with (counts_shape (confidence_type e) 1 0).
  rewrite counts_fold by lia. cbv zeta.
  assert (H0 : count_type (confidence_type e) (e :: es)
               = S (count_type (confidence_type e) es)).
  { unfold count_type. simpl. destruct (confidence_type e); reflexivity. }
  assert (H1 : count_type (other_type (confidence_type e)) (e :: es)
               = count_type (other_type (confidence_type e)) es).
  { unfold count_type. simpl. destruct (confidence_type e); reflexivity. }
  rewrite H0, H1. clear H0 H1.
  set (c0 := count_type (confidence_type e) es).
  set (c1 := count_type (other_type (confidence_type e)) es).
  clearbody c0 c1. unfold counts_shape.
  destruct (Z.eqb_spec (0 + Z.of_nat c1) 0) as [Hz|Hz];
    cbn [sort insert_sorted snd].
  - destruct (Nat.ltb_spec (S c0) c1); [lia | reflexivity].
  - destruct (Z.gtb_spec (0 + Z.of_nat c1 - (1 + Z.of_nat c0)) 0);
      destruct (Nat.ltb_spec (S c0) c1); try reflexivity; lia.
Qed.

Lemma getDominantType_nil : ConfidenceVisualizer.getDominantType [] = personal.
Proof. reflexivity. Qed.

(** ** The claims on the filters *)

Lemma selection_cases (sc : option Category) (st : option ConfidenceType) :
  (sc = None /\ st = None) \/ (sc <> None \/ st <> None).
Proof.
  destruct sc, st;
    [right; left; discriminate | right; left; discriminate
    | right; right; discriminate | left; auto].
Qed.

(** C1, counterexample.  The day ["2025-05-09"] of [tied_source] holds a
    professional entry followed by a personal one.  With no constraint
    [applyFilters] retains both, the types are tied, and the dominant type
    it stores is [professional], not [personal]. *)
Lemma tie_vanilla_path_professional :
  option_map entries
    (obj_get String.eqb "2025-05-09"%string
       (ConfidenceVisualizer.applyFilters_filteredData no_constraint tied_source))
  = Some tied_entries /\
  tie tied_entries /\
  option_map dominant_confidence_area
    (obj_get String.eqb "2025-05-09"%string
       (ConfidenceVisualizer.applyFilters_filteredData no_constraint tied_source))
  = Some professional.
Proof. repeat split. Qed.

(** C1, as amended.  When the retained entries of a day are tied between
    the two types, the React filter (with a category or a type selected)
    stores [professional], and [applyFilters] stores the type of the first
    retained entry: the type met first keeps the first place of the stable
    sort of [getDominantType], whose ['personal'] default is reached for
    an empty list only. *)
Theorem dominant_on_tie (data : ConfidenceData) (date : string) (d : DailyData) :
  tie (entries d) ->
  (forall sc st,
     sc <> None \/ st <> None ->
     In (date, d) (App.filteredData sc st data) ->
     dominant_confidence_area d = professional) /\
  (forall dom,
     In (date, d) (ConfidenceVisualizer.applyFilters_filteredData dom data) ->
     exists e rest,
       entries d = e :: rest /\ dominant_confidence_area d = confidence_type e).
Proof.
  intros Htie. split.
  - intros sc st Hsel Hin.
    rewrite App_filteredData_collect in Hin by assumption.
    apply collect_In in Hin. destruct Hin as (d0 & _ & Hday).
    apply App_day_Some in Hday. destruct Hday as (_ & _ & _ & ->).
    rewrite App_dominant_spec. unfold tie in Htie. rewrite Htie.
    now rewrite Nat.ltb_irrefl.
  - intros dom Hin.
    rewrite CV_filteredData_collect in Hin.
    apply collect_In in Hin. destruct Hin as (d0 & _ & Hday).
    apply CV_day_Some in Hday. destruct Hday as (_ & Hne & _ & Hdom).
    destruct (entries d) as [|e rest] eqn:He; [congruence|].
    exists e, rest. split; [reflexivity|].
    rewrite Hdom, getDominantType_cons. cbv zeta.
    unfold tie in Htie.
    destruct (confidence_type e); simpl other_type;
      [rewrite Htie | rewrite <- Htie]; now rewrite Nat.ltb_irrefl.
Qed.

Lemma dominant_on_tie_witness :
  dominant_confidence_area tied_day = professional /\
  exists e rest,
    entries tied_day = e :: rest /\
    dominant_confidence_area tied_day = confidence_type e.
Proof.
  assert (Htie : tie (entries tied_day)) by reflexivity.
  split.
  - apply (proj1 (dominant_on_tie tied_source "2025-05-09" tied_day Htie)
             (Some self_image) None).
    + left. discriminate.
    + vm_compute. left. reflexivity.
  - apply (proj2 (dominant_on_tie tied_source "2025-05-09" tied_day Htie)
             no_constraint).
    vm_compute. left. reflexivity.
Defined.

(** C2, as amended.  Every date of the result of either filter is a date
    of the input.  [applyFilters], whatever the controls are, and the React
    filter with a category or a type selected, rebuild every day and never
    retain a date whose filtered entry list is empty.  With neither
    selected the React filter returns its input as it is: there a retained
    date is sure to hold an entry only when every stored day of the input
    does. *)
Theorem filter_dates_from_input_nonempty
    (data : ConfidenceData) (date : string) (d : DailyData) :
  (forall dom,
     In (date, d) (ConfidenceVisualizer.applyFilters_filteredData dom data) ->
     In date (keys data) /\ entries d <> []) /\
  (forall sc st,
     In (date, d) (App.filteredData sc st data) ->
     In date (keys data) /\
     ((sc <> None \/ st <> None) \/ days_nonempty data -> entries d <> [])).
Proof.
  split.
  - intros dom Hin. rewrite CV_filteredData_collect in Hin.
    apply collect_In in Hin. destruct Hin as (d0 & Hin0 & Hday).
    apply CV_day_Some in Hday. split; [eapply In_keys; eauto | tauto].
  - intros sc st Hin.
    pose proof (selection_cases sc st) as Hcases.
    destruct Hcases as [[-> ->]|Hsel].
    + simpl in Hin. split; [eapply In_keys; eauto|].
      intros [[H|H]|Hdays]; try congruence.
      unfold days_nonempty in Hdays. rewrite Forall_forall in Hdays.
      apply Hdays. apply (in_map snd) in Hin. exact Hin.
    + rewrite App_filteredData_collect in Hin by assumption.
      apply collect_In in Hin. destruct Hin as (d0 & Hin0 & Hday).
      apply App_day_Some in Hday. split; [eapply In_keys; eauto | tauto].
Qed.

Lemma filter_dates_from_input_nonempty_witness :
  (In "2025-05-09"%string (keys tied_source) /\ entries tied_day <> []) /\
  (In "2025-05-09"%string (keys tied_source) /\ entries tied_day <> []) /\
  (In "2025-05-09"%string (keys tied_source) /\ entries tied_day <> []).
Proof.
  split; [|split].
  - apply (proj1 (filter_dates_from_input_nonempty
                    tied_source "2025-05-09" tied_day) no_constraint).
    vm_compute. left. reflexivity.
  - destruct (proj2 (filter_dates_from_input_nonempty
                       tied_source "2025-05-09" tied_day)
                (Some self_image) None) as (Hk & Hne).
    + vm_compute. left. reflexivity.
    + split; [exact Hk | apply Hne; left; left; discriminate].
  - destruct (proj2 (filter_dates_from_input_nonempty
                       tied_source "2025-05-09" tied_day)
                None None) as (Hk & Hne).
    + left. reflexivity.
    + split; [exact Hk|]. apply Hne. right.
      repeat constructor. simpl. discriminate.
Defined.

(** C2, counterexample.  With neither a category nor a type selected the
    React filter retains a date whose entry list is empty: the day
    ["2025-03-01"], stored with no entry, comes back as it is. *)
Example no_selection_keeps_empty_day :
  In ("2025-03-01"%string, empty_day)
     (App.filteredData None None [("2025-03-01"%string, empty_day)]) /\
  entries empty_day = [].
Proof. split; [left|]; reflexivity. Qed.

(** C5.  Filtering is idempotent on both paths: filtering the result of a
    filter again, with the same selection, returns that result (same dates
    in the same order, same entries, same average, same dominant type). *)
Theorem filter_idempotent (data : ConfidenceData) :
  (forall sc st,
     App.filteredData sc st (App.filteredData sc st data)
     = App.filteredData sc st data) /\
  (forall dom,
     ConfidenceVisualizer.applyFilters_filteredData dom
       (ConfidenceVisualizer.applyFilters_filteredData dom data)
     = ConfidenceVisualizer.applyFilters_filteredData dom data) /\
  (forall dom this,
     ConfidenceVisualizer.applyFilters dom
       (fst (ConfidenceVisualizer.applyFilters dom this))
     = ConfidenceVisualizer.applyFilters dom this).
Proof.
  split; [|split].
  - intros sc st.
    pose proof (selection_cases sc st) as Hcases.
    destruct Hcases as [[-> ->]|Hsel]; [reflexivity|].
    rewrite !App_filteredData_collect by assumption.
    apply collect_idempotent. apply App_day_fixed.
  - intros dom. rewrite !CV_filteredData_collect.
    apply collect_idempotent. apply CV_day_fixed.
  - reflexivity.
Qed.

(** C10.  With no category and no type selected, the React filter returns
    the source collection itself. *)
Theorem no_selection_identity (confidenceData : ConfidenceData) :
  App.filteredData None None confidenceData = confidenceData.
Proof. reflexivity. Qed.

Lemma mean_power_level_nonempty es :
  es <> [] ->
  mean_power_level es
  = Num (zq (sum_Z (map power_level es)) / zq (Z.of_nat (length es)))%Qc.
Proof.
  intros Hne. unfold mean_power_level, of_nat. apply ndiv_zq.
  destruct es; [congruence | simpl; lia].
Qed.

(** C6, counterexample.  With no category and no type selected the React
    filter returns the stored record: the day keeps its stored average 5,
    which is not the mean 8 of its one retained entry. *)
Lemma no_selection_keeps_stored_average :
  In ("2025-03-02"%string, stale_day)
     (App.filteredData None None [("2025-03-02"%string, stale_day)]) /\
  daily_confidence_average stale_day = of_Z 5 /\
  mean_power_level (entries stale_day) = of_Z 8 /\
  daily_confidence_average stale_day <> mean_power_level (entries stale_day).
Proof.
  split; [left; reflexivity|]. split; [reflexivity|].
  assert (Hmean : mean_power_level (entries stale_day) = of_Z 8).
  { number_compute. }
  split; [exact Hmean|].
  rewrite Hmean. simpl. unfold of_Z. intros H. discriminate H.
Qed.

(** C6, as amended.  [applyFilters], for every setting of its controls, and
    the React filter, when a category or a type is selected, store with
    every retained date the exact mean of the power levels of the retained
    entries of that date: the sum divided by the number of entries,
    computed from the retained entries and not read from the input.  (With
    neither selected the React filter returns the stored records.) *)
Theorem filter_recomputes_average
    (data : ConfidenceData) (date : string) (d : DailyData) :
  (forall dom,
     In (date, d) (ConfidenceVisualizer.applyFilters_filteredData dom data) ->
     (exists d0, In (date, d0) data /\
                 entries d = filter (CV_matches dom) (entries d0)) /\
     daily_confidence_average d
     = Num (zq (sum_Z (map power_level (entries d)))
            / zq (Z.of_nat (length (entries d))))%Qc) /\
  (forall sc st,
     sc <> None \/ st <> None ->
     In (date, d) (App.filteredData sc st data) ->
     (exists d0, In (date, d0) data /\
                 entries d = filter (App_matches sc st) (entries d0)) /\
     daily_confidence_average d
     = Num (zq (sum_Z (map power_level (entries d)))
            / zq (Z.of_nat (length (entries d))))%Qc).
Proof.
  split.
  - intros dom Hin. rewrite CV_filteredData_collect in Hin.
    apply collect_In in Hin. destruct Hin as (d0 & Hin0 & Hday).
    apply CV_day_Some in Hday. destruct Hday as (He & Hne & Havg & _).
    split; [eauto|]. rewrite Havg. now apply mean_power_level_nonempty.
  - intros sc st Hsel Hin.
    rewrite App_filteredData_collect in Hin by assumption.
    apply collect_In in Hin. destruct Hin as (d0 & Hin0 & Hday).
    apply App_day_Some in Hday. destruct Hday as (He & Hne & Havg & _).
    split; [eauto|]. rewrite Havg. now apply mean_power_level_nonempty.
Qed.

Lemma filter_recomputes_average_witness :
  daily_confidence_average tied_day
  = Num (zq (sum_Z (map power_level (entries tied_day)))
         / zq (Z.of_nat (length (entries tied_day))))%Qc /\
  daily_confidence_average tied_day
  = Num (zq (sum_Z (map power_level (entries tied_day)))
         / zq (Z.of_nat (length (entries tied_day))))%Qc.
Proof.
  split.
  - apply (proj1 (filter_recomputes_average tied_source "2025-05-09" tied_day)
             no_constraint).
    vm_compute. left. reflexivity.
  - apply (proj2 (filter_recomputes_average tied_source "2025-05-09" tied_day)
             (Some self_image) None).
    + left. discriminate.
    + vm_compute. left. reflexivity.
Defined.

(** ** The overall statistics on an empty collection *)

Lemma calculateStats_empty (source : ConfidenceData) :
  ConfidenceVisualizer.calculateStats
    {| ConfidenceVisualizer.data := source;
       ConfidenceVisualizer.filteredData := [] |}
  = {| ConfidenceVisualizer.avgConfidence := of_Z 0;
       ConfidenceVisualizer.totalEntries := 0;
       ConfidenceVisualizer.peakDay := EmptyString;
       ConfidenceVisualizer.peakScore := of_Z 0 |}.
Proof. reflexivity. Qed.

(** C3.  Selecting a category with no entry empties the React view, and
    [getOverallStats] on the empty collection divides 0 by 0: its average
    and its two percentages are [NaN], its maximum is [-Infinity] and its
    minimum is [Infinity]. *)
Theorem getOverallStats_empty :
  App.filteredData (Some creative_work) None scenario = [] /\
  DataProcessing.getOverallStats []
  = {| DataProcessing.totalDays := 0;
       DataProcessing.totalEntries := 0;
       DataProcessing.avgConfidence := NaN;
       DataProcessing.highestConfidence := NegInfinity;
       DataProcessing.lowestConfidence := Infinity;
       DataProcessing.personalPercentage := NaN;
       DataProcessing.professionalPercentage := NaN |}.
Proof. split; reflexivity. Qed.

(** ** The growth trend and the filters *)

Lemma calculateGrowthTrend_data (a b : ConfidenceVisualizer.t) :
  ConfidenceVisualizer.data a = ConfidenceVisualizer.data b ->
  ConfidenceVisualizer.calculateGrowthTrend a
  = ConfidenceVisualizer.calculateGrowthTrend b.
Proof.
  destruct a as [da fa], b as [db fb]. simpl. intros ->. reflexivity.
Qed.

Lemma calculateStats_filteredData (a b : ConfidenceVisualizer.t) :
  ConfidenceVisualizer.filteredData a = ConfidenceVisualizer.filteredData b ->
  ConfidenceVisualizer.calculateStats a = ConfidenceVisualizer.calculateStats b.
Proof.
  destruct a as [da fa], b as [db fb]. simpl. intros ->. reflexivity.
Qed.

(** C9.  [applyFilters] leaves [this.data] as it is, and the growth trend
    it shows is the one of the unfiltered collection, the same for every
    setting of the controls, while the statistics it shows are those of the
    filtered view. *)
Theorem growth_trend_ignores_filters
    (dom : ConfidenceVisualizer.Controls) (this : ConfidenceVisualizer.t) :
  let this' := fst (ConfidenceVisualizer.applyFilters dom this) in
  let shown := snd (ConfidenceVisualizer.applyFilters dom this) in
  ConfidenceVisualizer.data this' = ConfidenceVisualizer.data this /\
  ConfidenceVisualizer.filteredData this'
  = ConfidenceVisualizer.applyFilters_filteredData dom
      (ConfidenceVisualizer.data this) /\
  ConfidenceVisualizer.trend shown
  = ConfidenceVisualizer.calculateGrowthTrend this /\
  ConfidenceVisualizer.trend shown
  = ConfidenceVisualizer.trend (ConfidenceVisualizer.processData this) /\
  (forall dom',
     ConfidenceVisualizer.trend
       (snd (ConfidenceVisualizer.applyFilters dom' this'))
     = ConfidenceVisualizer.trend shown) /\
  ConfidenceVisualizer.stats shown = ConfidenceVisualizer.calculateStats this'.
Proof.
  cbv zeta. repeat split.
Qed.

(** On [three_days] the trend is 100 percent with or without the type
    filter, while the average shown moves from 7 to 6. *)
Example growth_trend_three_days :
  let this := {| ConfidenceVisualizer.data := three_days;
                 ConfidenceVisualizer.filteredData := three_days |} in
  ConfidenceVisualizer.calculateGrowthTrend this = of_Z 100 /\
  ConfidenceVisualizer.avgConfidence (ConfidenceVisualizer.calculateStats this)
  = of_Z 7 /\
  ConfidenceVisualizer.trend
    (snd (ConfidenceVisualizer.applyFilters only_personal this)) = of_Z 100 /\
  ConfidenceVisualizer.avgConfidence
    (ConfidenceVisualizer.stats
       (snd (ConfidenceVisualizer.applyFilters only_personal this)))
  = of_Z 6.
Proof.
  cbv zeta. repeat split; number_compute.
Qed.

(** ** Sorting *)

Section SortFacts.
Context {A : Type} (after : A -> A -> bool).

Lemma insert_sorted_perm x l : Permutation (insert_sorted after x l) (x :: l).
Proof.
  induction l as [|y l IH]; simpl; [reflexivity|].
  destruct (after x y); [|reflexivity].
  rewrite IH. apply perm_swap.
Qed.

Lemma sort_perm l : Permutation (sort after l) l.
Proof.
  induction l as [|x l IH]; simpl; [reflexivity|].
  rewrite insert_sorted_perm. now constructor.
Qed.

Lemma sort_length l : length (sort after l) = length l.
Proof. apply Permutation_length, sort_perm. Qed.

(** When two elements are always ordered one way or the other, the
    result is sorted. *)
Variable le : A -> A -> Prop.
Hypothesis after_false : forall x y, after x y = false -> le x y.
Hypothesis after_true : forall x y, after x y = true -> le y x.

Lemma insert_sorted_Sorted x l :
  Sorted le l -> Sorted le (insert_sorted after x l).
Proof.
  induction l as [|y l IH]; simpl; intros Hs.
  - repeat constructor.
  - destruct (after x y) eqn:E.
    + inversion Hs as [|? ? Hs' Hhd]; subst.
      constructor; [auto|].
      destruct l as [|z l]; simpl.
      * constructor. auto.
      * destruct (after x z); constructor; auto.
        inversion Hhd; assumption.
    + constructor; [assumption|]. constructor. auto.
Qed.

Lemma sort_Sorted l : Sorted le (sort after l).
Proof.
  induction l as [|x l IH]; simpl; [constructor|].
  now apply insert_sorted_Sorted.
Qed.
End SortFacts.

Lemma sort_strings_Sorted l : Sorted string_le (sort_strings l).
Proof.
  apply sort_Sorted; intros x y; unfold string_le, String.ltb, String.leb.
  - rewrite (String.compare_antisym x y).
    destruct (String.compare y x); simpl; congruence.
  - destruct (String.compare y x); simpl; congruence.
Qed.

Lemma sort_strings_perm l : Permutation (sort_strings l) l.
Proof. apply sort_perm. Qed.

(** ** The growth trend *)

Lemma fold_add_sum_Z l : forall a, fold_left Z.add l a = (a + sum_Z l)%Z.
Proof.
  unfold sum_Z. induction l as [|x l IH]; intros a; simpl; [lia|].
  rewrite IH, (IH x). lia.
Qed.

Lemma sum_Z_cons x l : sum_Z (x :: l) = (x + sum_Z l)%Z.
Proof. unfold sum_Z at 1. simpl. apply fold_add_sum_Z. Qed.

Lemma sum_Z_app l1 l2 : sum_Z (l1 ++ l2) = (sum_Z l1 + sum_Z l2)%Z.
Proof.
  induction l1 as [|x l1 IH]; simpl; [reflexivity|].
  rewrite !sum_Z_cons, IH. lia.
Qed.

Lemma tally_fold es : forall total count,
  fold_left
    (fun '(total, count) entry =>
       ((total + power_level entry)%Z, (count + 1)%Z))
    es (total, count)
  = ((total + sum_Z (map power_level es))%Z,
     (count + Z.of_nat (length es))%Z).
Proof.
  induction es as [|e es IH]; intros total count.
  - simpl. f_equal; unfold sum_Z; simpl; lia.
  - cbn [fold_left]. rewrite IH. cbn [map length]. rewrite sum_Z_cons.
    f_equal; lia.
Qed.

Lemma dates_fold this dates : forall total count,
  fold_left
    (fun '(total, count) date =>
       match obj_get String.eqb date (ConfidenceVisualizer.data this) with
       | Some day =>
           fold_left
             (fun '(total, count) entry =>
                ((total + power_level entry)%Z, (count + 1)%Z))
             (entries day)
             (total, count)
       | None => (total, count)
       end)
    dates (total, count)
  = ((total + sum_Z (map power_level
                       (entries_of_dates (ConfidenceVisualizer.data this) dates)))%Z,
     (count + Z.of_nat
                (length (entries_of_dates (ConfidenceVisualizer.data this) dates)))%Z).
Proof.
  induction dates as [|date dates IH]; intros total count.
  - simpl. f_equal; unfold sum_Z; simpl; lia.
  - cbn [fold_left entries_of_dates flat_map].
    fold (entries_of_dates (ConfidenceVisualizer.data this) dates).
    destruct (obj_get String.eqb date (ConfidenceVisualizer.data this)) as [day|].
    + rewrite tally_fold, IH, map_app, sum_Z_app, length_app. f_equal; lia.
    + rewrite IH. reflexivity.
Qed.

Lemma zq_0 : zq 0 = 0%Qc.
Proof. apply Qc_is_canon. reflexivity. Qed.

(** [getAverageForDates] is the mean over the entries of the dates, 0 when
    they hold no entry. *)
Lemma getAverageForDates_spec this dates :
  ConfidenceVisualizer.getAverageForDates this dates
  = Num (mean_or_zero (entries_of_dates (ConfidenceVisualizer.data this) dates)).
Proof.
  unfold ConfidenceVisualizer.getAverageForDates.
  rewrite dates_fold. rewrite !Z.add_0_l.
  destruct (entries_of_dates (ConfidenceVisualizer.data this) dates) as [|e es].
  - simpl. now rewrite of_Z_zq, zq_0.
  - replace (0 <? Z.of_nat (length (e :: es)))%Z with true
      by (symmetry; apply Z.ltb_lt; simpl; lia).
    rewrite ndiv_zq by (simpl; lia). reflexivity.
Qed.

Lemma slice_prefix {A : Type} (l : list A) (k : nat) :
  (k <= length l)%nat ->
  slice 0 (Some (Z.of_nat k)) l = firstn k l.
Proof.
  intros Hk. unfold slice. simpl.
  replace (Z.of_nat k <? 0)%Z with false by (symmetry; apply Z.ltb_ge; lia).
  rewrite Z.min_l by lia. rewrite Z.min_l by lia.
  rewrite Z.sub_0_r, Nat2Z.id. reflexivity.
Qed.

Lemma slice_suffix {A : Type} (l : list A) (k : nat) :
  (0 < k <= length l)%nat ->
  slice (- Z.of_nat k) None l = skipn (length l - k) l.
Proof.
  intros Hk. unfold slice.
  replace (- Z.of_nat k <? 0)%Z with true by (symmetry; apply Z.ltb_lt; lia).
  rewrite Z.max_l by lia.
  replace (Z.to_nat (Z.of_nat (length l) + - Z.of_nat k)) with (length l - k)%nat by lia.
  apply firstn_all2. rewrite length_skipn. lia.
Qed.

Lemma strict_eq_zero q :
  strict_eq (Num q) (of_Z 0) = if Qc_eq_dec q 0%Qc then true else false.
Proof.
  rewrite of_Z_zq, zq_0. unfold strict_eq.
  destruct (Qc_eq_dec q 0%Qc) as [->|Hq]; [reflexivity|].
  apply not_true_is_false. intros H. apply Qeq_bool_eq in H.
  apply Hq. now apply Qc_is_canon.
Qed.

Lemma is_zero_false q : q <> 0%Qc -> is_zero q = false.
Proof.
  intros Hq. unfold is_zero. apply not_true_is_false. intros H.
  apply Qeq_bool_eq in H. apply Hq. now apply Qc_is_canon.
Qed.

(** C7.  [calculateGrowthTrend] sorts the date keys in increasing order
    (the chronological order of ISO dates) and returns the trend of the
    specification: with [n] dates, the early third is the first [n / 3]
    dates and the late third the last [n / 3], each with the mean power
    level of all its entries (0 when it has none), and the result is
    [(late - early) / early * 100], or 0 with fewer than two dates or a zero
    early mean. *)
Theorem calculateGrowthTrend_spec (this : ConfidenceVisualizer.t) :
  let dates := sort_strings (keys (ConfidenceVisualizer.data this)) in
  Sorted string_le dates /\
  Permutation dates (keys (ConfidenceVisualizer.data this)) /\
  ConfidenceVisualizer.calculateGrowthTrend this
  = Num (growth_trend_spec (ConfidenceVisualizer.data this)).
Proof.
  cbv zeta. split; [apply sort_strings_Sorted|].
  split; [apply sort_strings_perm|].
  unfold ConfidenceVisualizer.calculateGrowthTrend, growth_trend_spec.
  set (dates := sort_strings (keys (ConfidenceVisualizer.data this))).
  cbv zeta.
  destruct (length dates <? 2)%nat eqn:Hn; [now rewrite of_Z_zq, zq_0|].
  apply Nat.ltb_ge in Hn.
  replace (Z.of_nat (length dates) / 3)%Z with (Z.of_nat (length dates / 3))
    by (rewrite Nat2Z.inj_div; reflexivity).
  assert (Hk : (length dates / 3 <= length dates)%nat).
  { apply Nat.Div0.div_le_upper_bound. lia. }
  rewrite slice_prefix by assumption.
  rewrite !getAverageForDates_spec, strict_eq_zero.
  destruct (Qc_eq_dec _ 0%Qc) as [He|He]; [now rewrite of_Z_zq, zq_0|].
  assert (Hpos : (0 < length dates / 3)%nat).
  { destruct (length dates / 3)%nat eqn:Hz; [|lia].
    exfalso. apply He. reflexivity. }
  rewrite slice_suffix by lia.
  set (early := mean_or_zero _) in *. set (late := mean_or_zero _).
  unfold nsub, nneg, nadd, ndiv. rewrite (is_zero_false He).
  rewrite of_Z_zq. reflexivity.
Qed.

(** ** The statistics by category *)

Lemma Category_eqb_eq a b : Category_eqb a b = true <-> a = b.
Proof. destruct a, b; simpl; split; intros H; congruence. Qed.

Lemma sum_counts_set k m (p : Z) :
  let current :=
    match obj_get Category_eqb k m with
    | Some c => c
    | None => {| DataProcessing.total := 0; DataProcessing.count := 0 |}
    end in
  sum_counts
    (obj_set Category_eqb k
       {| DataProcessing.total := DataProcessing.total current + p;
          DataProcessing.count := DataProcessing.count current + 1 |} m)
  = (sum_counts m + 1)%Z.
Proof.
  induction m as [|[k' v'] m IH]; simpl.
  - reflexivity.
  - destruct (Category_eqb k k'); simpl; [lia|].
    simpl in IH. rewrite IH. lia.
Qed.

Lemma tally_step_fold es : forall m n,
  let r := fold_left tally_step es (m, n) in
  sum_counts (fst r) = (sum_counts m + Z.of_nat (length es))%Z /\
  snd r = (n + Z.of_nat (length es))%Z.
Proof.
  induction es as [|e es IH]; intros m n; cbn [fold_left].
  - simpl. lia.
  - destruct (tally_step (m, n) e) as [m1 n1] eqn:Hs.
    unfold tally_step in Hs. injection Hs as Hm Hn.
    specialize (IH m1 n1). cbv zeta in IH |- *. destruct IH as [IH1 IH2].
    rewrite IH1, IH2. subst m1 n1.
    pose proof (sum_counts_set (category e) m (power_level e)) as Hset.
    cbv zeta in Hset. rewrite Hset. cbn [length]. lia.
Qed.

Lemma tally_days_fold days : forall m n,
  let r := fold_left (fun acc day => fold_left tally_step (entries day) acc)
             days (m, n) in
  sum_counts (fst r)
  = (sum_counts m + Z.of_nat (length (flat_map entries days)))%Z /\
  snd r = (n + Z.of_nat (length (flat_map entries days)))%Z.
Proof.
  induction days as [|day days IH]; intros m n; cbn [fold_left flat_map].
  - simpl. lia.
  - pose proof (tally_step_fold (entries day) m n) as Hday.
    cbv zeta in Hday.
    destruct (fold_left tally_step (entries day) (m, n)) as [m1 n1].
    simpl in Hday. destruct Hday as [H1 H2].
    specialize (IH m1 n1). cbv zeta in IH |- *. destruct IH as [IH1 IH2].
    rewrite IH1, IH2, H1, H2, length_app. lia.
Qed.

Lemma sum_numbers_Num qs : forall a,
  fold_left nadd (map Num qs) (Num a) = Num (a + sum_Qc qs)%Qc.
Proof.
  induction qs as [|q qs IH]; intros a; simpl.
  - f_equal. ring.
  - rewrite IH. f_equal. ring.
Qed.

Lemma zq_neq_0 z : z <> 0%Z -> zq z <> 0%Qc.
Proof.
  intros Hz H. apply (f_equal is_zero) in H.
  rewrite is_zero_zq in H. apply Z.eqb_neq in Hz. rewrite Hz in H.
  discriminate.
Qed.

(** ** The histogram of power levels *)

Lemma count_level_cons L e es :
  count_level L (e :: es)
  = ((if (power_level e =? L)%Z then 1 else 0) + count_level L es)%nat.
Proof.
  unfold count_level. simpl. destruct (power_level e =? L)%Z; reflexivity.
Qed.

Lemma count_level_app L es1 es2 :
  count_level L (es1 ++ es2) = (count_level L es1 + count_level L es2)%nat.
Proof.
  unfold count_level. now rewrite filter_app, length_app.
Qed.

Lemma list_update_length {A : Type} (n : nat) (v : A) (l : list A) :
  length (list_update n v l) = length l.
Proof.
  revert n. induction l as [|x l IH]; intros [|n]; simpl; auto.
Qed.

Lemma list_update_nth {A : Type} (n : nat) (v : A) (l : list A) (j : nat) :
  (n < length l)%nat ->
  nth_error (list_update n v l) j
  = if (j =? n)%nat then Some v else nth_error l j.
Proof.
  revert n j. induction l as [|x l IH]; intros [|n] [|j]; simpl; intros Hn;
    try lia; try reflexivity.
  apply IH. lia.
Qed.

Lemma incr_of_nat c : incr (Some (of_nat c)) = of_nat (S c).
Proof.
  unfold incr, of_nat. rewrite nadd_of_Z. f_equal. lia.
Qed.

Lemma bucket_step_holds distribution cnt e :
  holds_counts distribution cnt ->
  holds_counts (bucket_step distribution e)
    (fun j => (cnt j + if (power_level e =? Z.of_nat j + 1)%Z then 1 else 0)%nat).
Proof.
  intros [Hlen Hcnt]. unfold bucket_step, arr_set. cbv zeta.
  destruct (Z.ltb_spec (power_level e - 1) 0) as [Hneg|Hpos].
  - split; [assumption|]. intros j Hj.
    destruct (Z.eqb_spec (power_level e) (Z.of_nat j + 1)); [lia|].
    rewrite Nat.add_0_r. auto.
  - destruct (Nat.ltb_spec (Z.to_nat (power_level e - 1)) (length distribution))
      as [Hin|Hout].
    + split; [now rewrite list_update_length|]. intros j Hj.
      rewrite list_update_nth by assumption.
      destruct (Nat.eqb_spec j (Z.to_nat (power_level e - 1))) as [Heq|Hne].
      * destruct (Z.eqb_spec (power_level e) (Z.of_nat j + 1)); [|lia].
        unfold arr_get.
        replace (power_level e - 1 <? 0)%Z with false
          by (symmetry; apply Z.ltb_ge; lia).
        rewrite <- Heq, (Hcnt j Hj), incr_of_nat.
        do 3 f_equal. lia.
      * destruct (Z.eqb_spec (power_level e) (Z.of_nat j + 1)); [lia|].
        rewrite Nat.add_0_r. auto.
    + split; [rewrite length_app; lia|]. intros j Hj.
      rewrite nth_error_app1 by lia.
      destruct (Z.eqb_spec (power_level e) (Z.of_nat j + 1)); [lia|].
      rewrite Nat.add_0_r. auto.
Qed.

Lemma holds_counts_ext distribution cnt cnt' :
  (forall j, cnt j = cnt' j) ->
  holds_counts distribution cnt -> holds_counts distribution cnt'.
Proof.
  intros Hext [Hlen Hcnt]. split; [assumption|].
  intros j Hj. rewrite <- Hext. auto.
Qed.

Lemma bucket_fold_holds es : forall distribution cnt,
  holds_counts distribution cnt ->
  holds_counts (fold_left bucket_step es distribution)
    (fun j => (cnt j + count_level (Z.of_nat j + 1) es)%nat).
Proof.
  induction es as [|e es IH]; intros distribution cnt H; cbn [fold_left].
  - eapply holds_counts_ext; [|exact H]. intros j. unfold count_level. simpl. lia.
  - apply (bucket_step_holds e) in H. apply IH in H.
    eapply holds_counts_ext; [|exact H].
    intros j. cbv beta. rewrite count_level_cons. lia.
Qed.

Lemma bucket_days_holds days : forall distribution cnt,
  holds_counts distribution cnt ->
  holds_counts
    (fold_left (fun distribution day =>
                  fold_left bucket_step (entries day) distribution)
       days distribution)
    (fun j => (cnt j + count_level (Z.of_nat j + 1) (flat_map entries days))%nat).
Proof.
  induction days as [|day days IH]; intros distribution cnt H;
    cbn [fold_left flat_map].
  - eapply holds_counts_ext; [|exact H]. intros j. unfold count_level. simpl. lia.
  - apply (bucket_fold_holds (entries day)) in H. apply IH in H.
    eapply holds_counts_ext; [|exact H].
    intros j. cbv beta. rewrite count_level_app. lia.
Qed.

Lemma distribution_fold data :
  DataProcessing.distribution data
  = fold_left (fun distribution day =>
                 fold_left bucket_step (entries day) distribution)
      (values data) (repeat (Some (of_Z 0)) 10).
Proof. reflexivity. Qed.

Lemma distribution_holds data :
  holds_counts (DataProcessing.distribution data)
    (fun j => count_level (Z.of_nat j + 1) (all_entries data)).
Proof.
  rewrite distribution_fold.
  eapply holds_counts_ext;
    [|apply bucket_days_holds with (cnt := fun _ => 0%nat)].
  - intros j. reflexivity.
  - split; [simpl; lia|]. intros j Hj.
    do 10 (destruct j as [|j]; [reflexivity|]). lia.
Qed.

Lemma bucket_step_length distribution e :
  (1 <= power_level e <= 10)%Z ->
  (10 <= length distribution)%nat ->
  length (bucket_step distribution e) = length distribution.
Proof.
  intros Hp Hlen. unfold bucket_step, arr_set. cbv zeta.
  destruct (Z.ltb_spec (power_level e - 1) 0); [lia|].
  destruct (Nat.ltb_spec (Z.to_nat (power_level e - 1)) (length distribution));
    [apply list_update_length | lia].
Qed.

Lemma bucket_fold_length es : forall distribution,
  Forall (fun e => (1 <= power_level e <= 10)%Z) es ->
  (10 <= length distribution)%nat ->
  length (fold_left bucket_step es distribution) = length distribution.
Proof.
  induction es as [|e es IH]; intros distribution Hr Hlen; cbn [fold_left];
    [reflexivity|].
  inversion Hr as [|? ? He Hes]; subst.
  rewrite IH by (rewrite ?bucket_step_length; assumption).
  now apply bucket_step_length.
Qed.

Lemma bucket_days_length days : forall distribution,
  Forall (fun e => (1 <= power_level e <= 10)%Z) (flat_map entries days) ->
  (10 <= length distribution)%nat ->
  length
    (fold_left (fun distribution day =>
                  fold_left bucket_step (entries day) distribution)
       days distribution)
  = length distribution.
Proof.
  induction days as [|day days IH]; intros distribution Hr Hlen;
    cbn [fold_left flat_map] in *; [reflexivity|].
  apply Forall_app in Hr. destruct Hr as [Hday Hdays].
  rewrite IH by (rewrite ?bucket_fold_length; assumption).
  now apply bucket_fold_length.
Qed.

Lemma combine_seq_nth {A : Type} (a : list A) : forall s j,
  nth_error (combine (seq s (length a)) a) j
  = option_map (fun x => ((s + j)%nat, x)) (nth_error a j).
Proof.
  induction a as [|x a IH]; intros s [|j]; simpl; try reflexivity.
  - now rewrite Nat.add_0_r.
  - rewrite IH. now rewrite Nat.add_succ_r.
Qed.

Lemma map_indexed_nth {A B : Type} (f : A -> nat -> B) (a : array A) j :
  nth_error (DataProcessing.map_indexed f a) j
  = option_map (option_map (fun x => f x j)) (nth_error a j).
Proof.
  unfold DataProcessing.map_indexed.
  rewrite nth_error_map, combine_seq_nth.
  destruct (nth_error a j); reflexivity.
Qed.

Lemma map_indexed_length {A B : Type} (f : A -> nat -> B) (a : array A) :
  length (DataProcessing.map_indexed f a) = length a.
Proof.
  unfold DataProcessing.map_indexed.
  rewrite length_map, length_combine, length_seq. lia.
Qed.

(** The bucket of every level 1..10, whatever the other entries are. *)
Lemma bucket_of_level data L :
  (1 <= L <= 10)%Z ->
  arr_get (L - 1) (DataProcessing.getPowerLevelDistribution data)
  = Some {| DataProcessing.level := L;
            DataProcessing.bucket_count :=
              of_nat (count_level L (all_entries data)) |}.
Proof.
  intros HL. destruct (distribution_holds data) as [_ Hcnt].
  unfold arr_get, DataProcessing.getPowerLevelDistribution.
  replace (L - 1 <? 0)%Z with false by (symmetry; apply Z.ltb_ge; lia).
  rewrite map_indexed_nth, (Hcnt (Z.to_nat (L - 1))) by lia. simpl.
  do 3 f_equal; try lia. f_equal. lia.
Qed.

Lemma nadd_of_nat a b : nadd (of_nat a) (of_nat b) = of_nat (a + b).
Proof. unfold of_nat. now rewrite nadd_of_Z, Nat2Z.inj_add. Qed.

Lemma sum_numbers_of_nat l : forall a,
  fold_left nadd (map of_nat l) (of_nat a) = of_nat (a + list_sum l).
Proof.
  induction l as [|x l IH]; intros a; cbn [map fold_left].
  - simpl. now rewrite Nat.add_0_r.
  - change (list_sum (x :: l)) with (x + list_sum l)%nat.
    rewrite nadd_of_nat, IH, Nat.add_assoc. reflexivity.
Qed.

Lemma count_levels_total es :
  list_sum (map (fun L => count_level L es) levels)
  = length (filter in_level_range es).
Proof.
  induction es as [|e es IH]; [reflexivity|].
  unfold levels, list_sum in *. cbn [map fold_right] in *.
  rewrite !count_level_cons. cbn [filter]. unfold in_level_range at 1.
  destruct (Z.leb_spec 1 (power_level e)), (Z.leb_spec (power_level e) 10);
    cbn [andb length];
    repeat match goal with
           | |- context [(power_level e =? ?c)%Z] =>
               destruct (Z.eqb_spec (power_level e) c); cbv iota; try lia
           end.
Qed.

Lemma filter_in_level_range es :
  Forall (fun e => (1 <= power_level e <= 10)%Z) es ->
  filter in_level_range es = es.
Proof.
  induction 1 as [|e es He Hes IH]; [reflexivity|].
  cbn [filter]. unfold in_level_range at 1.
  destruct (Z.leb_spec 1 (power_level e)), (Z.leb_spec (power_level e) 10);
    try lia.
  cbn [andb]. now rewrite IH.
Qed.

Lemma ten_bucket_counts_value data :
  ten_bucket_counts (DataProcessing.getPowerLevelDistribution data)
  = map of_nat (map (fun L => count_level L (all_entries data)) levels).
Proof.
  unfold ten_bucket_counts, levels. cbn [flat_map map app].
  rewrite !bucket_of_level by lia. reflexivity.
Qed.

(** C4, as amended.  The histogram has a bucket for each level 1..10, and
    the bucket of level [L] counts the entries whose power level is exactly
    [L]; the counts of these ten buckets add up to the number of entries
    with a level in 1..10.  They add up to the number of entries of the
    collection, and the histogram has exactly these ten buckets, when every
    power level of the collection is in 1..10. *)
Theorem power_level_histogram (data : ConfidenceData) :
  (forall L, (1 <= L <= 10)%Z ->
     arr_get (L - 1) (DataProcessing.getPowerLevelDistribution data)
     = Some {| DataProcessing.level := L;
               DataProcessing.bucket_count :=
                 of_nat (count_level L (all_entries data)) |}) /\
  sum_numbers (ten_bucket_counts (DataProcessing.getPowerLevelDistribution data))
  = of_nat (length (filter in_level_range (all_entries data))) /\
  (levels_in_range data ->
     length (DataProcessing.getPowerLevelDistribution data) = 10%nat /\
     sum_numbers (ten_bucket_counts (DataProcessing.getPowerLevelDistribution data))
     = of_nat (length (all_entries data))).
Proof.
  assert (Hsum :
    sum_numbers (ten_bucket_counts (DataProcessing.getPowerLevelDistribution data))
    = of_nat (length (filter in_level_range (all_entries data)))).
  { rewrite ten_bucket_counts_value. unfold sum_numbers.
    change (of_Z 0) with (of_nat 0).
    now rewrite sum_numbers_of_nat, count_levels_total. }
  split; [intros L HL; now apply bucket_of_level|].
  split; [exact Hsum|].
  intros Hr. split.
  - unfold DataProcessing.getPowerLevelDistribution.
    rewrite map_indexed_length, distribution_fold.
    rewrite bucket_days_length; [reflexivity | exact Hr | simpl; lia].
  - rewrite Hsum, filter_in_level_range by exact Hr. reflexivity.
Qed.

Lemma power_level_histogram_witness :
  arr_get (8 - 1) (DataProcessing.getPowerLevelDistribution scenario)
  = Some {| DataProcessing.level := 8;
            DataProcessing.bucket_count :=
              of_nat (count_level 8 (all_entries scenario)) |} /\
  length (DataProcessing.getPowerLevelDistribution scenario) = 10%nat /\
  sum_numbers (ten_bucket_counts (DataProcessing.getPowerLevelDistribution scenario))
  = of_nat (length (all_entries scenario)).
Proof.
  split.
  - apply (proj1 (power_level_histogram scenario)). lia.
  - apply (proj2 (proj2 (power_level_histogram scenario))).
    repeat constructor; simpl; lia.
Defined.

(** C4, counterexample.  A collection of one entry of level 11: the entry
    is counted by none of the ten buckets, whose counts add up to 0 and not
    to 1; the level lands in an eleventh slot that holds [NaN]. *)
Example histogram_out_of_range :
  let data := [("2025-04-01"%string, one_entry_day personal 11)] in
  length (all_entries data) = 1%nat /\
  sum_numbers (ten_bucket_counts (DataProcessing.getPowerLevelDistribution data))
  = of_Z 0 /\
  length (DataProcessing.getPowerLevelDistribution data) = 11%nat /\
  DataProcessing.distribution data
  = repeat (Some (of_Z 0)) 10 ++ [Some NaN].
Proof.
  cbv zeta. split; [reflexivity|]. split; [|split; reflexivity].
  vm_compute. reflexivity.
Qed.

(** ** The scenarios of the specification *)

(** One day with a personal entry of level 8 and a professional entry of
    level 4: the overall average is 6, half of the entries are personal,
    and the histogram has 1 at the levels 4 and 8 and 0 elsewhere. *)
Example scenario_overall :
  DataProcessing.avgConfidence (DataProcessing.getOverallStats scenario) = of_Z 6 /\
  DataProcessing.personalPercentage (DataProcessing.getOverallStats scenario)
  = of_Z 50 /\
  DataProcessing.highestConfidence (DataProcessing.getOverallStats scenario)
  = of_Z 8 /\
  DataProcessing.lowestConfidence (DataProcessing.getOverallStats scenario)
  = of_Z 4 /\
  DataProcessing.distribution scenario
  = map (fun n => Some (of_Z n)) [0; 0; 0; 1; 0; 0; 0; 1; 0; 0]%Z.
Proof.
  repeat split; number_compute.
Qed.

(** Filtering it by the type [personal] keeps the entry of level 8, with
    average 8 and dominant type [personal], on both paths. *)
Example scenario_personal :
  let kept :=
    [("2025-01-01"%string,
      {| entries := [mk_entry personal self_image 8];
         daily_confidence_average := mean_power_level [mk_entry personal self_image 8];
         dominant_confidence_area := personal |})] in
  mean_power_level [mk_entry personal self_image 8] = of_Z 8 /\
  App.filteredData None (Some personal) scenario = kept /\
  ConfidenceVisualizer.applyFilters_filteredData only_personal scenario = kept.
Proof.
  cbv zeta. split; [number_compute|]. split; reflexivity.
Qed.

(** Two personal entries and a professional one: [personal] on both paths. *)
Example scenario_majority :
  let es := [mk_entry personal self_image 3;
             mk_entry personal self_image 5;
             mk_entry professional self_image 9] in
  App_dominant es = personal /\
  ConfidenceVisualizer.getDominantType es = personal.
Proof. split; reflexivity. Qed.

(** A tie whose first entry is personal: the two paths differ. *)
Example scenario_tie_personal_first :
  tie (entries scenario_day) /\
  App_dominant (entries scenario_day) = professional /\
  ConfidenceVisualizer.getDominantType (entries scenario_day) = personal.
Proof. repeat split. Qed.

(** * Further properties of the code *)

(** ** The filters as list comprehensions *)

Lemma keys_app {K V : Type} (a b : list (K * V)) : keys (a ++ b) = keys a ++ keys b.
Proof. unfold keys. apply map_app. Qed.

Lemma rebuild_keys_In day source k :
  In k (keys (rebuild day source)) -> In k (keys source).
Proof.
  induction source as [|[date d] source IH]; simpl; [auto|].
  rewrite keys_app, in_app_iff. intros [H|H]; [|auto].
  destruct (day d); simpl in H; [destruct H as [H|[]]; auto | contradiction].
Qed.

Lemma rebuild_NoDup day source :
  NoDup (keys source) -> NoDup (keys (rebuild day source)).
Proof.
  induction source as [|[date d] source IH]; simpl; intros Hnd; [constructor|].
  inversion Hnd as [|? ? Hnotin Hnd']; subst.
  rewrite keys_app. destruct (day d); simpl; [|auto].
  constructor; [|auto]. intros H. apply Hnotin. eapply rebuild_keys_In; eauto.
Qed.

Lemma collect_rebuild_acc day source : forall acc,
  NoDup (keys source) ->
  (forall k, In k (keys source) -> ~ In k (keys acc)) ->
  fold_left
    (fun (acc : ConfidenceData) '(date, d) =>
       match day d with
       | Some d' => obj_set String.eqb date d' acc
       | None => acc
       end)
    source acc
  = acc ++ rebuild day source.
Proof.
  induction source as [|[date d] source IH]; intros acc Hnd Hdis; simpl.
  - now rewrite app_nil_r.
  - inversion Hnd as [|? ? Hnotin Hnd']; subst.
    destruct (day d) as [d'|].
    + rewrite obj_set_fresh by (apply Hdis; simpl; auto).
      rewrite IH; [now rewrite <- app_assoc | assumption |].
      intros k Hk. rewrite keys_app, in_app_iff. simpl.
      intros [H|[<-|[]]]; [apply (Hdis k); simpl; auto | contradiction].
    + rewrite IH; [reflexivity | assumption |].
      intros k Hk. apply Hdis. simpl. auto.
Qed.

Lemma collect_rebuild day source :
  NoDup (keys source) -> collect day source = rebuild day source.
Proof.
  intros Hnd. unfold collect. rewrite collect_rebuild_acc; auto.
Qed.

(** X1.  On a collection with distinct dates and with a category or a type
    selected, the React filter returns, in the order of the source, the
    dates that have a matching entry, each with exactly its matching
    entries in their order, their mean and the type that has a strict
    majority for [personal]. *)
Theorem App_filteredData_rebuild sc st (data : ConfidenceData) :
  NoDup (keys data) ->
  sc <> None \/ st <> None ->
  App.filteredData sc st data
  = flat_map
      (fun '(date, d) =>
         let es := filter (App_matches sc st) (entries d) in
         match es with
         | [] => []
         | _ => [(date, {| entries := es;
                           daily_confidence_average := mean_power_level es;
                           dominant_confidence_area := App_dominant es |})]
         end)
      data.
Proof.
  intros Hnd Hsel. rewrite App_filteredData_collect by assumption.
  rewrite collect_rebuild by assumption. unfold rebuild.
  apply flat_map_ext. intros [date d]. unfold App_day. cbv zeta.
  destruct (filter (App_matches sc st) (entries d)); reflexivity.
Qed.

Lemma App_filteredData_rebuild_witness :
  App.filteredData None (Some personal) scenario
  = flat_map
      (fun '(date, d) =>
         let es := filter (App_matches None (Some personal)) (entries d) in
         match es with
         | [] => []
         | _ => [(date, {| entries := es;
                           daily_confidence_average := mean_power_level es;
                           dominant_confidence_area := App_dominant es |})]
         end)
      scenario.
Proof.
  apply App_filteredData_rebuild.
  - repeat constructor. simpl. tauto.
  - right. discriminate.
Defined.

(** X2.  On a collection with distinct dates, [applyFilters] stores in
    [this.filteredData], in the order of [this.data], the dates that have an
    entry passing the three controls, each with exactly these entries in
    their order, their mean and the dominant type of [getDominantType]. *)
Theorem applyFilters_rebuild dom (this : ConfidenceVisualizer.t) :
  NoDup (keys (ConfidenceVisualizer.data this)) ->
  ConfidenceVisualizer.filteredData (fst (ConfidenceVisualizer.applyFilters dom this))
  = flat_map
      (fun '(date, d) =>
         let es := filter (CV_matches dom) (entries d) in
         match es with
         | [] => []
         | _ => [(date, {| entries := es;
                           daily_confidence_average := mean_power_level es;
                           dominant_confidence_area :=
                             ConfidenceVisualizer.getDominantType es |})]
         end)
      (ConfidenceVisualizer.data this).
Proof.
  intros Hnd. simpl. rewrite CV_filteredData_collect.
  rewrite collect_rebuild by assumption. unfold rebuild.
  apply flat_map_ext. intros [date d]. unfold CV_day. cbv zeta.
  destruct (filter (CV_matches dom) (entries d)); reflexivity.
Qed.

Lemma applyFilters_rebuild_witness :
  ConfidenceVisualizer.filteredData
    (fst (ConfidenceVisualizer.applyFilters only_personal
            {| ConfidenceVisualizer.data := three_days;
               ConfidenceVisualizer.filteredData := [] |}))
  = flat_map
      (fun '(date, d) =>
         let es := filter (CV_matches only_personal) (entries d) in
         match es with
         | [] => []
         | _ => [(date, {| entries := es;
                           daily_confidence_average := mean_power_level es;
                           dominant_confidence_area :=
                             ConfidenceVisualizer.getDominantType es |})]
         end)
      three_days.
Proof.
  apply (applyFilters_rebuild only_personal
           {| ConfidenceVisualizer.data := three_days;
              ConfidenceVisualizer.filteredData := [] |}).
  simpl. repeat constructor; simpl; intuition discriminate.
Defined.

(** ** Filtering a filtered collection *)

Lemma rebuild_app day a b : rebuild day (a ++ b) = rebuild day a ++ rebuild day b.
Proof. unfold rebuild. apply flat_map_app. Qed.

Lemma rebuild_compose day1 day2 day3 source :
  (forall d, match day1 d with Some d' => day2 d' | None => None end = day3 d) ->
  rebuild day2 (rebuild day1 source) = rebuild day3 source.
Proof.
  intros Hday. induction source as [|[date d] source IH]; [reflexivity|].
  change (rebuild day1 ((date, d) :: source))
    with ((match day1 d with Some d' => [(date, d')] | None => [] end)
          ++ rebuild day1 source).
  change (rebuild day3 ((date, d) :: source))
    with ((match day3 d with Some d' => [(date, d')] | None => [] end)
          ++ rebuild day3 source).
  rewrite rebuild_app, IH, <- Hday.
  destruct (day1 d) as [d'|]; simpl; [|reflexivity].
  now rewrite app_nil_r.
Qed.

Lemma filter_filter_implied {A : Type} (p q : A -> bool) (l : list A) :
  (forall x, q x = true -> p x = true) ->
  filter q (filter p l) = filter q l.
Proof.
  intros Hqp. induction l as [|x l IH]; simpl; [reflexivity|].
  destruct (p x) eqn:Hp; simpl; [now rewrite IH|].
  destruct (q x) eqn:Hq; [|assumption].
  apply Hqp in Hq. congruence.
Qed.

Lemma filter_filter_andb {A : Type} (p q : A -> bool) (l : list A) :
  filter q (filter p l) = filter (fun x => p x && q x) l.
Proof.
  induction l as [|x l IH]; simpl; [reflexivity|].
  destruct (p x); simpl; [destruct (q x); now rewrite IH | assumption].
Qed.

Lemma collect_twice day1 day2 day3 source :
  NoDup (keys source) ->
  (forall d, match day1 d with Some d' => day2 d' | None => None end = day3 d) ->
  collect day2 (collect day1 source) = collect day3 source.
Proof.
  intros Hnd Hday.
  rewrite (collect_rebuild day1), (collect_rebuild day3) by assumption.
  rewrite collect_rebuild by now apply rebuild_NoDup.
  now apply rebuild_compose.
Qed.

(** X3.  Filtering a filtered view again with stricter controls is
    filtering the source with the stricter controls: when every entry that
    passes [dom2] passes [dom1], the loop of [applyFilters] with [dom2] on
    its result for [dom1] gives its result for [dom2] on the source.  So
    raising the power threshold, or adding a type or a category, never
    depends on what was filtered before. *)
Theorem applyFilters_refine dom1 dom2 (source : ConfidenceData) :
  NoDup (keys source) ->
  (forall e, CV_matches dom2 e = true -> CV_matches dom1 e = true) ->
  ConfidenceVisualizer.applyFilters_filteredData dom2
    (ConfidenceVisualizer.applyFilters_filteredData dom1 source)
  = ConfidenceVisualizer.applyFilters_filteredData dom2 source.
Proof.
  intros Hnd Himp. rewrite !CV_filteredData_collect.
  apply collect_twice; [assumption|].
  intros d. unfold CV_day. cbv zeta.
  destruct (0 <? length (filter (CV_matches dom1) (entries d)))%nat eqn:H1;
    cbn [entries]; rewrite ?filter_filter_implied by assumption; [reflexivity|].
  apply Nat.ltb_ge in H1.
  assert (Hnil : filter (CV_matches dom1) (entries d) = []).
  { destruct (filter (CV_matches dom1) (entries d)); [reflexivity | simpl in H1; lia]. }
  rewrite <- (filter_filter_implied (CV_matches dom1) (CV_matches dom2) (entries d))
    by assumption.
  rewrite Hnil. reflexivity.
Qed.

Lemma applyFilters_refine_witness :
  ConfidenceVisualizer.applyFilters_filteredData only_personal
    (ConfidenceVisualizer.applyFilters_filteredData no_constraint three_days)
  = ConfidenceVisualizer.applyFilters_filteredData only_personal three_days.
Proof.
  apply applyFilters_refine.
  - simpl. repeat constructor; simpl; intuition discriminate.
  - intros e. unfold CV_matches. simpl.
    destruct (ConfidenceType_eqb (confidence_type e) personal); simpl; auto.
    discriminate.
Defined.

(** X4.  In the React filter, selecting a category on a view filtered by a
    type, or a type on a view filtered by a category, gives the view of
    selecting both on the source. *)
Theorem App_filteredData_both (c : Category) (t : ConfidenceType)
    (data : ConfidenceData) :
  NoDup (keys data) ->
  App.filteredData (Some c) None (App.filteredData None (Some t) data)
  = App.filteredData (Some c) (Some t) data /\
  App.filteredData None (Some t) (App.filteredData (Some c) None data)
  = App.filteredData (Some c) (Some t) data.
Proof.
  intros Hnd.
  rewrite !App_filteredData_collect
    by first [left; discriminate | right; discriminate].
  split; apply collect_twice; try assumption; intros d; unfold App_day; cbv zeta.
  - destruct (0 <? length (filter (App_matches None (Some t)) (entries d)))%nat
      eqn:H1; cbn [entries].
    + rewrite filter_filter_andb.
      rewrite (filter_ext_bool _ (App_matches (Some c) (Some t)));
        [reflexivity|].
      intros e. unfold App_matches.
      destruct (Category_eqb (category e) c),
        (ConfidenceType_eqb (confidence_type e) t); reflexivity.
    + apply Nat.ltb_ge in H1.
      assert (Hnil : filter (App_matches None (Some t)) (entries d) = []).
      { destruct (filter _ (entries d)); [reflexivity | simpl in H1; lia]. }
      rewrite <- (filter_filter_implied (App_matches None (Some t))
                    (App_matches (Some c) (Some t)) (entries d)).
      * now rewrite Hnil.
      * intros e. unfold App_matches.
        destruct (Category_eqb (category e) c),
          (ConfidenceType_eqb (confidence_type e) t); simpl; auto.
  - destruct (0 <? length (filter (App_matches (Some c) None) (entries d)))%nat
      eqn:H1; cbn [entries].
    + rewrite filter_filter_andb.
      rewrite (filter_ext_bool _ (App_matches (Some c) (Some t)));
        [reflexivity|].
      intros e. unfold App_matches.
      destruct (Category_eqb (category e) c),
        (ConfidenceType_eqb (confidence_type e) t); reflexivity.
    + apply Nat.ltb_ge in H1.
      assert (Hnil : filter (App_matches (Some c) None) (entries d) = []).
      { destruct (filter _ (entries d)); [reflexivity | simpl in H1; lia]. }
      rewrite <- (filter_filter_implied (App_matches (Some c) None)
                    (App_matches (Some c) (Some t)) (entries d)).
      * now rewrite Hnil.
      * intros e. unfold App_matches.
        destruct (Category_eqb (category e) c),
          (ConfidenceType_eqb (confidence_type e) t); simpl; auto.
Qed.

Lemma App_filteredData_both_witness :
  App.filteredData (Some self_image) None
    (App.filteredData None (Some personal) scenario)
  = App.filteredData (Some self_image) (Some personal) scenario /\
  App.filteredData None (Some personal)
    (App.filteredData (Some self_image) None scenario)
  = App.filteredData (Some self_image) (Some personal) scenario.
Proof.
  apply App_filteredData_both. repeat constructor. simpl. tauto.
Defined.

(** ** The two dashboards on the same selection *)

Lemma obj_set_agree k (v1 v2 : DailyData) : forall acc1 acc2 : ConfidenceData,
  map entries_and_average acc1 = map entries_and_average acc2 ->
  entries v1 = entries v2 ->
  daily_confidence_average v1 = daily_confidence_average v2 ->
  map entries_and_average (obj_set String.eqb k v1 acc1)
  = map entries_and_average (obj_set String.eqb k v2 acc2).
Proof.
  induction acc1 as [|[k1 d1] acc1 IH]; intros [|[k2 d2] acc2] Hacc He Ha;
    try discriminate Hacc.
  - simpl. unfold entries_and_average. simpl. now rewrite He, Ha.
  - simpl in Hacc. injection Hacc as Hk Hes Havg Hrest.
    simpl in Hk. subst k2. simpl.
    destruct (String.eqb k k1); simpl.
    + unfold entries_and_average at 1 3. simpl. now rewrite He, Ha, Hrest.
    + unfold entries_and_average at 1 3. simpl.
      rewrite Hes, Havg. f_equal. now apply IH.
Qed.

Lemma collect_agree_acc (day1 day2 : DailyData -> option DailyData)
    (source : ConfidenceData) : forall acc1 acc2,
  (forall date d, In (date, d) source ->
     match day1 d, day2 d with
     | Some a, Some b =>
         entries a = entries b /\
         daily_confidence_average a = daily_confidence_average b
     | None, None => True
     | _, _ => False
     end) ->
  map entries_and_average acc1 = map entries_and_average acc2 ->
  map entries_and_average
    (fold_left
       (fun (acc : ConfidenceData) '(date, d) =>
          match day1 d with
          | Some d' => obj_set String.eqb date d' acc
          | None => acc
          end) source acc1)
  = map entries_and_average
      (fold_left
         (fun (acc : ConfidenceData) '(date, d) =>
            match day2 d with
            | Some d' => obj_set String.eqb date d' acc
            | None => acc
            end) source acc2).
Proof.
  induction source as [|[date d] source IH]; intros acc1 acc2 Hday Hacc; simpl;
    [assumption|].
  pose proof (Hday date d (or_introl eq_refl)) as Hd.
  apply IH; [intros date' d' Hin'; apply (Hday date' d'); simpl; auto|].
  destruct (day1 d), (day2 d); try contradiction; [|assumption].
  destruct Hd. now apply obj_set_agree.
Qed.

Lemma in_all_entries (data : ConfidenceData) date d e :
  In (date, d) data -> In e (entries d) -> In e (all_entries data).
Proof.
  intros Hd He. unfold all_entries. apply in_flat_map.
  exists d. split; [|assumption]. apply (in_map snd) in Hd. exact Hd.
Qed.

(** X5.  With the same category and type selected, and a power threshold
    that no entry of the source falls short of, the React filter and
    [applyFilters] retain the same dates in the same order, with the same
    entries and the same average for every date; they can differ in the
    dominant type only. *)
Theorem filters_agree sc st (p : option Z) (data : ConfidenceData) :
  sc <> None \/ st <> None ->
  (forall e, In e (all_entries data) ->
     match p with Some threshold => (threshold <= power_level e)%Z | None => True end) ->
  map entries_and_average (App.filteredData sc st data)
  = map entries_and_average
      (ConfidenceVisualizer.applyFilters_filteredData
         {| ConfidenceVisualizer.typeFilter := st;
            ConfidenceVisualizer.categoryFilter := sc;
            ConfidenceVisualizer.powerFilter := p |}
         data).
Proof.
  intros Hsel Hp.
  rewrite App_filteredData_collect by assumption.
  rewrite CV_filteredData_collect. unfold collect.
  apply collect_agree_acc; [|reflexivity].
  intros date d Hin. unfold App_day, CV_day. cbv zeta.
  assert (Hf : filter (App_matches sc st) (entries d)
               = filter (CV_matches
                           {| ConfidenceVisualizer.typeFilter := st;
                              ConfidenceVisualizer.categoryFilter := sc;
                              ConfidenceVisualizer.powerFilter := p |})
                   (entries d)).
  { assert (Hes : forall e, In e (entries d) -> In e (all_entries data))
      by (intros e He; eapply in_all_entries; eauto).
    induction (entries d) as [|e es IH]; [reflexivity|]. simpl.
    rewrite IH by (intros; apply Hes; simpl; auto).
    assert (He : App_matches sc st e
                 = CV_matches
                     {| ConfidenceVisualizer.typeFilter := st;
                        ConfidenceVisualizer.categoryFilter := sc;
                        ConfidenceVisualizer.powerFilter := p |} e).
    { unfold App_matches, CV_matches. simpl.
      specialize (Hp e (Hes e (or_introl eq_refl))).
      destruct p as [threshold|].
      - replace (power_level e <? threshold)%Z with false
          by (symmetry; apply Z.ltb_ge; exact Hp).
        simpl. rewrite andb_true_r. apply andb_comm.
      - simpl. rewrite andb_true_r. apply andb_comm. }
    now rewrite He. }
  rewrite Hf. destruct (0 <? _)%nat; simpl; auto.
Qed.

Lemma filters_agree_witness :
  map entries_and_average (App.filteredData None (Some personal) three_days)
  = map entries_and_average
      (ConfidenceVisualizer.applyFilters_filteredData
         {| ConfidenceVisualizer.typeFilter := Some personal;
            ConfidenceVisualizer.categoryFilter := None;
            ConfidenceVisualizer.powerFilter := Some 1%Z |}
         three_days).
Proof.
  apply filters_agree.
  - right. discriminate.
  - intros e He. simpl in He.
    repeat (destruct He as [<-|He]; [simpl; lia|]). destruct He.
Defined.

(** ** The entries of a filtered view *)

Lemma all_entries_rebuild day (p : ConfidenceEntry -> bool) source :
  (forall d, match day d with
             | Some d' => entries d' = filter p (entries d)
             | None => filter p (entries d) = []
             end) ->
  all_entries (rebuild day source) = filter p (all_entries source).
Proof.
  intros Hday. unfold all_entries.
  induction source as [|[date d] source IH]; [reflexivity|].
  change (rebuild day ((date, d) :: source))
    with ((match day d with Some d' => [(date, d')] | None => [] end)
          ++ rebuild day source).
  unfold values in *. rewrite map_app, flat_map_app, IH. simpl.
  rewrite filter_app. f_equal.
  specialize (Hday d). destruct (day d); simpl.
  - now rewrite app_nil_r.
  - now rewrite Hday.
Qed.

(** X6.  The entries of a filtered view are exactly the entries of the
    source that pass the filter, in the order of the source: nothing is
    added, dropped, duplicated or reordered.  This holds for
    [applyFilters] and for the React filter, with or without a
    selection. *)
Theorem filtered_entries (data : ConfidenceData) :
  NoDup (keys data) ->
  (forall dom,
     all_entries (ConfidenceVisualizer.applyFilters_filteredData dom data)
     = filter (CV_matches dom) (all_entries data)) /\
  (forall sc st,
     all_entries (App.filteredData sc st data)
     = filter (App_matches sc st) (all_entries data)).
Proof.
  intros Hnd. split.
  - intros dom. rewrite CV_filteredData_collect, collect_rebuild by assumption.
    apply all_entries_rebuild. intros d. unfold CV_day. cbv zeta.
    destruct (filter (CV_matches dom) (entries d)); reflexivity.
  - intros sc st. destruct (selection_cases sc st) as [[-> ->]|Hsel].
    + simpl. unfold App_matches. simpl.
      induction (all_entries data) as [|e es IH]; simpl; congruence.
    + rewrite App_filteredData_collect, collect_rebuild by assumption.
      apply all_entries_rebuild. intros d. unfold App_day. cbv zeta.
      destruct (filter (App_matches sc st) (entries d)); reflexivity.
Qed.

Lemma filtered_entries_witness :
  all_entries (ConfidenceVisualizer.applyFilters_filteredData only_personal three_days)
  = filter (CV_matches only_personal) (all_entries three_days) /\
  all_entries (App.filteredData None (Some personal) three_days)
  = filter (App_matches None (Some personal)) (all_entries three_days).
Proof.
  assert (Hnd : NoDup (keys three_days))
    by (simpl; repeat constructor; simpl; intuition discriminate).
  split.
  - apply (proj1 (filtered_entries three_days Hnd)).
  - apply (proj2 (filtered_entries three_days Hnd)).
Defined.

(** ** Bounds on the averages *)

Lemma sum_Z_bounds (lo hi : Z) l :
  Forall (fun v => (lo <= v <= hi)%Z) l ->
  (lo * Z.of_nat (length l) <= sum_Z l <= hi * Z.of_nat (length l))%Z.
Proof.
  induction 1 as [|v l Hv Hl IH].
  - unfold sum_Z. simpl. lia.
  - rewrite sum_Z_cons. cbn [length]. lia.
Qed.

Lemma zq_div_Q (s n : Z) :
  (0 < n)%Z -> ((zq s / zq n)%Qc : Q) == inject_Z s / inject_Z n.
Proof.
  intros Hn.
  change (this (zq s / zq n)%Qc) with (Qred (zq s * Qred (/ zq n))).
  rewrite !Qred_correct, !zq_Q. reflexivity.
Qed.

Lemma zq_div_bounds (lo hi s n : Z) :
  (0 < n)%Z -> (lo * n <= s <= hi * n)%Z ->
  (zq lo <= zq s / zq n)%Qc /\ (zq s / zq n <= zq hi)%Qc.
Proof.
  intros Hn [Hlo Hhi]. unfold Qcle.
  rewrite zq_div_Q, !zq_Q by assumption.
  assert (Hpos : (0 < inject_Z n)%Q)
    by (change 0%Q with (inject_Z 0); rewrite <- Zlt_Qlt; exact Hn).
  split.
  - apply Qle_shift_div_l; [assumption|].
    rewrite <- inject_Z_mult, <- Zle_Qle. exact Hlo.
  - apply Qle_shift_div_r; [assumption|].
    rewrite <- inject_Z_mult, <- Zle_Qle. exact Hhi.
Qed.

Lemma mean_power_level_bounds (lo hi : Z) es :
  es <> [] ->
  Forall (fun e => (lo <= power_level e <= hi)%Z) es ->
  exists q, mean_power_level es = Num q /\ (zq lo <= q)%Qc /\ (q <= zq hi)%Qc.
Proof.
  intros Hne Hr. rewrite mean_power_level_nonempty by assumption.
  eexists. split; [reflexivity|].
  apply zq_div_bounds.
  - destruct es; [congruence | simpl; lia].
  - rewrite <- (length_map power_level). apply sum_Z_bounds.
    apply Forall_map. exact Hr.
Qed.

Lemma Forall_filter_incl {A : Type} (P : A -> Prop) (f : A -> bool) l :
  Forall P l -> Forall P (filter f l).
Proof.
  induction 1 as [|x l Hx Hl IH]; simpl; [constructor|].
  destruct (f x); [constructor|]; assumption.
Qed.

(** X7.  When every power level of the source is between [lo] and [hi],
    the average that [applyFilters] stores for a retained date, whatever
    the controls are, and the average that the React filter stores when a
    category or a type is selected, is a finite number between [lo] and
    [hi] (so between 1 and 10 for levels in 1..10): never [NaN], never
    outside the scale of the charts.  (With neither selected the React
    filter returns the stored averages as they are.) *)
Theorem filtered_average_bounds (lo hi : Z) (data : ConfidenceData)
    (date : string) (d : DailyData) :
  Forall (fun e => (lo <= power_level e <= hi)%Z) (all_entries data) ->
  (forall dom,
     In (date, d) (ConfidenceVisualizer.applyFilters_filteredData dom data) ->
     exists q, daily_confidence_average d = Num q /\
               (zq lo <= q)%Qc /\ (q <= zq hi)%Qc) /\
  (forall sc st,
     sc <> None \/ st <> None ->
     In (date, d) (App.filteredData sc st data) ->
     exists q, daily_confidence_average d = Num q /\
               (zq lo <= q)%Qc /\ (q <= zq hi)%Qc).
Proof.
  intros Hr.
  assert (Hday : forall d0, In (date, d0) data ->
            Forall (fun e => (lo <= power_level e <= hi)%Z) (entries d0)).
  { intros d0 Hin. apply Forall_forall. intros e He.
    rewrite Forall_forall in Hr. apply Hr. eapply in_all_entries; eauto. }
  split.
  - intros dom Hin. rewrite CV_filteredData_collect in Hin.
    apply collect_In in Hin. destruct Hin as (d0 & Hin0 & Hd).
    apply CV_day_Some in Hd. destruct Hd as (He & Hne & -> & _).
    apply mean_power_level_bounds; [assumption|].
    rewrite He. apply Forall_filter_incl. auto.
  - intros sc st Hsel Hin. rewrite App_filteredData_collect in Hin by assumption.
    apply collect_In in Hin. destruct Hin as (d0 & Hin0 & Hd).
    apply App_day_Some in Hd. destruct Hd as (He & Hne & -> & _).
    apply mean_power_level_bounds; [assumption|].
    rewrite He. apply Forall_filter_incl. auto.
Qed.

Lemma filtered_average_bounds_witness :
  (exists q, daily_confidence_average tied_day = Num q /\
             (zq 1 <= q)%Qc /\ (q <= zq 10)%Qc) /\
  (exists q, daily_confidence_average tied_day = Num q /\
             (zq 1 <= q)%Qc /\ (q <= zq 10)%Qc).
Proof.
  assert (Hr : Forall (fun e => (1 <= power_level e <= 10)%Z)
                 (all_entries tied_source))
    by (repeat constructor; simpl; lia).
  split.
  - apply (proj1 (@filtered_average_bounds 1%Z 10%Z tied_source "2025-05-09"%string tied_day Hr)
             no_constraint).
    vm_compute. left. reflexivity.
  - apply (proj2 (@filtered_average_bounds 1%Z 10%Z tied_source "2025-05-09"%string tied_day Hr)
             (Some self_image) None).
    + left. discriminate.
    + vm_compute. left. reflexivity.
Defined.

(** ** The overall statistics of the React dashboard *)

Lemma ngt_of_Z a b : ngt (of_Z a) (of_Z b) = (b <? a)%Z.
Proof.
  rewrite !of_Z_zq. unfold ngt. apply eq_true_iff_eq.
  rewrite negb_true_iff, Z.ltb_lt, <- not_true_iff_false, Qle_bool_iff.
  rewrite !zq_Q, <- Zle_Qle. lia.
Qed.

Lemma nmax_of_Z a b : nmax (of_Z a) (of_Z b) = of_Z (Z.max a b).
Proof.
  unfold nmax. rewrite ngt_of_Z. cbn [is_NaN of_Z orb].
  destruct (Z.ltb_spec a b); f_equal; lia.
Qed.

Lemma nmin_of_Z a b : nmin (of_Z a) (of_Z b) = of_Z (Z.min a b).
Proof.
  unfold nmin, nlt. rewrite ngt_of_Z. cbn [is_NaN of_Z orb].
  destruct (Z.ltb_spec b a); f_equal; lia.
Qed.

Lemma fold_nmax_of_Z l : forall a,
  fold_left nmax (map of_Z l) (of_Z a) = of_Z (fold_left Z.max l a).
Proof.
  induction l as [|v l IH]; intros a; cbn [map fold_left]; [reflexivity|].
  now rewrite nmax_of_Z, IH.
Qed.

Lemma fold_nmin_of_Z l : forall a,
  fold_left nmin (map of_Z l) (of_Z a) = of_Z (fold_left Z.min l a).
Proof.
  induction l as [|v l IH]; intros a; cbn [map fold_left]; [reflexivity|].
  now rewrite nmin_of_Z, IH.
Qed.

Lemma fold_max_spec l : forall a,
  let m := fold_left Z.max l a in
  In m (a :: l) /\ Forall (fun v => (v <= m)%Z) (a :: l).
Proof.
  induction l as [|v l IH]; intros a; cbn [fold_left].
  - split; [left; reflexivity | repeat constructor; lia].
  - destruct (IH (Z.max a v)) as [Hin Hall]. cbv zeta in *.
    inversion Hall as [|? ? Hm Hl]; subst. split.
    + destruct Hin as [Hin|Hin]; [|right; right; exact Hin].
      rewrite <- Hin. destruct (Z.max_spec a v) as [[_ ->]|[_ ->]]; simpl; auto.
    + constructor; [lia|]. constructor; [lia | exact Hl].
Qed.

Lemma fold_min_spec l : forall a,
  let m := fold_left Z.min l a in
  In m (a :: l) /\ Forall (fun v => (m <= v)%Z) (a :: l).
Proof.
  induction l as [|v l IH]; intros a; cbn [fold_left].
  - split; [left; reflexivity | repeat constructor; lia].
  - destruct (IH (Z.min a v)) as [Hin Hall]. cbv zeta in *.
    inversion Hall as [|? ? Hm Hl]; subst. split.
    + destruct Hin as [Hin|Hin]; [|right; right; exact Hin].
      rewrite <- Hin. destruct (Z.min_spec a v) as [[_ ->]|[_ ->]]; simpl; auto.
    + constructor; [lia|]. constructor; [lia | exact Hl].
Qed.

Lemma Math_max_of_Z v l :
  Math_max (map of_Z (v :: l)) = of_Z (fold_left Z.max l v).
Proof.
  unfold Math_max. cbn [map fold_left].
  change (nmax NegInfinity (of_Z v)) with (of_Z v). apply fold_nmax_of_Z.
Qed.

Lemma Math_min_of_Z v l :
  Math_min (map of_Z (v :: l)) = of_Z (fold_left Z.min l v).
Proof.
  unfold Math_min. cbn [map fold_left].
  change (nmin Infinity (of_Z v)) with (of_Z v). apply fold_nmin_of_Z.
Qed.

(** X9.  For a collection that holds an entry, [getOverallStats] reports as
    highest and lowest confidence power levels that occur in the
    collection and bound every other one, and its average is a finite
    number between the two. *)
Theorem overall_extremes (data : ConfidenceData) :
  all_entries data <> [] ->
  exists (lo hi : Z) (avg : Qc),
    DataProcessing.lowestConfidence (DataProcessing.getOverallStats data) = of_Z lo /\
    DataProcessing.highestConfidence (DataProcessing.getOverallStats data) = of_Z hi /\
    DataProcessing.avgConfidence (DataProcessing.getOverallStats data) = Num avg /\
    In lo (map power_level (all_entries data)) /\
    In hi (map power_level (all_entries data)) /\
    Forall (fun e => (lo <= power_level e <= hi)%Z) (all_entries data) /\
    (zq lo <= avg)%Qc /\ (avg <= zq hi)%Qc.
Proof.
  intros Hne. unfold DataProcessing.getOverallStats.
  cbn [DataProcessing.lowestConfidence DataProcessing.highestConfidence
       DataProcessing.avgConfidence].
  fold (all_entries data). rewrite length_map.
  fold (mean_power_level (all_entries data)).
  destruct (all_entries data) as [|e es] eqn:Hall; [congruence|].
  change (map power_level (e :: es)) with (power_level e :: map power_level es).
  rewrite Math_max_of_Z, Math_min_of_Z.
  destruct (fold_max_spec (map power_level es) (power_level e)) as [Hmax_in Hmax].
  destruct (fold_min_spec (map power_level es) (power_level e)) as [Hmin_in Hmin].
  cbv zeta in *.
  set (hi := fold_left Z.max (map power_level es) (power_level e)) in *.
  set (lo := fold_left Z.min (map power_level es) (power_level e)) in *.
  assert (Hr : Forall (fun e0 => (lo <= power_level e0 <= hi)%Z) (e :: es)).
  { change (power_level e :: map power_level es)
      with (map power_level (e :: es)) in Hmax, Hmin.
    rewrite Forall_map in Hmax, Hmin. rewrite Forall_forall in *.
    intros x Hx. split; [apply Hmin | apply Hmax]; assumption. }
  destruct (@mean_power_level_bounds lo hi (e :: es)) as (q & Hq & Hlo & Hhi);
    [discriminate | exact Hr |].
  exists lo, hi, q. repeat split; assumption.
Qed.

Lemma overall_extremes_witness :
  exists (lo hi : Z) (avg : Qc),
    DataProcessing.lowestConfidence (DataProcessing.getOverallStats scenario) = of_Z lo /\
    DataProcessing.highestConfidence (DataProcessing.getOverallStats scenario) = of_Z hi /\
    DataProcessing.avgConfidence (DataProcessing.getOverallStats scenario) = Num avg /\
    In lo (map power_level (all_entries scenario)) /\
    In hi (map power_level (all_entries scenario)) /\
    Forall (fun e => (lo <= power_level e <= hi)%Z) (all_entries scenario) /\
    (zq lo <= avg)%Qc /\ (avg <= zq hi)%Qc.
Proof.
  apply overall_extremes. simpl. discriminate.
Defined.

(** ** Objects with keys of any type *)

Section ObjGeneric.
Context {K V : Type} (eqb : K -> K -> bool).
Hypothesis eqb_eq : forall a b, eqb a b = true <-> a = b.

Lemma eqb_refl_gen a : eqb a a = true.
Proof. now apply eqb_eq. Qed.

Lemma eqb_neq_gen a b : a <> b -> eqb a b = false.
Proof.
  intros Hab. destruct (eqb a b) eqn:E; [|reflexivity].
  apply eqb_eq in E. contradiction.
Qed.

Lemma obj_get_set_same (o : list (K * V)) k v :
  obj_get eqb k (obj_set eqb k v o) = Some v.
Proof.
  induction o as [|[k0 v0] o IH]; simpl.
  - now rewrite eqb_refl_gen.
  - destruct (eqb k k0) eqn:E; simpl; rewrite E; [reflexivity | exact IH].
Qed.

Lemma obj_get_set_other (o : list (K * V)) k k' v :
  k' <> k -> obj_get eqb k' (obj_set eqb k v o) = obj_get eqb k' o.
Proof.
  intros Hne. induction o as [|[k0 v0] o IH]; simpl.
  - now rewrite eqb_neq_gen.
  - destruct (eqb k k0) eqn:E; simpl.
    + apply eqb_eq in E. subst k0. now rewrite eqb_neq_gen.
    + destruct (eqb k' k0); [reflexivity | exact IH].
Qed.

Lemma obj_set_keys_gen (o : list (K * V)) k v k' :
  In k' (keys (obj_set eqb k v o)) <-> k' = k \/ In k' (keys o).
Proof.
  induction o as [|[k0 v0] o IH]; simpl.
  - intuition.
  - destruct (eqb k k0) eqn:E; simpl.
    + apply eqb_eq in E. subst k0. intuition.
    + rewrite IH. intuition.
Qed.

Lemma obj_set_NoDup_gen (o : list (K * V)) k v :
  NoDup (keys o) -> NoDup (keys (obj_set eqb k v o)).
Proof.
  induction o as [|[k0 v0] o IH]; simpl; intros Hnd.
  - constructor; [intros []|constructor].
  - inversion Hnd as [|? ? Hnotin Hnd']; subst.
    destruct (eqb k k0) eqn:E; simpl.
    + constructor; assumption.
    + constructor; [|auto].
      rewrite obj_set_keys_gen. intros [->|H]; [|tauto].
      rewrite eqb_refl_gen in E. discriminate.
Qed.

(** Writing an existing key keeps the keys and their order. *)
Lemma obj_set_keys_present (o : list (K * V)) k v :
  In k (keys o) -> keys (obj_set eqb k v o) = keys o.
Proof.
  induction o as [|[k0 v0] o IH]; simpl; [tauto|].
  destruct (eqb k k0) eqn:E; simpl; [reflexivity|].
  intros [->|H]; [rewrite eqb_refl_gen in E; discriminate|].
  now rewrite IH.
Qed.

Lemma obj_get_In (o : list (K * V)) k v :
  obj_get eqb k o = Some v -> In (k, v) o.
Proof.
  induction o as [|[k0 v0] o IH]; simpl; [discriminate|].
  destruct (eqb k k0) eqn:E; [|auto].
  apply eqb_eq in E. subst k0. intros H. injection H as ->. auto.
Qed.

Lemma In_obj_get (o : list (K * V)) k v :
  NoDup (keys o) -> In (k, v) o -> obj_get eqb k o = Some v.
Proof.
  induction o as [|[k0 v0] o IH]; simpl; intros Hnd Hin; [contradiction|].
  inversion Hnd as [|? ? Hnotin Hnd']; subst.
  destruct Hin as [Hin|Hin].
  - injection Hin as -> ->. now rewrite eqb_refl_gen.
  - destruct (eqb k k0) eqn:E; [|auto].
    apply eqb_eq in E. subst k0. exfalso. apply Hnotin.
    apply (in_map fst) in Hin. exact Hin.
Qed.

Lemma obj_get_None (o : list (K * V)) k :
  obj_get eqb k o = None <-> ~ In k (keys o).
Proof.
  induction o as [|[k0 v0] o IH]; simpl; [tauto|].
  destruct (eqb k k0) eqn:E.
  - apply eqb_eq in E. subst k0. split; [discriminate | tauto].
  - rewrite IH. split; [|tauto].
    intros Hn [->|H]; [rewrite eqb_refl_gen in E; discriminate | tauto].
Qed.
End ObjGeneric.

(** ** The rows of the statistics by category *)

Lemma nsub_ngt_zero (a b : number) : ngt (nsub a b) (of_Z 0) = ngt a b.
Proof.
  destruct a as [x| | |], b as [y| | |]; try reflexivity.
  unfold nsub, nneg, nadd. rewrite of_Z_zq, zq_0. unfold ngt. f_equal.
  apply eq_true_iff_eq. rewrite !Qle_bool_iff.
  change (this (x + - y)%Qc) with (Qred (x + Qred (- y))).
  rewrite !Qred_correct.
  change (this 0%Qc) with 0%Q.
  split; intros H.
  - apply (Qplus_le_l _ _ (- y)). now rewrite Qplus_opp_r.
  - apply (Qplus_le_l _ _ (- y)) in H. now rewrite Qplus_opp_r in H.
Qed.

Lemma ngt_asym (a b : number) : ngt a b = true -> ngt b a = false.
Proof.
  destruct a as [x| | |], b as [y| | |]; simpl; try congruence.
  rewrite negb_true_iff, negb_false_iff, <- not_true_iff_false, !Qle_bool_iff.
  intros H. apply Qnot_le_lt in H. now apply Qlt_le_weak.
Qed.

Lemma entries_of_category_app c es1 es2 :
  entries_of_category c (es1 ++ es2)
  = entries_of_category c es1 ++ entries_of_category c es2.
Proof. apply filter_app. Qed.

Lemma merge_tally_app o es1 es2 :
  merge_tally (merge_tally o es1) es2 = merge_tally o (es1 ++ es2).
Proof.
  destruct es1 as [|e1 es1]; [reflexivity|].
  destruct es2 as [|e2 es2]; [now rewrite app_nil_r|].
  cbn [app merge_tally]. cbv zeta. f_equal.
  cbn [DataProcessing.total DataProcessing.count].
  change (e1 :: es1 ++ e2 :: es2) with ((e1 :: es1) ++ (e2 :: es2)).
  rewrite map_app, sum_Z_app, length_app, Nat2Z.inj_add.
  f_equal; lia.
Qed.

Lemma tally_step_get c m n e :
  obj_get Category_eqb c (fst (tally_step (m, n) e))
  = merge_tally (obj_get Category_eqb c m) (entries_of_category c [e]).
Proof.
  unfold tally_step, entries_of_category. cbn [fst filter].
  destruct (Category_eqb (category e) c) eqn:E.
  - apply Category_eqb_eq in E. subst c.
    rewrite (obj_get_set_same Category_eqb Category_eqb_eq).
    cbn [merge_tally]. cbv zeta. reflexivity.
  - rewrite (obj_get_set_other Category_eqb Category_eqb_eq); [reflexivity|].
    intros ->. rewrite (proj2 (Category_eqb_eq _ _) eq_refl) in E. discriminate.
Qed.

Lemma tally_step_NoDup m n e :
  NoDup (keys m) -> NoDup (keys (fst (tally_step (m, n) e))).
Proof.
  intros Hnd. unfold tally_step. cbn [fst].
  now apply (obj_set_NoDup_gen Category_eqb Category_eqb_eq).
Qed.

Lemma tally_fold_get c es : forall m n,
  obj_get Category_eqb c (fst (fold_left tally_step es (m, n)))
  = merge_tally (obj_get Category_eqb c m) (entries_of_category c es).
Proof.
  induction es as [|e es IH]; intros m n; cbn [fold_left]; [reflexivity|].
  pose proof (tally_step_get c m n e) as Hstep.
  destruct (tally_step (m, n) e) as [m1 n1]. cbn [fst] in Hstep.
  rewrite IH, Hstep, merge_tally_app.
  now rewrite <- entries_of_category_app.
Qed.

Lemma tally_fold_NoDup es : forall m n,
  NoDup (keys m) -> NoDup (keys (fst (fold_left tally_step es (m, n)))).
Proof.
  induction es as [|e es IH]; intros m n Hnd; cbn [fold_left]; [assumption|].
  pose proof (@tally_step_NoDup m n e Hnd) as Hstep.
  destruct (tally_step (m, n) e) as [m1 n1]. now apply IH.
Qed.

Lemma tally_days_get c days : forall m n,
  obj_get Category_eqb c
    (fst (fold_left (fun acc day => fold_left tally_step (entries day) acc)
            days (m, n)))
  = merge_tally (obj_get Category_eqb c m)
      (entries_of_category c (flat_map entries days)).
Proof.
  induction days as [|day days IH]; intros m n; cbn [fold_left flat_map];
    [reflexivity|].
  pose proof (tally_fold_get c (entries day) m n) as Hday.
  destruct (fold_left tally_step (entries day) (m, n)) as [m1 n1].
  cbn [fst] in Hday.
  now rewrite IH, Hday, merge_tally_app, <- entries_of_category_app.
Qed.

Lemma tally_days_NoDup days : forall m n,
  NoDup (keys m) ->
  NoDup (keys (fst (fold_left (fun acc day => fold_left tally_step (entries day) acc)
                      days (m, n)))).
Proof.
  induction days as [|day days IH]; intros m n Hnd; cbn [fold_left];
    [assumption|].
  pose proof (@tally_fold_NoDup (entries day) m n Hnd) as Hday.
  destruct (fold_left tally_step (entries day) (m, n)) as [m1 n1]. now apply IH.
Qed.

(** The rows of [calculateCategoryStats] before they are sorted. *)
Lemma calculateCategoryStats_rows data :
  exists (m : list (Category * DataProcessing.Tally)),
    NoDup (keys m) /\
    (forall c, obj_get Category_eqb c m
               = merge_tally None (entries_of_category c (all_entries data))) /\
    DataProcessing.calculateCategoryStats data
    = sort (fun a b =>
              ngt (nsub (DataProcessing.avgPowerLevel b)
                        (DataProcessing.avgPowerLevel a)) (of_Z 0))
        (map
           (fun kv =>
              {| DataProcessing.cs_category := fst kv;
                 DataProcessing.avgPowerLevel :=
                   ndiv (of_Z (DataProcessing.total (snd kv)))
                        (of_Z (DataProcessing.count (snd kv)));
                 DataProcessing.entryCount := DataProcessing.count (snd kv);
                 DataProcessing.percentage :=
                   nmul (ndiv (of_Z (DataProcessing.count (snd kv)))
                              (of_Z (Z.of_nat (length (all_entries data)))))
                        (of_Z 100) |})
           m).
Proof.
  unfold DataProcessing.calculateCategoryStats.
  match goal with
  | |- context [fold_left ?g (values data) ([], 0%Z)] =>
      rewrite (fold_left_ext g
                 (fun acc day => fold_left tally_step (entries day) acc))
        by (intros acc day; apply fold_left_ext; intros [cm te] e; reflexivity)
  end.
  pose proof (tally_days_fold (values data) [] 0) as Hfold.
  pose proof (fun c => tally_days_get c (values data) [] 0) as Hget.
  pose proof (@tally_days_NoDup (values data) [] 0%Z (NoDup_nil _)) as Hnd.
  cbv zeta in Hfold.
  destruct (fold_left (fun acc day => fold_left tally_step (entries day) acc)
              (values data) ([], 0%Z)) as [m T].
  cbn [fst snd] in *. destruct Hfold as [_ HT]. simpl in HT.
  exists m. split; [assumption|]. split; [exact Hget|].
  cbv beta iota zeta. f_equal. apply map_ext. intros [c v]. cbn [fst snd].
  unfold all_entries. now rewrite HT.
Qed.

Lemma merge_tally_None_Some c es v :
  merge_tally None (entries_of_category c es) = Some v ->
  entries_of_category c es <> [] /\
  DataProcessing.total v = sum_Z (map power_level (entries_of_category c es)) /\
  DataProcessing.count v = Z.of_nat (length (entries_of_category c es)).
Proof.
  destruct (entries_of_category c es) as [|e l]; [discriminate|].
  cbn [merge_tally]. cbv zeta. intros H. injection H as <-.
  cbn [DataProcessing.total DataProcessing.count]. repeat split. discriminate.
Qed.

(** What a row of [calculateCategoryStats] holds. *)
Lemma calculateCategoryStats_row data s :
  In s (DataProcessing.calculateCategoryStats data) ->
  let es := entries_of_category (DataProcessing.cs_category s) (all_entries data) in
  es <> [] /\
  DataProcessing.entryCount s = Z.of_nat (length es) /\
  DataProcessing.avgPowerLevel s = mean_power_level es /\
  DataProcessing.percentage s
  = nmul (ndiv (of_nat (length es)) (of_nat (length (all_entries data)))) (of_Z 100).
Proof.
  destruct (calculateCategoryStats_rows data) as (m & Hnd & Hget & ->).
  intros Hin. apply (Permutation_in _ (sort_perm _ _)) in Hin.
  apply in_map_iff in Hin. destruct Hin as ([c v] & <- & Hcv).
  cbn [fst snd DataProcessing.cs_category DataProcessing.entryCount
       DataProcessing.avgPowerLevel DataProcessing.percentage].
  apply (In_obj_get Category_eqb Category_eqb_eq) in Hcv; [|assumption].
  rewrite Hget in Hcv. apply merge_tally_None_Some in Hcv.
  destruct Hcv as (Hne & Htot & Hcnt). cbv zeta.
  rewrite Htot, Hcnt. unfold mean_power_level, of_nat. auto.
Qed.

(** X10.  [calculateCategoryStats] returns its rows by decreasing average
    power level, and every average is a finite number. *)
Theorem calculateCategoryStats_sorted (data : ConfidenceData) :
  Sorted not_below (DataProcessing.calculateCategoryStats data) /\
  Forall (fun s => exists q, DataProcessing.avgPowerLevel s = Num q)
    (DataProcessing.calculateCategoryStats data).
Proof.
  split.
  - destruct (calculateCategoryStats_rows data) as (m & _ & _ & ->).
    apply sort_Sorted; intros a b; unfold not_below; rewrite nsub_ngt_zero.
    + auto.
    + apply ngt_asym.
  - apply Forall_forall. intros s Hs.
    apply calculateCategoryStats_row in Hs. cbv zeta in Hs.
    destruct Hs as (Hne & _ & -> & _).
    rewrite mean_power_level_nonempty by assumption. eauto.
Qed.

(** X11.  [calculateCategoryStats] returns one row for every category that
    has an entry and no other row; the row of a category holds the number
    of its entries and the mean of their power levels. *)
Theorem calculateCategoryStats_rows_spec (data : ConfidenceData) :
  NoDup (map DataProcessing.cs_category (DataProcessing.calculateCategoryStats data)) /\
  (forall c,
     In c (map DataProcessing.cs_category (DataProcessing.calculateCategoryStats data))
     <-> entries_of_category c (all_entries data) <> []) /\
  (forall s,
     In s (DataProcessing.calculateCategoryStats data) ->
     DataProcessing.entryCount s
     = Z.of_nat (length (entries_of_category (DataProcessing.cs_category s)
                           (all_entries data))) /\
     DataProcessing.avgPowerLevel s
     = mean_power_level (entries_of_category (DataProcessing.cs_category s)
                           (all_entries data))).
Proof.
  split; [|split].
  - destruct (calculateCategoryStats_rows data) as (m & Hnd & _ & ->).
    eapply Permutation_NoDup.
    + apply Permutation_sym, Permutation_map, sort_perm.
    + rewrite map_map. cbn [DataProcessing.cs_category]. exact Hnd.
  - intros c. split.
    + intros Hin. apply in_map_iff in Hin. destruct Hin as (s & <- & Hs).
      apply calculateCategoryStats_row in Hs. cbv zeta in Hs. tauto.
    + intros Hne.
      destruct (calculateCategoryStats_rows data) as (m & Hnd & Hget & ->).
      specialize (Hget c).
      destruct (entries_of_category c (all_entries data)) as [|e l] eqn:Hc;
        [congruence|].
      cbn [merge_tally] in Hget. cbv zeta in Hget.
      apply (obj_get_In Category_eqb Category_eqb_eq) in Hget.
      eapply Permutation_in;
        [apply Permutation_sym, Permutation_map, sort_perm|].
      rewrite map_map. cbn [DataProcessing.cs_category].
      apply (in_map fst) in Hget. exact Hget.
  - intros s Hs. apply calculateCategoryStats_row in Hs. cbv zeta in Hs. tauto.
Qed.

Lemma calculateCategoryStats_rows_spec_witness :
  DataProcessing.entryCount
    (hd {| DataProcessing.cs_category := self_image;
           DataProcessing.avgPowerLevel := NaN;
           DataProcessing.entryCount := 0;
           DataProcessing.percentage := NaN |}
        (DataProcessing.calculateCategoryStats scenario))
  = 1%Z.
Proof.
  destruct (proj2 (proj2 (calculateCategoryStats_rows_spec scenario))
              (hd {| DataProcessing.cs_category := self_image;
                     DataProcessing.avgPowerLevel := NaN;
                     DataProcessing.entryCount := 0;
                     DataProcessing.percentage := NaN |}
                  (DataProcessing.calculateCategoryStats scenario)))
    as [Hcount _].
  - vm_compute. left. reflexivity.
  - rewrite Hcount. reflexivity.
Defined.

(** ** The time series of the React dashboard *)

Lemma traverse_Some_map {A B : Type} (f : A -> option B) (g : A -> B) l :
  (forall a, In a l -> f a = Some (g a)) -> traverse f l = Some (map g l).
Proof.
  induction l as [|a l IH]; intros Hf; cbn [traverse map]; [reflexivity|].
  rewrite (Hf a) by (simpl; auto). rewrite IH; [reflexivity|].
  intros b Hb. apply Hf. simpl. auto.
Qed.



Lemma traverse_Some_Forall {A B : Type} (f : A -> option B) l : forall ys,
  traverse f l = Some ys ->
  Forall2 (fun a y => f a = Some y) l ys.
Proof.
  induction l as [|a l IH]; intros ys; cbn [traverse].
  - intros H. injection H as <-. constructor.
  - destruct (f a) as [y|] eqn:Ha; [|discriminate].
    destruct (traverse f l) as [ys'|]; [|discriminate].
    intros H. injection H as <-. constructor; auto.
Qed.

Lemma traverse_ext_proj {A B C : Type} (f g : A -> option B) (h : B -> C) l :
  (forall a, option_map h (f a) = option_map h (g a)) ->
  option_map (map h) (traverse f l) = option_map (map h) (traverse g l).
Proof.
  intros Hfg. induction l as [|a l IH]; cbn [traverse]; [reflexivity|].
  specialize (Hfg a).
  destruct (f a) as [y|], (g a) as [z|]; simpl in Hfg; try discriminate;
    [|reflexivity].
  injection Hfg as Hyz.
  destruct (traverse f l) as [ys|], (traverse g l) as [zs|]; simpl in IH |- *;
    try discriminate; [|reflexivity].
  injection IH as IH. now rewrite Hyz, IH.
Qed.

Lemma key_lookup (data : ConfidenceData) date :
  In date (keys data) -> exists d, obj_get String.eqb date data = Some d.
Proof.
  intros Hin. destruct (obj_get String.eqb date data) as [d|] eqn:E; [eauto|].
  apply (obj_get_None String.eqb String.eqb_eq) in E. contradiction.
Qed.

Lemma in_sort_strings l s : In s (sort_strings l) <-> In s l.
Proof.
  split; apply Permutation_in;
    [apply sort_strings_perm | apply Permutation_sym, sort_strings_perm].
Qed.




(** X13.  [processTimeSeriesData] and [processConfidenceTypeData] give the
    same dates and the same values, in the same order, and throw on the
    same collections. *)
Theorem time_series_agree (format : string -> option string) (data : ConfidenceData) :
  option_map
    (map (fun p => (DataProcessing.cdp_date p, DataProcessing.cdp_value p)))
    (DataProcessing.processConfidenceTypeData format data)
  = option_map
      (map (fun p => (DataProcessing.cdp_date p, DataProcessing.cdp_value p)))
      (DataProcessing.processTimeSeriesData format data).
Proof.
  unfold DataProcessing.processConfidenceTypeData,
    DataProcessing.processTimeSeriesData. cbv zeta.
  apply traverse_ext_proj. intros date.
  destruct (obj_get String.eqb date data), (format date); reflexivity.
Qed.

Lemma filter_all_true {A : Type} (f : A -> bool) l :
  Forall (fun a => f a = true) l -> filter f l = l.
Proof.
  induction 1 as [|a l Ha Hl IH]; simpl; [reflexivity|]. now rewrite Ha, IH.
Qed.

Lemma filter_all_false {A : Type} (f : A -> bool) l :
  Forall (fun a => f a = false) l -> filter f l = [].
Proof.
  induction 1 as [|a l Ha Hl IH]; simpl; [reflexivity|]. now rewrite Ha.
Qed.

Lemma Forall_filter_true {A : Type} (f : A -> bool) l :
  Forall (fun a => f a = true) (filter f l).
Proof.
  induction l as [|a l IH]; simpl; [constructor|].
  destruct (f a) eqn:Ha; [constructor|]; assumption.
Qed.

Lemma ConfidenceType_eqb_eq a b : ConfidenceType_eqb a b = true <-> a = b.
Proof. destruct a, b; simpl; split; congruence. Qed.

(** The days of a view filtered by a type hold entries of this type only,
    at least one, and their mean as average. *)
Lemma type_filtered_day sc t (data : ConfidenceData) date day :
  obj_get String.eqb date (App.filteredData sc (Some t) data) = Some day ->
  entries day <> [] /\
  Forall (fun e => confidence_type e = t) (entries day) /\
  daily_confidence_average day = mean_power_level (entries day).
Proof.
  intros Hget. apply (obj_get_In String.eqb String.eqb_eq) in Hget.
  rewrite App_filteredData_collect in Hget by (right; discriminate).
  apply collect_In in Hget. destruct Hget as (d0 & _ & Hd).
  apply App_day_Some in Hd. destruct Hd as (He & Hne & Havg & _).
  repeat split; try assumption.
  rewrite He. eapply Forall_impl; [|apply Forall_filter_true].
  intros e Hm. unfold App_matches in Hm.
  apply andb_true_iff in Hm. destruct Hm as [_ Hm].
  now apply ConfidenceType_eqb_eq.
Qed.

(** X14.  On a view that the React filter has restricted to one type, the
    series of this type in [processConfidenceTypeData] coincides with the
    daily average at every point, and the series of the other type is 0 at
    every point. *)
Theorem type_filter_series (format : string -> option string) sc
    (data : ConfidenceData) :
  (forall points,
     DataProcessing.processConfidenceTypeData format
       (App.filteredData sc (Some personal) data) = Some points ->
     Forall (fun p =>
               DataProcessing.cdp_personal p = Some (DataProcessing.cdp_value p) /\
               DataProcessing.cdp_professional p = Some (of_Z 0))
       points) /\
  (forall points,
     DataProcessing.processConfidenceTypeData format
       (App.filteredData sc (Some professional) data) = Some points ->
     Forall (fun p =>
               DataProcessing.cdp_professional p = Some (DataProcessing.cdp_value p) /\
               DataProcessing.cdp_personal p = Some (of_Z 0))
       points).
Proof.
  split; intros points E;
    unfold DataProcessing.processConfidenceTypeData in E; cbv zeta in E;
    apply traverse_Some_Forall in E;
    induction E as [|date p dates points Hp E IH]; constructor; try assumption;
    destruct (obj_get String.eqb date (App.filteredData sc _ data))
      as [day|] eqn:Hday; try discriminate;
    destruct (format date) as [label|]; try discriminate;
    injection Hp as <-;
    cbn [DataProcessing.cdp_personal DataProcessing.cdp_professional
         DataProcessing.cdp_value];
    apply type_filtered_day in Hday; destruct Hday as (Hne & Ht & Havg).
  - rewrite (filter_all_true (fun e => ConfidenceType_eqb (confidence_type e) personal))
      by (eapply Forall_impl; [|exact Ht]; intros e ->; reflexivity).
    rewrite (filter_all_false (fun e => ConfidenceType_eqb (confidence_type e) professional))
      by (eapply Forall_impl; [|exact Ht]; intros e ->; reflexivity).
    rewrite Havg. destruct (entries day); [congruence | split; reflexivity].
  - rewrite (filter_all_true (fun e => ConfidenceType_eqb (confidence_type e) professional))
      by (eapply Forall_impl; [|exact Ht]; intros e ->; reflexivity).
    rewrite (filter_all_false (fun e => ConfidenceType_eqb (confidence_type e) personal))
      by (eapply Forall_impl; [|exact Ht]; intros e ->; reflexivity).
    rewrite Havg. destruct (entries day); [congruence | split; reflexivity].
Qed.

Lemma type_filter_series_witness :
  Forall (fun p =>
            DataProcessing.cdp_personal p = Some (DataProcessing.cdp_value p) /\
            DataProcessing.cdp_professional p = Some (of_Z 0))
    [{| DataProcessing.cdp_date := "2025-01-01";
        DataProcessing.cdp_value := mean_power_level [mk_entry personal self_image 8];
        DataProcessing.cdp_personal :=
          Some (mean_power_level [mk_entry personal self_image 8]);
        DataProcessing.cdp_professional := Some (of_Z 0) |}].
Proof.
  apply (proj1 (type_filter_series (fun date => Some date) None scenario)).
  reflexivity.
Defined.

(** ** The top moments and the growth areas *)

Lemma slice_firstn {A : Type} (l : list A) (count : Z) :
  (0 <= count)%Z -> slice 0 (Some count) l = firstn (Z.to_nat count) l.
Proof.
  intros Hc. unfold slice. simpl.
  replace (count <? 0)%Z with false by (symmetry; apply Z.ltb_ge; lia).
  rewrite (Z.min_l 0) by lia. rewrite Z.sub_0_r.
  destruct (Z.min_spec count (Z.of_nat (length l))) as [[Hlt ->]|[Hge ->]];
    [reflexivity|].
  rewrite Nat2Z.id, !firstn_all2; try reflexivity; lia.
Qed.

Lemma StronglySorted_app_inv {A : Type} (R : A -> A -> Prop) l1 l2 :
  StronglySorted R (l1 ++ l2) ->
  StronglySorted R l1 /\ forall a b, In a l1 -> In b l2 -> R a b.
Proof.
  induction l1 as [|x l1 IH]; simpl; intros Hs.
  - split; [constructor | contradiction].
  - inversion Hs as [|? ? Hs' Hx]; subst. destruct (IH Hs') as [IH1 IH2].
    split.
    + constructor; [assumption|].
      rewrite Forall_forall in *. intros y Hy. apply Hx. apply in_or_app. auto.
    + intros a b [<-|Ha] Hb; [|auto].
      rewrite Forall_forall in Hx. apply Hx. apply in_or_app. auto.
Qed.

Section TopK.
Context {A : Type} (after : A -> A -> bool) (le : A -> A -> Prop).
Hypothesis le_trans : forall a b c, le a b -> le b c -> le a c.
Hypothesis after_false : forall a b, after a b = false -> le a b.
Hypothesis after_true : forall a b, after a b = true -> le b a.

Lemma sort_StronglySorted l : StronglySorted le (sort after l).
Proof.
  apply Sorted_StronglySorted; [exact le_trans|].
  now apply sort_Sorted.
Qed.

Lemma top_k_spec l (count : Z) :
  (0 <= count)%Z ->
  let top := slice 0 (Some count) (sort after l) in
  length top = Nat.min (Z.to_nat count) (length l) /\
  StronglySorted le top /\
  exists rest,
    Permutation (top ++ rest) l /\
    forall a b, In a top -> In b rest -> le a b.
Proof.
  intros Hc. cbv zeta. rewrite slice_firstn by assumption.
  set (k := Z.to_nat count).
  pose proof (sort_StronglySorted l) as Hs.
  rewrite <- (firstn_skipn k (sort after l)) in Hs.
  apply StronglySorted_app_inv in Hs. destruct Hs as [Hs Hdom].
  split; [now rewrite length_firstn, sort_length|].
  split; [assumption|].
  exists (skipn k (sort after l)). split; [|assumption].
  rewrite firstn_skipn. apply sort_perm.
Qed.
End TopK.

Lemma gtb_zero_false (z : Z) : (z >? 0)%Z = false -> (z <= 0)%Z.
Proof. rewrite Z.gtb_ltb. apply Z.ltb_ge. Qed.

Lemma gtb_zero_true (z : Z) : (z >? 0)%Z = true -> (0 < z)%Z.
Proof. rewrite Z.gtb_ltb. apply Z.ltb_lt. Qed.

Lemma fold_push {A B : Type} (f : A -> B) es : forall acc,
  fold_left (fun acc e => acc ++ [f e]) es acc = acc ++ map f es.
Proof.
  induction es as [|e es IH]; intros acc; cbn [fold_left map].
  - now rewrite app_nil_r.
  - now rewrite IH, <- app_assoc.
Qed.

Lemma allEntries_fold (l : ConfidenceData) : forall acc,
  fold_left
    (fun allEntries '(date, dayData) =>
       fold_left
         (fun allEntries entry =>
            allEntries ++ [{| ConfidenceVisualizer.de_entry := entry;
                              ConfidenceVisualizer.de_date := date |}])
         (entries dayData)
         allEntries)
    l acc
  = acc ++
    flat_map
      (fun '(date, dayData) =>
         map (fun e => {| ConfidenceVisualizer.de_entry := e;
                          ConfidenceVisualizer.de_date := date |})
           (entries dayData))
      l.
Proof.
  induction l as [|[date day] l IH]; intros acc; cbn [fold_left flat_map].
  - now rewrite app_nil_r.
  - rewrite IH, app_assoc. f_equal.
    apply (fold_push (fun e => {| ConfidenceVisualizer.de_entry := e;
                                  ConfidenceVisualizer.de_date := date |})).
Qed.

Lemma allEntries_flat (this : ConfidenceVisualizer.t) :
  ConfidenceVisualizer.allEntries this
  = flat_map
      (fun '(date, dayData) =>
         map (fun e => {| ConfidenceVisualizer.de_entry := e;
                          ConfidenceVisualizer.de_date := date |})
           (entries dayData))
      (ConfidenceVisualizer.filteredData this).
Proof.
  unfold ConfidenceVisualizer.allEntries. now rewrite allEntries_fold.
Qed.

Lemma allEntries_In (this : ConfidenceVisualizer.t) m :
  In m (ConfidenceVisualizer.allEntries this) <->
  exists day,
    In (ConfidenceVisualizer.de_date m, day) (ConfidenceVisualizer.filteredData this) /\
    In (ConfidenceVisualizer.de_entry m) (entries day).
Proof.
  rewrite allEntries_flat, in_flat_map. split.
  - intros ([date day] & Hd & Hm). apply in_map_iff in Hm.
    destruct Hm as (e & <- & He). simpl. eauto.
  - intros (day & Hd & He). exists (ConfidenceVisualizer.de_date m, day).
    split; [assumption|]. apply in_map_iff.
    exists (ConfidenceVisualizer.de_entry m). split; [|assumption].
    destruct m; reflexivity.
Qed.

(** X15.  For a count that is not negative, [getTopMoments] returns that
    many entries of the filtered view (all of them when there are fewer),
    each under the date of its day, by decreasing power level; every entry
    it leaves out has a power level that is at most the one of every entry
    it returns. *)
Theorem getTopMoments_spec (this : ConfidenceVisualizer.t) (count : Z) :
  (0 <= count)%Z ->
  let top := ConfidenceVisualizer.getTopMoments this count in
  length top = Nat.min (Z.to_nat count) (length (ConfidenceVisualizer.allEntries this)) /\
  StronglySorted
    (fun a b => (power_level (ConfidenceVisualizer.de_entry b)
                 <= power_level (ConfidenceVisualizer.de_entry a))%Z) top /\
  (forall m, In m top ->
     exists day,
       In (ConfidenceVisualizer.de_date m, day) (ConfidenceVisualizer.filteredData this) /\
       In (ConfidenceVisualizer.de_entry m) (entries day)) /\
  exists rest,
    Permutation (top ++ rest) (ConfidenceVisualizer.allEntries this) /\
    forall a b, In a top -> In b rest ->
      (power_level (ConfidenceVisualizer.de_entry b)
       <= power_level (ConfidenceVisualizer.de_entry a))%Z.
Proof.
  intros Hc. cbv zeta. unfold ConfidenceVisualizer.getTopMoments.
  destruct (@top_k_spec _
              (fun a b => (power_level (ConfidenceVisualizer.de_entry b)
                           - power_level (ConfidenceVisualizer.de_entry a) >? 0)%Z)
              (fun a b => (power_level (ConfidenceVisualizer.de_entry b)
                           <= power_level (ConfidenceVisualizer.de_entry a))%Z)
              ltac:(cbv beta; intros; lia)
              ltac:(cbv beta; intros a b H; apply gtb_zero_false in H; lia)
              ltac:(cbv beta; intros a b H; apply gtb_zero_true in H; lia)
              (ConfidenceVisualizer.allEntries this) count Hc)
    as (Hlen & Hs & rest & Hperm & Hdom).
  split; [exact Hlen|]. split; [exact Hs|]. split; [|eauto].
  intros m Hm. apply allEntries_In.
  apply (Permutation_in _ Hperm). apply in_or_app. auto.
Qed.

Lemma getTopMoments_spec_witness :
  length (ConfidenceVisualizer.getTopMoments
            {| ConfidenceVisualizer.data := three_days;
               ConfidenceVisualizer.filteredData := three_days |} 2%Z)
  = 2%nat.
Proof.
  apply (@getTopMoments_spec
           {| ConfidenceVisualizer.data := three_days;
              ConfidenceVisualizer.filteredData := three_days |} 2%Z).
  lia.
Defined.

(** X16.  For a count that is not negative, [getGrowthAreas] returns that
    many entries of the filtered view (all of them when there are fewer),
    each under the date of its day, by increasing power level; every entry
    it leaves out has a power level that is at least the one of every entry
    it returns. *)
Theorem getGrowthAreas_spec (this : ConfidenceVisualizer.t) (count : Z) :
  (0 <= count)%Z ->
  let low := ConfidenceVisualizer.getGrowthAreas this count in
  length low = Nat.min (Z.to_nat count) (length (ConfidenceVisualizer.allEntries this)) /\
  StronglySorted
    (fun a b => (power_level (ConfidenceVisualizer.de_entry a)
                 <= power_level (ConfidenceVisualizer.de_entry b))%Z) low /\
  (forall m, In m low ->
     exists day,
       In (ConfidenceVisualizer.de_date m, day) (ConfidenceVisualizer.filteredData this) /\
       In (ConfidenceVisualizer.de_entry m) (entries day)) /\
  exists rest,
    Permutation (low ++ rest) (ConfidenceVisualizer.allEntries this) /\
    forall a b, In a low -> In b rest ->
      (power_level (ConfidenceVisualizer.de_entry a)
       <= power_level (ConfidenceVisualizer.de_entry b))%Z.
Proof.
  intros Hc. cbv zeta. unfold ConfidenceVisualizer.getGrowthAreas.
  destruct (@top_k_spec _
              (fun a b => (power_level (ConfidenceVisualizer.de_entry a)
                           - power_level (ConfidenceVisualizer.de_entry b) >? 0)%Z)
              (fun a b => (power_level (ConfidenceVisualizer.de_entry a)
                           <= power_level (ConfidenceVisualizer.de_entry b))%Z)
              ltac:(cbv beta; intros; lia)
              ltac:(cbv beta; intros a b H; apply gtb_zero_false in H; lia)
              ltac:(cbv beta; intros a b H; apply gtb_zero_true in H; lia)
              (ConfidenceVisualizer.allEntries this) count Hc)
    as (Hlen & Hs & rest & Hperm & Hdom).
  split; [exact Hlen|]. split; [exact Hs|]. split; [|eauto].
  intros m Hm. apply allEntries_In.
  apply (Permutation_in _ Hperm). apply in_or_app. auto.
Qed.

Lemma getGrowthAreas_spec_witness :
  length (ConfidenceVisualizer.getGrowthAreas
            {| ConfidenceVisualizer.data := three_days;
               ConfidenceVisualizer.filteredData := three_days |} 2%Z)
  = 2%nat.
Proof.
  apply (@getGrowthAreas_spec
           {| ConfidenceVisualizer.data := three_days;
              ConfidenceVisualizer.filteredData := three_days |} 2%Z).
  lia.
Defined.

(** ** The breakdown by category of the export *)

Lemma all_categories c : In c ConfidenceVisualizer.categories.
Proof. destruct c; simpl; tauto. Qed.

Lemma categories_NoDup : NoDup ConfidenceVisualizer.categories.
Proof.
  unfold ConfidenceVisualizer.categories.
  repeat (constructor; [simpl; intuition discriminate|]). constructor.
Qed.

Lemma entries_of_category_single c e :
  entries_of_category c [e] = if Category_eqb (category e) c then [e] else [].
Proof. reflexivity. Qed.

Lemma breakdown_step_inv breakdown es e :
  keys breakdown = ConfidenceVisualizer.categories ->
  (forall c, obj_get Category_eqb c breakdown = Some (counted c es)) ->
  keys (breakdown_step breakdown e) = ConfidenceVisualizer.categories /\
  (forall c, obj_get Category_eqb c (breakdown_step breakdown e)
             = Some (counted c (es ++ [e]))).
Proof.
  intros Hk Hget. unfold breakdown_step. rewrite Hget. split.
  - rewrite (obj_set_keys_present Category_eqb Category_eqb_eq); [assumption|].
    rewrite Hk. apply all_categories.
  - intros c. unfold counted.
    rewrite !entries_of_category_app, entries_of_category_single.
    destruct (Category_eqb (category e) c) eqn:E.
    + apply Category_eqb_eq in E. subst c.
      rewrite (obj_get_set_same Category_eqb Category_eqb_eq).
      cbn [ConfidenceVisualizer.count ConfidenceVisualizer.totalPower
           ConfidenceVisualizer.avgPower].
      rewrite map_app, sum_Z_app, length_app, Nat2Z.inj_add.
      reflexivity.
    + rewrite (obj_get_set_other Category_eqb Category_eqb_eq).
      * rewrite Hget, !app_nil_r. reflexivity.
      * intros ->. rewrite (proj2 (Category_eqb_eq _ _) eq_refl) in E. discriminate.
Qed.

Lemma breakdown_fold_inv es' : forall breakdown es,
  keys breakdown = ConfidenceVisualizer.categories ->
  (forall c, obj_get Category_eqb c breakdown = Some (counted c es)) ->
  keys (fold_left breakdown_step es' breakdown) = ConfidenceVisualizer.categories /\
  (forall c, obj_get Category_eqb c (fold_left breakdown_step es' breakdown)
             = Some (counted c (es ++ es'))).
Proof.
  induction es' as [|e es' IH]; intros breakdown es Hk Hget; cbn [fold_left].
  - rewrite app_nil_r. auto.
  - destruct (@breakdown_step_inv breakdown es e Hk Hget) as [Hk' Hget'].
    destruct (IH _ _ Hk' Hget') as [Hk'' Hget''].
    split; [assumption|]. intros c. rewrite Hget'', <- app_assoc. reflexivity.
Qed.

Lemma breakdown_days_inv days : forall breakdown es,
  keys breakdown = ConfidenceVisualizer.categories ->
  (forall c, obj_get Category_eqb c breakdown = Some (counted c es)) ->
  let result :=
    fold_left (fun breakdown dayData =>
                 fold_left breakdown_step (entries dayData) breakdown)
      days breakdown in
  keys result = ConfidenceVisualizer.categories /\
  (forall c, obj_get Category_eqb c result
             = Some (counted c (es ++ flat_map entries days))).
Proof.
  induction days as [|day days IH]; intros breakdown es Hk Hget;
    cbn [fold_left flat_map]; cbv zeta.
  - rewrite app_nil_r. auto.
  - destruct (@breakdown_fold_inv (entries day) breakdown es Hk Hget) as [Hk' Hget'].
    destruct (IH _ _ Hk' Hget') as [Hk'' Hget'']. cbv zeta in *.
    split; [assumption|]. intros c. rewrite Hget'', <- app_assoc. reflexivity.
Qed.

Lemma average_step_get breakdown k c :
  obj_get Category_eqb c (average_step breakdown k)
  = if Category_eqb c k
    then option_map averaged (obj_get Category_eqb c breakdown)
    else obj_get Category_eqb c breakdown.
Proof.
  unfold average_step.
  destruct (Category_eqb c k) eqn:E.
  - apply Category_eqb_eq in E. subst k.
    destruct (obj_get Category_eqb c breakdown) as [b|] eqn:Hb; simpl.
    + unfold averaged. destruct (0 <? ConfidenceVisualizer.count b)%Z.
      * apply (obj_get_set_same Category_eqb Category_eqb_eq).
      * exact Hb.
    + exact Hb.
  - assert (Hne : c <> k).
    { intros ->. rewrite (proj2 (Category_eqb_eq _ _) eq_refl) in E. discriminate. }
    destruct (obj_get Category_eqb k breakdown) as [b|]; [|reflexivity].
    destruct (0 <? ConfidenceVisualizer.count b)%Z; [|reflexivity].
    now apply (obj_get_set_other Category_eqb Category_eqb_eq).
Qed.

Lemma average_step_keys breakdown k :
  keys (average_step breakdown k) = keys breakdown.
Proof.
  unfold average_step.
  destruct (obj_get Category_eqb k breakdown) as [b|] eqn:Hb; [|reflexivity].
  destruct (0 <? ConfidenceVisualizer.count b)%Z; [|reflexivity].
  apply (obj_set_keys_present Category_eqb Category_eqb_eq).
  apply (obj_get_In Category_eqb Category_eqb_eq) in Hb.
  apply (in_map fst) in Hb. exact Hb.
Qed.

Lemma average_fold ks : forall breakdown,
  NoDup ks ->
  keys (fold_left average_step ks breakdown) = keys breakdown /\
  forall c,
    obj_get Category_eqb c (fold_left average_step ks breakdown)
    = if existsb (Category_eqb c) ks
      then option_map averaged (obj_get Category_eqb c breakdown)
      else obj_get Category_eqb c breakdown.
Proof.
  induction ks as [|k ks IH]; intros breakdown Hnd; cbn [fold_left existsb].
  - auto.
  - inversion Hnd as [|? ? Hnotin Hnd']; subst.
    destruct (IH (average_step breakdown k) Hnd') as [Hk Hget].
    split; [now rewrite Hk, average_step_keys|].
    intros c. rewrite Hget, average_step_get.
    destruct (Category_eqb c k) eqn:E; cbn [orb]; [|reflexivity].
    apply Category_eqb_eq in E. subst k.
    replace (existsb (Category_eqb c) ks) with false; [reflexivity|].
    symmetry. apply not_true_is_false. intros H.
    apply existsb_exists in H. destruct H as (x & Hx & Hcx).
    apply Category_eqb_eq in Hcx. subst x. contradiction.
Qed.

(** X17.  [getCategoryBreakdown] always lists the eight categories, in the
    order of [this.categories]; for every category it holds the number and
    the sum of the power levels of the entries of that category in the
    unfiltered collection [this.data], whatever the filters are, and their
    mean, or 0 for a category without entry (never [NaN]). *)
Theorem getCategoryBreakdown_spec (this : ConfidenceVisualizer.t) :
  keys (ConfidenceVisualizer.getCategoryBreakdown this)
  = ConfidenceVisualizer.categories /\
  forall c,
    let es := entries_of_category c (all_entries (ConfidenceVisualizer.data this)) in
    obj_get Category_eqb c (ConfidenceVisualizer.getCategoryBreakdown this)
    = Some {| ConfidenceVisualizer.count := Z.of_nat (length es);
              ConfidenceVisualizer.totalPower := sum_Z (map power_level es);
              ConfidenceVisualizer.avgPower :=
                match es with
                | [] => of_Z 0
                | _ => mean_power_level es
                end |}.
Proof.
  unfold ConfidenceVisualizer.getCategoryBreakdown.
  set (b0 := fold_left _ ConfidenceVisualizer.categories []).
  assert (Hk0 : keys b0 = ConfidenceVisualizer.categories) by reflexivity.
  assert (Hget0 : forall c, obj_get Category_eqb c b0 = Some (counted c []))
    by (intros c; destruct c; reflexivity).
  cbv zeta.
  match goal with
  | |- context [fold_left ?g (values (ConfidenceVisualizer.data this)) b0] =>
      change g with (fun breakdown dayData =>
                       fold_left breakdown_step (entries dayData) breakdown)
  end.
  destruct (@breakdown_days_inv (values (ConfidenceVisualizer.data this)) b0 []
              Hk0 Hget0) as [Hk1 Hget1].
  cbv zeta in Hk1, Hget1.
  set (b1 := fold_left _ (values (ConfidenceVisualizer.data this)) b0) in *.
  match goal with
  | |- context [fold_left ?g (keys b1) b1] => change g with average_step
  end.
  assert (Hnd : NoDup (keys b1)) by (rewrite Hk1; apply categories_NoDup).
  destruct (average_fold b1 Hnd) as [Hk2 Hget2].
  split; [now rewrite Hk2|].
  intros c. rewrite Hget2, Hk1, Hget1.
  replace (existsb (Category_eqb c) ConfidenceVisualizer.categories) with true
    by (destruct c; reflexivity).
  cbn [option_map app]. fold (all_entries (ConfidenceVisualizer.data this)).
  unfold averaged, counted.
  cbn [ConfidenceVisualizer.count ConfidenceVisualizer.totalPower
       ConfidenceVisualizer.avgPower].
  destruct (entries_of_category c (all_entries (ConfidenceVisualizer.data this)))
    as [|e es]; [reflexivity|].
  replace (0 <? Z.of_nat (length (e :: es)))%Z with true
    by (symmetry; apply Z.ltb_lt; simpl; lia).
  reflexivity.
Qed.

(** ** The overview statistics of the plain dashboard *)

Lemma calculateStats_fold (days : ConfidenceData) : forall P T pd ps,
  fold_left
    (fun '(totalPower, totalEntries, peakDay, peakScore) '(date, dayData) =>
       let '(totalPower, totalEntries) :=
         fold_left
           (fun '(totalPower, totalEntries) entry =>
              ((totalPower + power_level entry)%Z, (totalEntries + 1)%Z))
           (entries dayData)
           (totalPower, totalEntries) in
       if ngt (daily_confidence_average dayData) peakScore
       then (totalPower, totalEntries, date, daily_confidence_average dayData)
       else (totalPower, totalEntries, peakDay, peakScore))
    days (P, T, pd, ps)
  = ((P + sum_Z (map power_level (all_entries days)))%Z,
     (T + Z.of_nat (length (all_entries days)))%Z,
     fst (peak days (pd, ps)),
     snd (peak days (pd, ps))).
Proof.
  unfold all_entries, peak.
  induction days as [|[date day] days IH]; intros P T pd ps.
  - cbn. repeat f_equal; unfold sum_Z; simpl; lia.
  - cbn [fold_left]. rewrite tally_fold.
    destruct (ngt (daily_confidence_average day) ps); rewrite IH;
      cbn [values map flat_map snd];
      rewrite map_app, sum_Z_app, length_app, Nat2Z.inj_add, !Z.add_assoc;
      reflexivity.
Qed.

Lemma calculateStats_value (this : ConfidenceVisualizer.t) :
  let all := all_entries (ConfidenceVisualizer.filteredData this) in
  ConfidenceVisualizer.calculateStats this
  = {| ConfidenceVisualizer.avgConfidence :=
         if (0 <? Z.of_nat (length all))%Z
         then ndiv (of_Z (sum_Z (map power_level all))) (of_Z (Z.of_nat (length all)))
         else of_Z 0;
       ConfidenceVisualizer.totalEntries := Z.of_nat (length all);
       ConfidenceVisualizer.peakDay :=
         fst (peak (ConfidenceVisualizer.filteredData this) (EmptyString, of_Z 0));
       ConfidenceVisualizer.peakScore :=
         snd (peak (ConfidenceVisualizer.filteredData this) (EmptyString, of_Z 0)) |}.
Proof.
  cbv zeta. unfold ConfidenceVisualizer.calculateStats.
  rewrite calculateStats_fold. rewrite !Z.add_0_l. reflexivity.
Qed.

Lemma ngt_trans_false (a p p' : number) :
  ngt a p = false -> ngt p' p = true -> ngt a p' = false.
Proof.
  destruct a as [x| | |], p as [y| | |], p' as [z| | |]; simpl; try congruence.
  rewrite !negb_false_iff, negb_true_iff, <- not_true_iff_false, !Qle_bool_iff.
  intros Hxy Hzy. apply Qnot_le_lt in Hzy.
  apply Qle_trans with (y := y); [assumption | now apply Qlt_le_weak].
Qed.

Lemma ngt_trans (a b c : number) :
  ngt a b = true -> ngt b c = true -> ngt a c = true.
Proof.
  destruct a as [x| | |], b as [y| | |], c as [z| | |]; simpl; try congruence.
  rewrite !negb_true_iff, <- !not_true_iff_false, !Qle_bool_iff.
  intros Hxy Hyz Hxz. apply Qnot_le_lt in Hxy, Hyz.
  apply (Qlt_irrefl x). apply Qle_lt_trans with (y := z); [assumption|].
  now apply Qlt_trans with (y := y).
Qed.

Lemma ngt_irrefl (a : number) : ngt a a = false.
Proof.
  destruct a as [x| | |]; simpl; try reflexivity.
  rewrite negb_false_iff, Qle_bool_iff. apply Qle_refl.
Qed.

Lemma peak_spec (days : ConfidenceData) : forall pd ps,
  let r := peak days (pd, ps) in
  (ngt ps (snd r) = false) /\
  (forall date d, In (date, d) days ->
     ngt (daily_confidence_average d) (snd r) = false) /\
  (r = (pd, ps) \/
   exists d, In (fst r, d) days /\ daily_confidence_average d = snd r /\
             ngt (snd r) ps = true).
Proof.
  unfold peak. induction days as [|[date day] days IH]; intros pd ps; cbn [fold_left].
  - cbv zeta. cbn [snd]. split; [apply ngt_irrefl|]. split; [contradiction | auto].
  - destruct (ngt (daily_confidence_average day) ps) eqn:E.
    + destruct (IH date (daily_confidence_average day)) as (H1 & H2 & H3).
      cbv zeta in *. split; [|split].
      * destruct H3 as [->|(d & _ & _ & Hgt)].
        -- cbn [snd]. now apply ngt_asym.
        -- eapply ngt_trans_false; [|exact Hgt].
           apply ngt_trans_false with (p := ps); [apply ngt_irrefl | exact E].
      * intros date' d' [Heq|Hin]; [|eauto].
        injection Heq as <- <-. exact H1.
      * right. destruct H3 as [->|(d & Hin & Havg & Hgt)].
        -- exists day. cbn [fst snd].
           split; [left; reflexivity|]. split; [reflexivity | exact E].
        -- exists d. split; [right; exact Hin|]. split; [exact Havg|].
           eapply ngt_trans; eauto.
    + destruct (IH pd ps) as (H1 & H2 & H3). cbv zeta in *.
      split; [assumption|]. split.
      * intros date' d' [Heq|Hin]; [|eauto].
        injection Heq as <- <-.
        destruct H3 as [->|(d & _ & _ & Hgt)]; [exact E|].
        eapply ngt_trans_false; eauto.
      * destruct H3 as [H3|(d & Hin & Havg & Hgt)]; [left; exact H3|].
        right. exists d. split; [right; exact Hin|]. split; assumption.
Qed.

(** X18.  [calculateStats] counts the entries of the filtered view and
    averages their power levels (0 for an empty view).  Its peak score is
    a stored daily average that no day of the view exceeds, and its peak
    day is a day that has it; when no day has a positive average, the peak
    score stays 0 and the peak day stays the empty string. *)
Theorem calculateStats_spec (this : ConfidenceVisualizer.t) :
  let all := all_entries (ConfidenceVisualizer.filteredData this) in
  let s := ConfidenceVisualizer.calculateStats this in
  ConfidenceVisualizer.totalEntries s = Z.of_nat (length all) /\
  ConfidenceVisualizer.avgConfidence s
  = match all with
    | [] => of_Z 0
    | _ => mean_power_level all
    end /\
  (forall date d,
     In (date, d) (ConfidenceVisualizer.filteredData this) ->
     ngt (daily_confidence_average d) (ConfidenceVisualizer.peakScore s) = false) /\
  ((ConfidenceVisualizer.peakDay s = EmptyString /\
    ConfidenceVisualizer.peakScore s = of_Z 0 /\
    forall date d,
      In (date, d) (ConfidenceVisualizer.filteredData this) ->
      ngt (daily_confidence_average d) (of_Z 0) = false) \/
   exists d,
     In (ConfidenceVisualizer.peakDay s, d) (ConfidenceVisualizer.filteredData this) /\
     daily_confidence_average d = ConfidenceVisualizer.peakScore s /\
     ngt (ConfidenceVisualizer.peakScore s) (of_Z 0) = true).
Proof.
  cbv zeta. rewrite calculateStats_value. cbv zeta.
  cbn [ConfidenceVisualizer.totalEntries ConfidenceVisualizer.avgConfidence
       ConfidenceVisualizer.peakDay ConfidenceVisualizer.peakScore].
  destruct (peak_spec (ConfidenceVisualizer.filteredData this) EmptyString (of_Z 0))
    as (H1 & H2 & H3). cbv zeta in *.
  split; [reflexivity|]. split; [|split].
  - destruct (all_entries (ConfidenceVisualizer.filteredData this)) as [|e es];
      [reflexivity|].
    replace (0 <? Z.of_nat (length (e :: es)))%Z with true
      by (symmetry; apply Z.ltb_lt; simpl; lia).
    reflexivity.
  - exact H2.
  - destruct H3 as [Heq|H3]; [left | right; exact H3].
    rewrite Heq in *. cbn [fst snd] in *. auto.
Qed.

(** X19.  On a view that holds an entry, the overview card of the plain
    dashboard and [getOverallStats] of the React dashboard report the same
    number of entries and the same average. *)
Theorem dashboards_agree_on_average (source view : ConfidenceData) :
  all_entries view <> [] ->
  let s := ConfidenceVisualizer.calculateStats
             {| ConfidenceVisualizer.data := source;
                ConfidenceVisualizer.filteredData := view |} in
  ConfidenceVisualizer.totalEntries s
  = Z.of_nat (DataProcessing.totalEntries (DataProcessing.getOverallStats view)) /\
  ConfidenceVisualizer.avgConfidence s
  = DataProcessing.avgConfidence (DataProcessing.getOverallStats view).
Proof.
  intros Hne. cbv zeta. rewrite calculateStats_value. cbv zeta.
  cbn [ConfidenceVisualizer.totalEntries ConfidenceVisualizer.avgConfidence
       ConfidenceVisualizer.filteredData].
  unfold DataProcessing.getOverallStats.
  cbn [DataProcessing.totalEntries DataProcessing.avgConfidence].
  fold (all_entries view). rewrite length_map. split; [reflexivity|].
  destruct (all_entries view) as [|e es]; [congruence|].
  replace (0 <? Z.of_nat (length (e :: es)))%Z with true
    by (symmetry; apply Z.ltb_lt; simpl; lia).
  reflexivity.
Qed.

Lemma dashboards_agree_on_average_witness :
  ConfidenceVisualizer.avgConfidence
    (ConfidenceVisualizer.calculateStats
       {| ConfidenceVisualizer.data := three_days;
          ConfidenceVisualizer.filteredData := scenario |})
  = DataProcessing.avgConfidence (DataProcessing.getOverallStats scenario).
Proof.
  apply (@dashboards_agree_on_average three_days scenario). simpl. discriminate.
Defined.

(** ** The counts of the doughnut and of the pie *)

Lemma or_zero_Some n : ConfidenceVisualizer.or_zero (Some n) = n.
Proof. simpl. destruct (Z.eqb_spec n 0); congruence. Qed.

Lemma merge_count_app o es1 es2 :
  merge_count (merge_count o es1) es2 = merge_count o (es1 ++ es2).
Proof.
  destruct es1 as [|e1 es1]; [reflexivity|].
  destruct es2 as [|e2 es2]; [now rewrite app_nil_r|].
  cbn [app merge_count]. rewrite or_zero_Some.
  change (e1 :: es1 ++ e2 :: es2) with ((e1 :: es1) ++ (e2 :: es2)).
  rewrite length_app, Nat2Z.inj_add. f_equal. lia.
Qed.

Lemma count_step_get c m e :
  obj_get Category_eqb c (count_step m e)
  = merge_count (obj_get Category_eqb c m) (entries_of_category c [e]).
Proof.
  unfold count_step. rewrite entries_of_category_single.
  destruct (Category_eqb (category e) c) eqn:E.
  - apply Category_eqb_eq in E. subst c.
    now rewrite (obj_get_set_same Category_eqb Category_eqb_eq).
  - rewrite (obj_get_set_other Category_eqb Category_eqb_eq); [reflexivity|].
    intros ->. rewrite (proj2 (Category_eqb_eq _ _) eq_refl) in E. discriminate.
Qed.

Lemma obj_set_sum (k : Category) (w : Z) (m : list (Category * Z)) :
  sum_Z (values (obj_set Category_eqb k w m))
  = (sum_Z (values m) - ConfidenceVisualizer.or_zero (obj_get Category_eqb k m) + w)%Z.
Proof.
  induction m as [|[k' v] m IH]; cbn [obj_get obj_set].
  - cbv [values map snd sum_Z fold_left ConfidenceVisualizer.or_zero]. lia.
  - destruct (Category_eqb k k'); unfold values in *; cbn [map snd].
    + rewrite !sum_Z_cons, or_zero_Some. lia.
    + rewrite !sum_Z_cons, IH. lia.
Qed.

Lemma count_step_sum m e :
  sum_Z (values (count_step m e)) = (sum_Z (values m) + 1)%Z.
Proof. unfold count_step. rewrite obj_set_sum. lia. Qed.

Lemma count_fold es : forall m,
  let r := fold_left count_step es m in
  NoDup (keys m) ->
  NoDup (keys r) /\
  sum_Z (values r) = (sum_Z (values m) + Z.of_nat (length es))%Z /\
  forall c, obj_get Category_eqb c r
            = merge_count (obj_get Category_eqb c m) (entries_of_category c es).
Proof.
  induction es as [|e es IH]; intros m; cbn [fold_left]; cbv zeta; intros Hnd.
  - split; [assumption|]. split; [simpl; lia | reflexivity].
  - destruct (IH (count_step m e)) as (H1 & H2 & H3).
    { now apply (obj_set_NoDup_gen Category_eqb Category_eqb_eq). }
    split; [assumption|]. split.
    + rewrite H2, count_step_sum. cbn [length]. lia.
    + intros c. rewrite H3, count_step_get, merge_count_app.
      now rewrite <- entries_of_category_app.
Qed.

Lemma count_days days : forall m,
  let r := fold_left (fun counts day => fold_left count_step (entries day) counts)
             days m in
  NoDup (keys m) ->
  NoDup (keys r) /\
  sum_Z (values r) = (sum_Z (values m) + Z.of_nat (length (flat_map entries days)))%Z /\
  forall c, obj_get Category_eqb c r
            = merge_count (obj_get Category_eqb c m)
                (entries_of_category c (flat_map entries days)).
Proof.
  induction days as [|day days IH]; intros m; cbn [fold_left flat_map]; cbv zeta;
    intros Hnd.
  - split; [assumption|]. split; [simpl; lia | reflexivity].
  - destruct (count_fold (entries day) m Hnd) as (H1 & H2 & H3).
    destruct (IH _ H1) as (H1' & H2' & H3').
    split; [assumption|]. split.
    + rewrite H2', H2, length_app. lia.
    + intros c. rewrite H3', H3, merge_count_app.
      now rewrite <- entries_of_category_app.
Qed.

Lemma categoryCounts_spec (this : ConfidenceVisualizer.t) :
  let all := all_entries (ConfidenceVisualizer.filteredData this) in
  NoDup (keys (ConfidenceVisualizer.categoryCounts this)) /\
  sum_Z (values (ConfidenceVisualizer.categoryCounts this)) = Z.of_nat (length all) /\
  forall c, obj_get Category_eqb c (ConfidenceVisualizer.categoryCounts this)
            = merge_count None (entries_of_category c all).
Proof.
  cbv zeta. unfold ConfidenceVisualizer.categoryCounts.
  match goal with
  | |- context [fold_left ?g (values (ConfidenceVisualizer.filteredData this)) []] =>
      change g with (fun counts day => fold_left count_step (entries day) counts)
  end.
  destruct (count_days (values (ConfidenceVisualizer.filteredData this)) []
              (NoDup_nil _)) as (H1 & H2 & H3).
  cbv zeta in *. split; [assumption|]. split; [|exact H3].
  rewrite H2. unfold all_entries. reflexivity.
Qed.

(** X20.  The doughnut of [createCategoryChart] has one slice for every
    category that has an entry in the filtered view and no other slice,
    every category once; the value of a slice is the number of entries of
    its category, its colour is the colour of the category in
    [categoryColors], or [#999] for a category that has none there, and the
    values add up to the number of entries of the view. *)
Theorem createCategoryChart_spec (this : ConfidenceVisualizer.t) :
  let all := all_entries (ConfidenceVisualizer.filteredData this) in
  let chart := ConfidenceVisualizer.createCategoryChart this in
  exists cats : list Category,
    NoDup cats /\
    (forall c, In c cats <-> entries_of_category c all <> []) /\
    ConfidenceVisualizer.labels chart
    = map (fun c => ConfidenceVisualizer.formatCategoryName (category_name c)) cats /\
    ConfidenceVisualizer.chart_data chart
    = map (fun c => Z.of_nat (length (entries_of_category c all))) cats /\
    ConfidenceVisualizer.colors chart
    = map (fun c =>
             match obj_get Category_eqb c ConfidenceVisualizer.categoryColors with
             | Some color => color
             | None => "#999"%string
             end)
        cats /\
    sum_Z (ConfidenceVisualizer.chart_data chart) = Z.of_nat (length all).
Proof.
  cbv zeta. destruct (categoryCounts_spec this) as (Hnd & Hsum & Hget).
  cbv zeta in Hget. unfold ConfidenceVisualizer.createCategoryChart.
  cbn [ConfidenceVisualizer.labels ConfidenceVisualizer.chart_data
       ConfidenceVisualizer.colors].
  exists (keys (ConfidenceVisualizer.categoryCounts this)).
  split; [exact Hnd|].
  split; [|split; [reflexivity|split; [|split; [reflexivity|]]]].
  - intros c. split.
    + intros Hin.
      destruct (obj_get Category_eqb c (ConfidenceVisualizer.categoryCounts this))
        as [n|] eqn:E.
      * rewrite Hget in E. intros Hnil. rewrite Hnil in E. discriminate.
      * apply (obj_get_None Category_eqb Category_eqb_eq) in E. contradiction.
    + intros Hne. specialize (Hget c).
      destruct (entries_of_category c _) as [|e es]; [congruence|].
      cbn [merge_count] in Hget.
      apply (obj_get_In Category_eqb Category_eqb_eq) in Hget.
      unfold keys. apply in_map_iff. eexists. split; [|exact Hget]. reflexivity.
  - unfold keys, values. rewrite map_map. apply map_ext_in.
    intros [c n] Hin. cbn [fst snd].
    apply (In_obj_get Category_eqb Category_eqb_eq) in Hin; [|exact Hnd].
    rewrite Hget in Hin.
    destruct (entries_of_category c _) as [|e es]; [discriminate|].
    cbn [merge_count] in Hin. injection Hin as <-. reflexivity.
  - exact Hsum.
Qed.

(** ** The pie of the two types *)

Lemma count_type_app t es1 es2 :
  count_type t (es1 ++ es2) = (count_type t es1 + count_type t es2)%nat.
Proof. unfold count_type. now rewrite filter_app, length_app. Qed.

Lemma type_counters_fold es : forall p q,
  fold_left
    (fun '(personalCount, professionalCount) entry =>
       if ConfidenceType_eqb (confidence_type entry) personal
       then ((personalCount + 1)%Z, professionalCount)
       else if ConfidenceType_eqb (confidence_type entry) professional
       then (personalCount, (professionalCount + 1)%Z)
       else (personalCount, professionalCount))
    es (p, q)
  = ((p + Z.of_nat (count_type personal es))%Z,
     (q + Z.of_nat (count_type professional es))%Z).
Proof.
  unfold count_type.
  induction es as [|e es IH]; intros p q; cbn [fold_left filter].
  - cbn [length]. f_equal; lia.
  - destruct (confidence_type e); cbn [ConfidenceType_eqb]; rewrite IH;
      cbn [length]; f_equal; lia.
Qed.

Lemma type_counters_days days : forall p q,
  fold_left
    (fun counters dayData =>
       fold_left
         (fun '(personalCount, professionalCount) entry =>
            if ConfidenceType_eqb (confidence_type entry) personal
            then ((personalCount + 1)%Z, professionalCount)
            else if ConfidenceType_eqb (confidence_type entry) professional
            then (personalCount, (professionalCount + 1)%Z)
            else (personalCount, professionalCount))
         (entries dayData)
         counters)
    days (p, q)
  = ((p + Z.of_nat (count_type personal (flat_map entries days)))%Z,
     (q + Z.of_nat (count_type professional (flat_map entries days)))%Z).
Proof.
  induction days as [|day days IH]; intros p q; cbn [fold_left flat_map].
  - unfold count_type. cbn [filter length]. f_equal; lia.
  - rewrite type_counters_fold, IH, !count_type_app. f_equal; lia.
Qed.

Lemma applyFilters_type_entries dom (source : ConfidenceData) t :
  ConfidenceVisualizer.typeFilter dom = Some t ->
  Forall (fun e => ConfidenceType_eqb (confidence_type e) t = true)
    (all_entries (ConfidenceVisualizer.applyFilters_filteredData dom source)).
Proof.
  intros Ht. apply Forall_forall. intros e He.
  unfold all_entries, values in He. apply in_flat_map in He.
  destruct He as (day & Hday & He). apply in_map_iff in Hday.
  destruct Hday as ([date day'] & Hsnd & Hin). cbn [snd] in Hsnd. subst day'.
  rewrite CV_filteredData_collect in Hin. apply collect_In in Hin.
  destruct Hin as (d0 & _ & Hd). apply CV_day_Some in Hd.
  destruct Hd as (Hes & _). rewrite Hes in He. apply filter_In in He.
  destruct He as [_ Hm]. unfold CV_matches in Hm. rewrite Ht in Hm.
  apply andb_true_iff in Hm. destruct Hm as [Hm _].
  apply andb_true_iff in Hm. tauto.
Qed.

Lemma count_type_all t es :
  Forall (fun e => ConfidenceType_eqb (confidence_type e) t = true) es ->
  count_type t es = length es /\ count_type (other_type t) es = 0%nat.
Proof.
  intros Hall. unfold count_type. split.
  - now rewrite filter_all_true.
  - rewrite filter_all_false; [reflexivity|].
    eapply Forall_impl; [|exact Hall]. intros e He.
    apply ConfidenceType_eqb_eq in He. rewrite He. destruct t; reflexivity.
Qed.

(** X21.  The two counters of [createTypeChart] are the numbers of
    personal and of professional entries of the filtered view.  Once
    [applyFilters] has run with one type chosen, the counter of this type
    is the total of entries that [calculateStats] shows and the other
    counter is 0. *)
Theorem createTypeChart_spec (this : ConfidenceVisualizer.t) :
  let all := all_entries (ConfidenceVisualizer.filteredData this) in
  let counters := ConfidenceVisualizer.createTypeChart this in
  fst counters = Z.of_nat (count_type personal all) /\
  snd counters = Z.of_nat (count_type professional all) /\
  forall dom t,
    ConfidenceVisualizer.typeFilter dom = Some t ->
    let view := fst (ConfidenceVisualizer.applyFilters dom this) in
    let total :=
      ConfidenceVisualizer.totalEntries (ConfidenceVisualizer.calculateStats view) in
    ConfidenceVisualizer.createTypeChart view
    = match t with
      | personal => (total, 0%Z)
      | professional => (0%Z, total)
      end.
Proof.
  cbv zeta.
  assert (Hcount : forall view,
             ConfidenceVisualizer.createTypeChart view
             = (Z.of_nat (count_type personal
                            (all_entries (ConfidenceVisualizer.filteredData view))),
                Z.of_nat (count_type professional
                            (all_entries (ConfidenceVisualizer.filteredData view))))).
  { intros view. unfold ConfidenceVisualizer.createTypeChart.
    rewrite type_counters_days.
    fold (all_entries (ConfidenceVisualizer.filteredData view)).
    now rewrite !Z.add_0_l. }
  rewrite Hcount. cbn [fst snd]. split; [reflexivity|]. split; [reflexivity|].
  intros dom t Ht. rewrite Hcount, calculateStats_value. cbv zeta.
  cbn [ConfidenceVisualizer.totalEntries ConfidenceVisualizer.applyFilters fst
       ConfidenceVisualizer.filteredData].
  pose proof (@applyFilters_type_entries dom (ConfidenceVisualizer.data this) t Ht)
    as Hty.
  apply count_type_all in Hty. destruct Hty as [Hall Hnone].
  destruct t; cbn [other_type] in Hnone; now rewrite Hall, Hnone.
Qed.

Lemma createTypeChart_spec_witness :
  ConfidenceVisualizer.createTypeChart
    (fst (ConfidenceVisualizer.applyFilters only_personal
            {| ConfidenceVisualizer.data := three_days;
               ConfidenceVisualizer.filteredData := three_days |}))
  = (2%Z, 0%Z).
Proof.
  rewrite (proj2 (proj2 (createTypeChart_spec
                           {| ConfidenceVisualizer.data := three_days;
                              ConfidenceVisualizer.filteredData := three_days |}))
             only_personal personal eq_refl).
  reflexivity.
Defined.

(** ** The time line of the plain dashboard *)

Lemma type_average_spec t es :
  match ConfidenceVisualizer.type_average t es with
  | None => count_type t es = 0%nat
  | Some v =>
      (0 < count_type t es)%nat /\
      v = mean_power_level (filter (fun e => ConfidenceType_eqb (confidence_type e) t) es)
  end.
Proof.
  unfold ConfidenceVisualizer.type_average, count_type. cbv zeta.
  destruct (0 <? length (filter _ es))%nat eqn:E.
  - apply Nat.ltb_lt in E. split; [exact E | reflexivity].
  - apply Nat.ltb_ge in E. lia.
Qed.

Lemma series_spec (view : ConfidenceData) (yf : DailyData -> option number) :
  exists points,
    traverse
      (fun date =>
         match obj_get String.eqb date view with
         | Some day => Some {| ConfidenceVisualizer.x := date;
                               ConfidenceVisualizer.y := yf day |}
         | None => None
         end)
      (sort_strings (keys view))
    = Some points /\
    map ConfidenceVisualizer.x points = sort_strings (keys view) /\
    Forall (fun p => exists day,
                obj_get String.eqb (ConfidenceVisualizer.x p) view = Some day /\
                ConfidenceVisualizer.y p = yf day)
      points.
Proof.
  set (g := fun date =>
              {| ConfidenceVisualizer.x := date;
                 ConfidenceVisualizer.y :=
                   match obj_get String.eqb date view with
                   | Some day => yf day
                   | None => None
                   end |}).
  exists (map g (sort_strings (keys view))). split; [|split].
  - apply traverse_Some_map. intros date Hin.
    apply (proj1 (in_sort_strings _ _)) in Hin.
    destruct (key_lookup view date Hin) as (d & Hd).
    unfold g. now rewrite Hd.
  - rewrite map_map. unfold g. cbn [ConfidenceVisualizer.x]. apply map_id.
  - apply Forall_forall. intros p Hp. apply in_map_iff in Hp.
    destruct Hp as (date & <- & Hin).
    apply (proj1 (in_sort_strings _ _)) in Hin.
    destruct (key_lookup view date Hin) as (d & Hd).
    exists d. unfold g. cbn [ConfidenceVisualizer.x ConfidenceVisualizer.y].
    now rewrite Hd.
Qed.

(** X22.  [createTimelineChart] never fails on a missing day: it always
    builds its three series, each with one point for every date of the
    filtered view, in increasing order of the dates.  The point of a date
    in the series of a type is [null] exactly when the day has no entry of
    this type, and the mean of the power levels of these entries
    otherwise. *)
Theorem createTimelineChart_spec (this : ConfidenceVisualizer.t) :
  let view := ConfidenceVisualizer.filteredData this in
  let of_type t day :=
    filter (fun e => ConfidenceType_eqb (confidence_type e) t) (entries day) in
  let series t points :=
    map ConfidenceVisualizer.x points = sort_strings (keys view) /\
    Forall (fun p => exists day,
                obj_get String.eqb (ConfidenceVisualizer.x p) view = Some day /\
                ConfidenceVisualizer.y p
                = match of_type t day with
                  | [] => None
                  | es => Some (mean_power_level es)
                  end)
      points in
  exists timeline,
    ConfidenceVisualizer.createTimelineChart this = Some timeline /\
    map ConfidenceVisualizer.x (ConfidenceVisualizer.dailyAverages timeline)
    = sort_strings (keys view) /\
    Forall (fun p => exists day,
                obj_get String.eqb (ConfidenceVisualizer.x p) view = Some day /\
                ConfidenceVisualizer.y p = Some (daily_confidence_average day))
      (ConfidenceVisualizer.dailyAverages timeline) /\
    series personal (ConfidenceVisualizer.personalData timeline) /\
    series professional (ConfidenceVisualizer.professionalData timeline).
Proof.
  cbv zeta.
  assert (Hty : forall t es,
             ConfidenceVisualizer.type_average t es
             = match filter (fun e => ConfidenceType_eqb (confidence_type e) t) es with
               | [] => None
               | l => Some (mean_power_level l)
               end).
  { intros t es. pose proof (type_average_spec t es) as H.
    unfold count_type in H.
    destruct (ConfidenceVisualizer.type_average t es) as [v|].
    - destruct H as [Hpos ->].
      destruct (filter _ es); [simpl in Hpos; lia | reflexivity].
    - destruct (filter _ es); [reflexivity | discriminate]. }
  destruct (series_spec (ConfidenceVisualizer.filteredData this)
              (fun day => Some (daily_confidence_average day)))
    as (avg & Ha & Hax & Hay).
  destruct (series_spec (ConfidenceVisualizer.filteredData this)
              (fun day => ConfidenceVisualizer.type_average personal (entries day)))
    as (per & Hp & Hpx & Hpy).
  destruct (series_spec (ConfidenceVisualizer.filteredData this)
              (fun day => ConfidenceVisualizer.type_average professional (entries day)))
    as (pro & Hq & Hqx & Hqy).
  cbv beta in *.
  exists {| ConfidenceVisualizer.dailyAverages := avg;
            ConfidenceVisualizer.personalData := per;
            ConfidenceVisualizer.professionalData := pro |}.
  cbn [ConfidenceVisualizer.dailyAverages ConfidenceVisualizer.personalData
       ConfidenceVisualizer.professionalData].
  split.
  { unfold ConfidenceVisualizer.createTimelineChart. cbv zeta.
    rewrite Ha, Hp, Hq. reflexivity. }
  split; [exact Hax|]. split; [exact Hay|].
  split; (split; [assumption|]).
  - eapply Forall_impl; [|exact Hpy]. intros p (day & Hd & Hy).
    exists day. split; [exact Hd|]. now rewrite Hy, Hty.
  - eapply Forall_impl; [|exact Hqy]. intros p (day & Hd & Hy).
    exists day. split; [exact Hd|]. now rewrite Hy, Hty.
Qed.

(** ** The growth trend on short histories *)

(** X23.  With fewer than three dates [calculateGrowthTrend] returns 0: a
    third of the dates is then no date at all, the early average is 0 and
    the guard against the division by zero answers. *)
Theorem calculateGrowthTrend_few_dates (this : ConfidenceVisualizer.t) :
  (length (ConfidenceVisualizer.data this) < 3)%nat ->
  ConfidenceVisualizer.calculateGrowthTrend this = of_Z 0.
Proof.
  intros Hlen. unfold ConfidenceVisualizer.calculateGrowthTrend. cbv zeta.
  assert (Hn : length (sort_strings (keys (ConfidenceVisualizer.data this)))
               = length (ConfidenceVisualizer.data this)).
  { unfold sort_strings, keys. now rewrite sort_length, length_map. }
  rewrite Hn.
  destruct (length (ConfidenceVisualizer.data this) <? 2)%nat; [reflexivity|].
  rewrite Z.div_small by lia.
  assert (Hs : forall l : list string, slice 0 (Some 0%Z) l = [])
    by (intros l; apply (@slice_prefix string l 0%nat); simpl; lia).
  rewrite Hs.
  rewrite !getAverageForDates_spec. cbn [entries_of_dates flat_map mean_or_zero].
  rewrite strict_eq_zero.
  destruct (Qc_eq_dec 0%Qc 0%Qc) as [_|Hne]; [reflexivity | congruence].
Qed.

Lemma calculateGrowthTrend_few_dates_witness :
  ConfidenceVisualizer.calculateGrowthTrend
    {| ConfidenceVisualizer.data := scenario;
       ConfidenceVisualizer.filteredData := scenario |}
  = of_Z 0.
Proof.
  apply (@calculateGrowthTrend_few_dates
           {| ConfidenceVisualizer.data := scenario;
              ConfidenceVisualizer.filteredData := scenario |}).
  simpl. lia.
Defined.

(** ** The months of the calendar *)

Lemma months_unfold format data :
  CalendarHeatmap.months format data
  = fold_left (month_step format) (sort_strings (keys data)) (Some []).
Proof. reflexivity. Qed.

Lemma month_bucket_snoc_same format month seen date :
  format date = Some month ->
  month_bucket format month (seen ++ [date])
  = Some (match month_bucket format month seen with
          | Some ds => ds
          | None => []
          end ++ [date]).
Proof.
  intros Hfmt. unfold month_bucket. rewrite filter_app. cbn [filter].
  unfold in_month at 2. rewrite Hfmt, String.eqb_refl.
  destruct (filter (in_month format month) seen); reflexivity.
Qed.

Lemma month_bucket_snoc_other format month m seen date :
  format date = Some month -> m <> month ->
  month_bucket format m (seen ++ [date]) = month_bucket format m seen.
Proof.
  intros Hfmt Hne. unfold month_bucket. rewrite filter_app. cbn [filter].
  unfold in_month at 2. rewrite Hfmt.
  replace (String.eqb month m) with false
    by (symmetry; apply String.eqb_neq; congruence).
  now rewrite app_nil_r.
Qed.

Lemma month_step_Some format ms seen date month :
  format date = Some month ->
  NoDup (keys ms) ->
  (forall m, obj_get String.eqb m ms = month_bucket format m seen) ->
  exists ms',
    month_step format (Some ms) date = Some ms' /\
    NoDup (keys ms') /\
    forall m, obj_get String.eqb m ms' = month_bucket format m (seen ++ [date]).
Proof.
  intros Hfmt Hnd Hinv. unfold month_step. rewrite Hfmt. cbv zeta.
  pose proof (Hinv month) as Hm.
  destruct (obj_get String.eqb month ms) as [ds|] eqn:E.
  - rewrite E. eexists. split; [reflexivity|]. split.
    + now apply (obj_set_NoDup_gen String.eqb String.eqb_eq).
    + intros m. destruct (String.eqb_spec m month) as [->|Hne].
      * rewrite (obj_get_set_same String.eqb String.eqb_eq).
        rewrite (@month_bucket_snoc_same format month seen date Hfmt), <- Hm. reflexivity.
      * rewrite (obj_get_set_other String.eqb String.eqb_eq) by assumption.
        rewrite (@month_bucket_snoc_other format month m seen date Hfmt Hne). apply Hinv.
  - rewrite (obj_get_set_same String.eqb String.eqb_eq).
    eexists. split; [reflexivity|]. split.
    + now do 2 apply (obj_set_NoDup_gen String.eqb String.eqb_eq).
    + intros m. destruct (String.eqb_spec m month) as [->|Hne].
      * rewrite (obj_get_set_same String.eqb String.eqb_eq).
        rewrite (@month_bucket_snoc_same format month seen date Hfmt), <- Hm. reflexivity.
      * rewrite !(obj_get_set_other String.eqb String.eqb_eq) by assumption.
        rewrite (@month_bucket_snoc_other format month m seen date Hfmt Hne). apply Hinv.
Qed.

Lemma months_fold_Some format dates : forall ms seen,
  Forall (fun date => format date <> None) dates ->
  NoDup (keys ms) ->
  (forall m, obj_get String.eqb m ms = month_bucket format m seen) ->
  exists ms',
    fold_left (month_step format) dates (Some ms) = Some ms' /\
    NoDup (keys ms') /\
    forall m, obj_get String.eqb m ms' = month_bucket format m (seen ++ dates).
Proof.
  induction dates as [|date dates IH]; intros ms seen Hfmt Hnd Hinv.
  - exists ms. rewrite app_nil_r. auto.
  - inversion Hfmt as [|? ? Hd Hrest]; subst.
    destruct (format date) as [month|] eqn:E; [|congruence].
    destruct (@month_step_Some format ms seen date month E Hnd Hinv) as (ms1 & Hstep & Hnd1 & Hinv1).
    destruct (IH ms1 (seen ++ [date]) Hrest Hnd1 Hinv1) as (ms' & Hfold & Hnd' & Hinv').
    exists ms'. cbn [fold_left]. rewrite Hstep.
    rewrite <- app_assoc in Hinv'. auto.
Qed.

Lemma months_fold_None format dates :
  fold_left (month_step format) dates None = None.
Proof. induction dates as [|date dates IH]; [reflexivity | exact IH]. Qed.

Lemma months_fold_throw format dates : forall acc,
  Exists (fun date => format date = None) dates ->
  fold_left (month_step format) dates acc = None.
Proof.
  induction dates as [|date dates IH]; intros acc Hex;
    inversion Hex as [? ? Hd|? ? Hrest]; subst; cbn [fold_left].
  - destruct acc as [ms|]; cbn [month_step]; [rewrite Hd|]; apply months_fold_None.
  - now apply IH.
Qed.

(** X24.  When date-fns formats every date key, the map [months] of the
    calendar has one bucket for every month that has a date and no other
    bucket; the bucket of a month holds exactly the dates of this month, in
    increasing order.  One date key that cannot be formatted makes the
    component throw. *)
Theorem months_spec (format : string -> option string) (data : ConfidenceData) :
  ((forall date, In date (keys data) -> format date <> None) ->
   exists months,
     CalendarHeatmap.months format data = Some months /\
     NoDup (keys months) /\
     forall month,
       obj_get String.eqb month months
       = month_bucket format month (sort_strings (keys data))) /\
  ((exists date, In date (keys data) /\ format date = None) ->
   CalendarHeatmap.months format data = None).
Proof.
  rewrite months_unfold. split.
  - intros Hfmt.
    apply (@months_fold_Some format (sort_strings (keys data)) [] []).
    + apply Forall_forall. intros date Hin. apply Hfmt.
      now apply (proj1 (in_sort_strings _ _)).
    + constructor.
    + reflexivity.
  - intros (date & Hin & Hd). apply months_fold_throw.
    apply Exists_exists. exists date. split; [|exact Hd].
    now apply (proj2 (in_sort_strings _ _)).
Qed.

Lemma months_spec_witness :
  CalendarHeatmap.months (fun date => Some (substring 0 7 date)) three_days <> None /\
  CalendarHeatmap.months (fun _ => None) three_days = None.
Proof.
  pose proof (@months_spec (fun date => Some (substring 0 7 date)) three_days) as H1.
  pose proof (@months_spec (fun _ => None) three_days) as H2.
  split.
  - destruct (proj1 H1) as (ms & -> & _); [|discriminate].
    intros date _. discriminate.
  - apply (proj2 H2). exists "2025-01-01"%string.
    split; [vm_compute; auto | reflexivity].
Defined.

(** ** The colours of the bars of the categories *)

Lemma COLORS_NoDup : NoDup CategoryBreakdown.COLORS.
Proof.
  unfold CategoryBreakdown.COLORS.
  repeat (constructor;
          [cbn [In]; intros H;
           repeat (destruct H as [H|H]; [discriminate H|]); exact H|]).
  constructor.
Qed.

Lemma COLORS_not_selected i :
  nth i CategoryBreakdown.COLORS EmptyString <> "#ff6b6b"%string.
Proof.
  do 9 (destruct i as [|i]; [discriminate|]). destruct i; discriminate.
Qed.

Lemma skipn_nth {A : Type} (d : A) l : forall s,
  (s < length l)%nat -> skipn s l = nth s l d :: skipn (S s) l.
Proof.
  induction l as [|a l IH]; intros s Hs; [simpl in Hs; lia|].
  destruct s as [|s]; [reflexivity|].
  cbn [skipn nth length] in *. rewrite IH by lia. reflexivity.
Qed.

Lemma calculateCategoryStats_NoDup (data : ConfidenceData) :
  NoDup (map DataProcessing.cs_category (DataProcessing.calculateCategoryStats data)).
Proof.
  destruct (calculateCategoryStats_rows data) as (m & Hnd & _ & ->).
  eapply Permutation_NoDup.
  - apply Permutation_sym, Permutation_map, sort_perm.
  - rewrite map_map. cbn [DataProcessing.cs_category]. exact Hnd.
Qed.

Lemma chartData_categories (data : ConfidenceData) :
  map CategoryBreakdown.bar_category (CategoryBreakdown.chartData data)
  = map DataProcessing.cs_category (DataProcessing.calculateCategoryStats data).
Proof. unfold CategoryBreakdown.chartData. now rewrite map_map. Qed.

Lemma NoDup_categories_length (l : list Category) :
  NoDup l -> (length l <= 8)%nat.
Proof.
  intros Hnd.
  change 8%nat with (length ConfidenceVisualizer.categories).
  apply NoDup_incl_length; [assumption|].
  intros c _. apply all_categories.
Qed.

Lemma fills_from (selectedCategory : option Category)
    (bars : list CategoryBreakdown.Bar) : forall s,
  NoDup (map CategoryBreakdown.bar_category bars) ->
  (s + length bars <= 9)%nat ->
  let out :=
    map
      (fun '(index, entry) =>
         if match selectedCategory with
            | Some c => Category_eqb (CategoryBreakdown.bar_category entry) c
            | None => false
            end
         then "#ff6b6b"%string
         else nth (index mod length CategoryBreakdown.COLORS)
                CategoryBreakdown.COLORS EmptyString)
      (combine (seq s (length bars)) bars) in
  NoDup out /\
  Forall2 (fun bar fill =>
             fill = "#ff6b6b"%string
             <-> selectedCategory = Some (CategoryBreakdown.bar_category bar))
    bars out /\
  (selectedCategory = None ->
   out = firstn (length bars) (skipn s CategoryBreakdown.COLORS)) /\
  forall col, In col out ->
    (col = "#ff6b6b"%string /\
     exists e, In e bars /\
               selectedCategory = Some (CategoryBreakdown.bar_category e)) \/
    exists i, (s < S i)%nat /\ (i < 9)%nat /\
              col = nth i CategoryBreakdown.COLORS EmptyString.
Proof.
  induction bars as [|a bars IH]; intros s Hnd Hlen; cbv zeta.
  - cbn [length seq combine map firstn].
    split; [constructor|]. split; [constructor|]. split; [reflexivity|].
    intros col [].
  - cbn [length seq combine map] in *.
    inversion Hnd as [|? ? Hnotin Hnd']; subst.
    destruct (IH (S s) Hnd' ltac:(lia)) as (IH1 & IH2 & IH3 & IH4).
    cbv zeta in IH1, IH2, IH3, IH4.
    set (out := map _ (combine (seq (S s) (length bars)) bars)) in *.
    change (length CategoryBreakdown.COLORS) with 9%nat.
    rewrite (Nat.mod_small s 9) by lia.
    assert (Hcase :
              (exists c, selectedCategory = Some c /\
                         CategoryBreakdown.bar_category a = c /\
                         Category_eqb (CategoryBreakdown.bar_category a) c = true) \/
              (selectedCategory <> Some (CategoryBreakdown.bar_category a) /\
               match selectedCategory with
               | Some c => Category_eqb (CategoryBreakdown.bar_category a) c
               | None => false
               end = false)).
    { destruct selectedCategory as [c|]; [|right; split; [discriminate|reflexivity]].
      destruct (Category_eqb (CategoryBreakdown.bar_category a) c) eqn:E.
      - left. exists c. pose proof (proj1 (Category_eqb_eq _ _) E) as E'. auto.
      - right. split; [|reflexivity]. intros H. injection H as ->.
        rewrite (proj2 (Category_eqb_eq _ _) eq_refl) in E. discriminate. }
    destruct Hcase as [(c & Hsel & Hc & Hb) | (Hsel & Hb)].
    + rewrite Hsel in *. rewrite Hb. split; [|split; [|split]].
      * constructor; [|exact IH1]. intros Hin. apply IH4 in Hin.
        destruct Hin as [(_ & e & He & Hcat) | (i & _ & _ & Hcol)].
        -- apply Hnotin. injection Hcat as Hcat. rewrite Hc, Hcat.
           now apply in_map.
        -- symmetry in Hcol. now apply COLORS_not_selected in Hcol.
      * constructor; [|exact IH2]. rewrite Hc. tauto.
      * discriminate.
      * intros col [<-|Hin].
        -- left. split; [reflexivity|]. exists a. rewrite Hc. simpl. auto.
        -- apply IH4 in Hin.
           destruct Hin as [(Hred & e & He & Hcat) | (i & Hi & Hi9 & Hcol)].
           ++ left. split; [exact Hred|]. exists e. simpl. auto.
           ++ right. exists i. repeat split; [lia | exact Hi9 | exact Hcol].
    + rewrite Hb. split; [|split; [|split]].
      * constructor; [|exact IH1]. intros Hin. apply IH4 in Hin.
        destruct Hin as [(Hred & _) | (i & Hi & Hi9 & Hcol)].
        -- now apply COLORS_not_selected in Hred.
        -- apply (proj1 (NoDup_nth CategoryBreakdown.COLORS EmptyString)
                    COLORS_NoDup) in Hcol;
             [lia | simpl; lia | simpl; lia].
      * constructor; [|exact IH2]. split; [|intros H; contradiction].
        intros Hred. now apply COLORS_not_selected in Hred.
      * intros Hnone. rewrite (skipn_nth EmptyString) by (simpl; lia).
        cbn [firstn]. now rewrite IH3.
      * intros col [<-|Hin].
        -- right. exists s. repeat split; lia.
        -- apply IH4 in Hin.
           destruct Hin as [(Hred & e & He & Hcat) | (i & Hi & Hi9 & Hcol)].
           ++ left. split; [exact Hred|]. exists e. simpl. auto.
           ++ right. exists i. repeat split; [lia | exact Hi9 | exact Hcol].
Qed.

(** X25.  The bars of [CategoryBreakdown] never share a fill colour: the
    bar of the selected category, and no other bar, is filled with
    [#ff6b6b], and the rows are too few for the palette [COLORS] of the
    other bars to wrap around.  With no category selected the fills are
    the first colours of the palette, in its order. *)
Theorem fills_spec (selectedCategory : option Category) (data : ConfidenceData) :
  let bars := CategoryBreakdown.chartData data in
  let fills := CategoryBreakdown.fills selectedCategory data in
  NoDup fills /\
  Forall2 (fun bar fill =>
             fill = "#ff6b6b"%string
             <-> selectedCategory = Some (CategoryBreakdown.bar_category bar))
    bars fills /\
  CategoryBreakdown.fills None data
  = firstn (length bars) CategoryBreakdown.COLORS.
Proof.
  cbv zeta.
  assert (Hnd : NoDup (map CategoryBreakdown.bar_category
                         (CategoryBreakdown.chartData data)))
    by (rewrite chartData_categories; apply calculateCategoryStats_NoDup).
  assert (Hlen : (0 + length (CategoryBreakdown.chartData data) <= 9)%nat).
  { pose proof (NoDup_categories_length Hnd) as H.
    rewrite length_map in H. lia. }
  destruct (@fills_from selectedCategory (CategoryBreakdown.chartData data) 0%nat Hnd Hlen) as (H1 & H2 & _ & _).
  destruct (@fills_from None (CategoryBreakdown.chartData data) 0%nat Hnd Hlen) as (_ & _ & H3 & _).
  cbv zeta in H1, H2, H3.
  split; [exact H1|]. split; [exact H2|]. exact (H3 eq_refl).
Qed.

(** ** The colour scales of the calendar and of the day details *)

Lemma legend_value :
  CalendarHeatmap.legend
  = ["#ef4444"; "#fb923c"; "#facc15"; "#84cc16"; "#22c55e"]%string.
Proof. vm_compute. reflexivity. Qed.

Lemma nge_mono v a b :
  (b <= a)%Z -> nge v (of_Z a) = true -> nge v (of_Z b) = true.
Proof.
  intros Hba. rewrite !of_Z_zq.
  destruct v as [q| | |]; cbn [nge]; try congruence.
  rewrite !Qle_bool_iff, !zq_Q. intros H.
  eapply Qle_trans; [|exact H]. rewrite <- Zle_Qle. exact Hba.
Qed.

Lemma nge_mono_false v a b :
  (b <= a)%Z -> nge v (of_Z b) = false -> nge v (of_Z a) = false.
Proof.
  intros Hba Hb. destruct (nge v (of_Z a)) eqn:E; [|reflexivity].
  apply (nge_mono _ Hba) in E. congruence.
Qed.

(** X26.  Every value, [NaN] included, gets one of the five colours that
    the legend of the calendar shows, and the legend shows each of them
    once.  Its first colour is the one of every value that is not at least
    5, its last colour the one of every value that is at least 8. *)
Theorem getHeatmapColor_in_legend (value : number) :
  In (CalendarHeatmap.getHeatmapColor value) CalendarHeatmap.legend /\
  NoDup CalendarHeatmap.legend /\
  (nge value (of_Z 5) = false <->
   CalendarHeatmap.getHeatmapColor value = hd EmptyString CalendarHeatmap.legend) /\
  (nge value (of_Z 8) = true <->
   CalendarHeatmap.getHeatmapColor value = last CalendarHeatmap.legend EmptyString).
Proof.
  rewrite legend_value. cbn [hd last].
  unfold CalendarHeatmap.getHeatmapColor.
  split; [|split; [|split]].
  - destruct (nge value (of_Z 8)); [simpl; tauto|].
    destruct (nge value (of_Z 7)); [simpl; tauto|].
    destruct (nge value (of_Z 6)); [simpl; tauto|].
    destruct (nge value (of_Z 5)); simpl; tauto.
  - repeat (constructor;
            [cbn [In]; intros H;
             repeat (destruct H as [H|H]; [discriminate H|]); exact H|]).
    constructor.
  - destruct (nge value (of_Z 5)) eqn:H5.
    + split; [discriminate|].
      destruct (nge value (of_Z 8)); [discriminate|].
      destruct (nge value (of_Z 7)); [discriminate|].
      destruct (nge value (of_Z 6)); discriminate.
    + rewrite (@nge_mono_false value 8 5 ltac:(lia) H5).
      rewrite (@nge_mono_false value 7 5 ltac:(lia) H5).
      rewrite (@nge_mono_false value 6 5 ltac:(lia) H5).
      split; reflexivity.
  - destruct (nge value (of_Z 8)); [split; reflexivity|].
    split; [discriminate|].
    destruct (nge value (of_Z 7)); [discriminate|].
    destruct (nge value (of_Z 6)); [discriminate|].
    destruct (nge value (of_Z 5)); discriminate.
Qed.

(** X27.  The three classes of [DailyDetails] coarsen the scale of the
    calendar: a level is [high], with the green rising icon, exactly when
    the calendar paints it green; a [medium] level is painted lime or
    yellow and a [low] level orange or red. *)
Theorem details_coarsen_heatmap (level : number) :
  let class := DailyDetails.getPowerLevelClass level in
  let icon := DailyDetails.getPowerLevelIcon level in
  let colour := CalendarHeatmap.getHeatmapColor level in
  (class = "high"%string /\ icon = ("TrendingUp", "#22c55e")%string /\
   colour = "#22c55e"%string) \/
  (class = "medium"%string /\ icon = ("Activity", "#facc15")%string /\
   (colour = "#84cc16"%string \/ colour = "#facc15"%string)) \/
  (class = "low"%string /\ icon = ("TrendingDown", "#ef4444")%string /\
   (colour = "#fb923c"%string \/ colour = "#ef4444"%string)).
Proof.
  cbv zeta.
  unfold DailyDetails.getPowerLevelClass, DailyDetails.getPowerLevelIcon,
    CalendarHeatmap.getHeatmapColor.
  destruct (nge level (of_Z 8)) eqn:H8; [left; auto|].
  destruct (nge level (of_Z 6)) eqn:H6.
  - right; left. destruct (nge level (of_Z 7)); auto.
  - right; right.
    rewrite (@nge_mono_false level 7 6 ltac:(lia) H6).
    destruct (nge level (of_Z 5)); auto.
Qed.

(** ** The labels of the categories *)

Lemma split_cons sep s : exists w ws, split sep s = w :: ws.
Proof.
  induction s as [|c r (w & ws & IH)]; cbn [split]; [eauto|].
  destruct (Ascii.eqb c sep); [eauto|]. rewrite IH. eauto.
Qed.

Lemma join_cons_cons sep (c : ascii) w ws :
  join sep (String c w :: ws) = String c (join sep (w :: ws)).
Proof. unfold join. destruct ws as [|w' ws]; reflexivity. Qed.

Lemma join_empty_cons sep w ws :
  join sep (EmptyString :: w :: ws) = (sep ++ join sep (w :: ws))%string.
Proof. reflexivity. Qed.

Lemma toUpperCase_idem c : toUpperCase (toUpperCase c) = toUpperCase c.
Proof. destruct c as [[] [] [] [] [] [] [] []]; vm_compute; reflexivity. Qed.

Lemma toUpperCase_underscore c :
  Ascii.eqb c "_" = false -> Ascii.eqb (toUpperCase c) "_" = false.
Proof. destruct c as [[] [] [] [] [] [] [] []]; vm_compute; congruence. Qed.

Lemma capitalize_idem s : capitalize (capitalize s) = capitalize s.
Proof. destruct s as [|c r]; [reflexivity|]. cbn [capitalize]. now rewrite toUpperCase_idem. Qed.

Lemma capitalize_length s : String.length (capitalize s) = String.length s.
Proof. destruct s; reflexivity. Qed.

Lemma capitalize_has_underscore s :
  has_char "_" s = false -> has_char "_" (capitalize s) = false.
Proof.
  destruct s as [|c r]; [reflexivity|]. cbn [capitalize has_char].
  intros H. apply orb_false_iff in H. destruct H as [Hc Hr].
  now rewrite (toUpperCase_underscore _ Hc), Hr.
Qed.

(** The label is the spaced string with its first character in upper
    case. *)
Lemma formatCategoryName_spaced s :
  ConfidenceVisualizer.formatCategoryName s = capitalize (spaced s).
Proof.
  unfold ConfidenceVisualizer.formatCategoryName, spaced.
  destruct (split_cons "_" s) as (w & ws & ->). cbn [map].
  destruct w as [|c w].
  - destruct ws as [|w' ws]; reflexivity.
  - cbn [capitalize]. now rewrite !join_cons_cons.
Qed.

Lemma spaced_cons c r :
  spaced (String c r)
  = if Ascii.eqb c "_"
    then String " " (ConfidenceVisualizer.formatCategoryName r)
    else String c (spaced r).
Proof.
  unfold spaced, ConfidenceVisualizer.formatCategoryName. cbn [split].
  destruct (split_cons "_" r) as (w & ws & ->).
  destruct (Ascii.eqb c "_"); cbn [map].
  - rewrite join_empty_cons. reflexivity.
  - now rewrite join_cons_cons.
Qed.

Lemma spaced_length s : String.length (spaced s) = String.length s.
Proof.
  induction s as [|c r IH]; [reflexivity|]. rewrite spaced_cons.
  destruct (Ascii.eqb c "_"); cbn [String.length]; f_equal; [|exact IH].
  now rewrite formatCategoryName_spaced, capitalize_length.
Qed.

Lemma spaced_has_underscore s : has_char "_" (spaced s) = false.
Proof.
  induction s as [|c r IH]; [reflexivity|]. rewrite spaced_cons.
  destruct (Ascii.eqb c "_") eqn:E; cbn [has_char].
  - rewrite formatCategoryName_spaced. now apply capitalize_has_underscore.
  - now rewrite E, IH.
Qed.

Lemma split_without sep s : has_char sep s = false -> split sep s = [s].
Proof.
  induction s as [|c r IH]; [reflexivity|]. cbn [has_char split].
  intros H. apply orb_false_iff in H. destruct H as [Hc Hr].
  now rewrite Hc, (IH Hr).
Qed.

(** X28.  [formatCategoryName] keeps the length of the name, leaves no
    underscore in it, and formatting a label again changes nothing; the
    labels of the eight categories are pairwise distinct. *)
Theorem formatCategoryName_spec (name : string) :
  let label := ConfidenceVisualizer.formatCategoryName name in
  String.length label = String.length name /\
  has_char "_" label = false /\
  ConfidenceVisualizer.formatCategoryName label = label /\
  forall c1 c2 : Category,
    DataProcessing.formatCategoryName c1 = DataProcessing.formatCategoryName c2 ->
    c1 = c2.
Proof.
  cbv zeta.
  assert (Hno : has_char "_" (ConfidenceVisualizer.formatCategoryName name) = false)
    by (rewrite formatCategoryName_spaced;
        apply capitalize_has_underscore, spaced_has_underscore).
  split; [|split; [exact Hno|split]].
  - now rewrite formatCategoryName_spaced, capitalize_length, spaced_length.
  - unfold ConfidenceVisualizer.formatCategoryName at 1.
    rewrite (split_without _ _ Hno). cbn [map join String.concat].
    rewrite formatCategoryName_spaced. apply capitalize_idem.
  - intros c1 c2. destruct c1, c2; vm_compute; intros H;
      first [reflexivity | discriminate H].
Qed.

(** * Sums of percentages in double precision *)

(** ** Rounding to the nearest double *)

Lemma nearest_even_spec n d :
  (0 < d)%Z ->
  (2 * Z.abs (Binary64.nearest_even n d * d - n) <= d)%Z.
Proof.
  intros Hd. unfold Binary64.nearest_even. cbv zeta.
  pose proof (Z.div_mod n d ltac:(lia)) as Hdm.
  pose proof (Z.mod_pos_bound n d Hd) as Hm.
  destruct (Z.compare_spec (2 * (n mod d)) d) as [H|H|H];
    [destruct (Z.even (n / d))| |]; nia.
Qed.

Lemma scaled_den n d e :
  (0 < d)%Z -> (0 < snd (Binary64.scaled n d e))%Z.
Proof.
  intros Hd. unfold Binary64.scaled.
  destruct (0 <=? e)%Z eqn:E; cbn [snd]; [|assumption].
  apply Z.leb_le in E. pose proof (Z.pow_pos_nonneg 2 e ltac:(lia) E). nia.
Qed.

(** The significand has 53 bits. *)
Lemma exponent_spec n d :
  (0 < n)%Z -> (0 < d)%Z ->
  let num := fst (Binary64.scaled n d (Binary64.exponent n d)) in
  let den := snd (Binary64.scaled n d (Binary64.exponent n d)) in
  (2 ^ 52 * den <= num)%Z /\ (num < 2 ^ 53 * den)%Z.
Proof.
  intros Hn Hd. cbv zeta. unfold Binary64.exponent. cbv zeta.
  pose proof (Z.log2_spec n Hn) as [Hn1 Hn2].
  pose proof (Z.log2_spec d Hd) as [Hd1 Hd2].
  pose proof (Z.log2_nonneg n) as Ha. pose proof (Z.log2_nonneg d) as Hb.
  set (a := Z.log2 n) in *. set (b := Z.log2 d) in *.
  set (e := (a - b - 52)%Z).
  destruct (Binary64.scaled n d e) as [num den] eqn:Es.
  destruct (2 ^ 52 * den <=? num)%Z eqn:Et.
  - rewrite Es. cbn [fst snd]. split; [now apply Z.leb_le|].
    unfold Binary64.scaled in Es.
    destruct (0 <=? e)%Z eqn:E; injection Es as <- <-.
    + apply Z.leb_le in E.
      assert (Hp : (2 ^ 53 * (2 ^ b * 2 ^ e) = 2 ^ Z.succ a)%Z).
      { rewrite <- !Z.pow_add_r by lia. f_equal. lia. }
      pose proof (Z.pow_pos_nonneg 2 e ltac:(lia) ltac:(lia)). nia.
    + apply Z.leb_gt in E.
      assert (Hp : (2 ^ Z.succ a * 2 ^ (- e) = 2 ^ 53 * 2 ^ b)%Z).
      { rewrite <- !Z.pow_add_r by lia. f_equal. lia. }
      pose proof (Z.pow_pos_nonneg 2 (- e) ltac:(lia) ltac:(lia)). nia.
  - apply Z.leb_gt in Et. split.
    + clear Es Et num den. unfold Binary64.scaled.
      destruct (0 <=? e - 1)%Z eqn:E; cbn [fst snd].
      * apply Z.leb_le in E.
        assert (Hp : (2 ^ 52 * (2 ^ Z.succ b * 2 ^ (e - 1)) = 2 ^ a)%Z).
        { rewrite <- !Z.pow_add_r by lia. f_equal. lia. }
        pose proof (Z.pow_pos_nonneg 2 (e - 1) ltac:(lia) ltac:(lia)). nia.
      * apply Z.leb_gt in E.
        assert (Hp : (2 ^ a * 2 ^ (- (e - 1)) = 2 ^ 52 * 2 ^ Z.succ b)%Z).
        { rewrite <- !Z.pow_add_r by lia. f_equal. lia. }
        pose proof (Z.pow_pos_nonneg 2 (- (e - 1)) ltac:(lia) ltac:(lia)). nia.
    + unfold Binary64.scaled in Es |- *.
      destruct (0 <=? e)%Z eqn:E; injection Es as <- <-.
      * apply Z.leb_le in E. destruct (0 <=? e - 1)%Z eqn:E1; cbn [fst snd].
        -- apply Z.leb_le in E1.
           replace e with (1 + (e - 1))%Z in Et by lia.
           rewrite Z.pow_add_r in Et by lia. change (2 ^ 1)%Z with 2%Z in Et. lia.
        -- apply Z.leb_gt in E1. assert (e = 0%Z) as -> by lia.
           change (- (0 - 1))%Z with 1%Z. change (2 ^ 1)%Z with 2%Z.
           change (2 ^ 0)%Z with 1%Z in Et. lia.
      * apply Z.leb_gt in E.
        replace (0 <=? e - 1)%Z with false by (symmetry; apply Z.leb_gt; lia).
        cbn [fst snd].
        replace (- (e - 1))%Z with (1 + - e)%Z by lia.
        rewrite Z.pow_add_r by lia. change (2 ^ 1)%Z with 2%Z. lia.
Qed.

Lemma zq_mul a b : zq (a * b) = (zq a * zq b)%Qc.
Proof.
  apply Qc_is_canon. rewrite zq_Q.
  change (this (zq a * zq b)%Qc) with (Qred (zq a * zq b)).
  rewrite Qred_correct, !zq_Q, inject_Z_mult. reflexivity.
Qed.

Lemma zq_le a b : (a <= b)%Z -> (zq a <= zq b)%Qc.
Proof.
  intros H. unfold Qcle. rewrite !zq_Q. now rewrite <- Zle_Qle.
Qed.

Lemma zq_lt a b : (a < b)%Z -> (zq a < zq b)%Qc.
Proof.
  intros H. unfold Qclt. rewrite !zq_Q. now rewrite <- Zlt_Qlt.
Qed.

Lemma Qc_num_den (x : Qc) : x = (zq (Qnum x) / zq (Zpos (Qden x)))%Qc.
Proof.
  apply Qc_is_canon.
  change (this (zq (Qnum x) / zq (Zpos (Qden x)))%Qc)
    with (Qred (zq (Qnum x) * Qred (/ zq (Zpos (Qden x))))).
  rewrite !Qred_correct, !zq_Q.
  destruct x as [[n d] Hx]. cbn [this Qnum Qden].
  unfold Qeq, Qmult, Qinv, inject_Z. cbn. lia.
Qed.

Lemma Qcle_0_num (x : Qc) : (0 <= x)%Qc -> (0 <= Qnum x)%Z.
Proof. unfold Qcle, Qle. cbn. lia. Qed.

Lemma Qcmult_nonneg (a b : Qc) : (0 <= a)%Qc -> (0 <= b)%Qc -> (0 <= a * b)%Qc.
Proof.
  intros Ha Hb. replace 0%Qc with (0 * b)%Qc by ring.
  now apply Qcmult_le_compat_r.
Qed.

Lemma Qcmult_le_compat_l (a b c : Qc) :
  (a <= b)%Qc -> (0 <= c)%Qc -> (c * a <= c * b)%Qc.
Proof.
  intros Hab Hc. rewrite !(Qcmult_comm c). now apply Qcmult_le_compat_r.
Qed.

Lemma Qcplus_nonneg (a b : Qc) : (0 <= a)%Qc -> (0 <= b)%Qc -> (0 <= a + b)%Qc.
Proof.
  intros Ha Hb. replace 0%Qc with (0 + 0)%Qc by ring.
  now apply Qcplus_le_compat.
Qed.

Lemma zq_div_nonneg n d : (0 <= n)%Z -> (0 < d)%Z -> (0 <= zq n / zq d)%Qc.
Proof.
  intros Hn Hd.
  assert (Hd0 : zq d <> 0%Qc) by (apply zq_neq_0; lia).
  assert (Hpos : (0 < zq d)%Qc) by (change 0%Qc with (zq 0); apply zq_lt; lia).
  apply (Qcmult_lt_0_le_reg_r _ _ _ Hpos).
  replace (0 * zq d)%Qc with (zq 0) by (change (zq 0) with 0%Qc; ring).
  replace (zq n / zq d * zq d)%Qc with (zq n) by (field; exact Hd0).
  now apply zq_le.
Qed.

(** A quotient of integers that is within [2 ^ -53] of 1. *)
Lemma ratio_bounds (P num : Z) :
  (0 < num)%Z ->
  ((2 ^ 53 - 1) * num <= 2 ^ 53 * P)%Z ->
  (2 ^ 53 * P <= (2 ^ 53 + 1) * num)%Z ->
  (1 - Binary64.unit_roundoff <= zq P / zq num)%Qc /\
  (zq P / zq num <= 1 + Binary64.unit_roundoff)%Qc.
Proof.
  intros Hnum Hlo Hhi.
  assert (Hn0 : zq num <> 0%Qc) by (apply zq_neq_0; lia).
  assert (H53 : zq (2 ^ 53) <> 0%Qc) by (apply zq_neq_0; lia).
  assert (Hpos : (0 < zq num * zq (2 ^ 53))%Qc).
  { rewrite <- zq_mul. change 0%Qc with (zq 0). apply zq_lt. lia. }
  split.
  - apply (Qcmult_lt_0_le_reg_r _ _ _ Hpos).
    replace ((1 - Binary64.unit_roundoff) * (zq num * zq (2 ^ 53)))%Qc
      with (zq ((2 ^ 53 - 1) * num))
      by (unfold Binary64.unit_roundoff;
          rewrite zq_mul; change (2 ^ 53 - 1)%Z with (2 ^ 53 + - (1))%Z;
          rewrite (zq_add (2 ^ 53) (- (1)));
          change (zq (- (1))) with (- (1))%Qc; field; exact H53).
    replace (zq P / zq num * (zq num * zq (2 ^ 53)))%Qc
      with (zq (2 ^ 53 * P))
      by (rewrite zq_mul; field; exact Hn0).
    now apply zq_le.
  - apply (Qcmult_lt_0_le_reg_r _ _ _ Hpos).
    replace ((1 + Binary64.unit_roundoff) * (zq num * zq (2 ^ 53)))%Qc
      with (zq ((2 ^ 53 + 1) * num))
      by (unfold Binary64.unit_roundoff;
          rewrite zq_mul, (zq_add (2 ^ 53) 1);
          change (zq 1) with 1%Qc; field; exact H53).
    replace (zq P / zq num * (zq num * zq (2 ^ 53)))%Qc
      with (zq (2 ^ 53 * P))
      by (rewrite zq_mul; field; exact Hn0).
    now apply zq_le.
Qed.

(** The rounded value is the exact one times the ratio of the rounded
    significand to the exact one. *)
Lemma round_pos_value n d :
  (0 < n)%Z -> (0 < d)%Z ->
  let e := Binary64.exponent n d in
  let num := fst (Binary64.scaled n d e) in
  let den := snd (Binary64.scaled n d e) in
  Binary64.round_pos n d
  = (zq n / zq d * (zq (Binary64.nearest_even num den * den) / zq num))%Qc.
Proof.
  intros Hn Hd. cbv zeta. unfold Binary64.round_pos. cbv zeta.
  set (e := Binary64.exponent n d).
  assert (Hn0 : zq n <> 0%Qc) by (apply zq_neq_0; lia).
  assert (Hd0 : zq d <> 0%Qc) by (apply zq_neq_0; lia).
  unfold Binary64.scaled. destruct (0 <=? e)%Z eqn:E; cbn [fst snd].
  - apply Z.leb_le in E.
    rewrite !zq_mul. field. auto.
  - apply Z.leb_gt in E.
    assert (Hp : zq (2 ^ (- e)) <> 0%Qc).
    { apply zq_neq_0.
      pose proof (Z.pow_pos_nonneg 2 (- e) ltac:(lia) ltac:(lia)). lia. }
    rewrite !zq_mul. field. auto.
Qed.

Lemma round_pos_error n d :
  (0 < n)%Z -> (0 < d)%Z ->
  ((1 - Binary64.unit_roundoff) * (zq n / zq d) <= Binary64.round_pos n d)%Qc /\
  (Binary64.round_pos n d <= (1 + Binary64.unit_roundoff) * (zq n / zq d))%Qc.
Proof.
  intros Hn Hd. rewrite (round_pos_value Hn Hd). cbv zeta.
  destruct (exponent_spec Hn Hd) as [Hlow _]. cbv zeta in Hlow.
  pose proof (scaled_den n (Binary64.exponent n d) Hd) as Hden.
  set (num := fst (Binary64.scaled n d (Binary64.exponent n d))) in *.
  set (den := snd (Binary64.scaled n d (Binary64.exponent n d))) in *.
  pose proof (nearest_even_spec num Hden) as Hm.
  set (P := (Binary64.nearest_even num den * den)%Z) in *.
  assert (Hx : (0 <= zq n / zq d)%Qc) by (apply zq_div_nonneg; lia).
  destruct (@ratio_bounds P num ltac:(lia) ltac:(lia) ltac:(lia)) as [H1 H2].
  split.
  - rewrite (Qcmult_comm (zq n / zq d)). now apply Qcmult_le_compat_r.
  - rewrite (Qcmult_comm (zq n / zq d)). now apply Qcmult_le_compat_r.
Qed.

(** The relative error of one rounding is at most [2 ^ -53]. *)
Lemma round_error (x : Qc) :
  (0 <= x)%Qc ->
  ((1 - Binary64.unit_roundoff) * x <= Binary64.round x)%Qc /\
  (Binary64.round x <= (1 + Binary64.unit_roundoff) * x)%Qc.
Proof.
  intros Hx. pose proof (Qcle_0_num Hx) as Hnum.
  unfold Binary64.round.
  destruct (Qnum x) as [|n|n] eqn:En; [| |lia].
  - split.
    + rewrite <- (Qcmult_1_l x) at 2. apply Qcmult_le_compat_r; [|exact Hx].
      vm_compute. discriminate.
    + rewrite <- (Qcmult_1_l x) at 1. apply Qcmult_le_compat_r; [|exact Hx].
      vm_compute. discriminate.
  - assert (Hxe : x = (zq (Zpos n) / zq (Zpos (Qden x)))%Qc)
      by (rewrite <- En; apply Qc_num_den).
    pose proof (@round_pos_error (Zpos n) (Zpos (Qden x)) ltac:(lia) ltac:(lia)) as H.
    rewrite <- Hxe in H. exact H.
Qed.

(** A third in percent is the double 33.33333333333333, and three of them
    add up, in double precision, to 99.99999999999999, which is
    [100 - 2 ^ -46]. *)
Example thirds_in_percent :
  percent64 1 3 = (zq 2345624805922133 / zq (2 ^ 46))%Qc /\
  Binary64.sum (map Num [percent64 1 3; percent64 1 3; percent64 1 3])
  = Num (zq 100 - zq 1 / zq (2 ^ 46))%Qc.
Proof.
  split; [apply Qc_is_canon; vm_compute; reflexivity|].
  vm_compute. first [reflexivity | f_equal; apply Qc_is_canon; reflexivity].
Qed.

(** One personal entry of three: the two percentages of [getOverallStats]
    are the doubles 33.33333333333333 and 66.66666666666666 and add up to
    99.99999999999999. *)
Example thirds_overall :
  let stats := Binary64.getOverallStats thirds in
  DataProcessing.personalPercentage stats
  = Num (zq 2345624805922133 / zq (2 ^ 46))%Qc /\
  DataProcessing.professionalPercentage stats
  = Num (zq 2345624805922133 / zq (2 ^ 45))%Qc /\
  Binary64.nadd (DataProcessing.personalPercentage stats)
                (DataProcessing.professionalPercentage stats)
  = Num (zq 100 - zq 1 / zq (2 ^ 46))%Qc.
Proof.
  cbv zeta. repeat split; vm_compute;
    first [reflexivity | f_equal; apply Qc_is_canon; reflexivity].
Qed.

(** Three categories with one entry each: every percentage of
    [calculateCategoryStats] is the double 33.33333333333333, and their
    sum in double precision is 99.99999999999999. *)
Example thirds_by_category :
  map DataProcessing.percentage (Binary64.calculateCategoryStats thirds)
  = repeat (Num (percent64 1 3)) 3 /\
  Binary64.sum
    (map DataProcessing.percentage (Binary64.calculateCategoryStats thirds))
  = Num (zq 100 - zq 1 / zq (2 ^ 46))%Qc.
Proof.
  split; vm_compute;
    first [reflexivity | f_equal; apply Qc_is_canon; reflexivity].
Qed.

(** ** The error of a sum of percentages *)

Lemma lower_range :
  (0 <= 1 - Binary64.unit_roundoff)%Qc /\ (1 - Binary64.unit_roundoff <= 1)%Qc.
Proof. split; vm_compute; discriminate. Qed.

Lemma upper_range :
  (0 <= 1 + Binary64.unit_roundoff)%Qc /\ (1 <= 1 + Binary64.unit_roundoff)%Qc.
Proof. split; vm_compute; discriminate. Qed.

Lemma Qcpower_le_1 (a : Qc) (k : nat) :
  (0 <= a)%Qc -> (a <= 1)%Qc -> (a ^ k <= 1)%Qc.
Proof.
  intros H0 H1. induction k as [|k IH]; cbn [Qcpower]; [apply Qcle_refl|].
  apply (Qcle_trans _ (1 * a ^ k)%Qc).
  - apply Qcmult_le_compat_r; [assumption | now apply Qcpower_pos].
  - now rewrite Qcmult_1_l.
Qed.

Lemma Qcpower_ge_1 (b : Qc) (k : nat) : (1 <= b)%Qc -> (1 <= b ^ k)%Qc.
Proof.
  intros H1. induction k as [|k IH]; cbn [Qcpower]; [apply Qcle_refl|].
  apply (Qcle_trans _ (1 * b ^ k)%Qc).
  - now rewrite Qcmult_1_l.
  - apply Qcmult_le_compat_r; [assumption|].
    apply (Qcle_trans _ 1%Qc); [vm_compute; discriminate | assumption].
Qed.

Lemma Qcpower_add (a : Qc) (j k : nat) : (a ^ (j + k) = a ^ j * a ^ k)%Qc.
Proof.
  induction j as [|j IH]; cbn [Nat.add Qcpower]; [ring|]. rewrite IH. ring.
Qed.

Lemma Qcpower_antitone (a : Qc) (j k : nat) :
  (0 <= a)%Qc -> (a <= 1)%Qc -> (j <= k)%nat -> (a ^ k <= a ^ j)%Qc.
Proof.
  intros H0 H1 Hjk. replace k with ((k - j) + j)%nat by lia.
  rewrite Qcpower_add. rewrite <- (Qcmult_1_l (a ^ j)) at 2.
  apply Qcmult_le_compat_r; [now apply Qcpower_le_1 | now apply Qcpower_pos].
Qed.

Lemma Qcpower_monotone (b : Qc) (j k : nat) :
  (1 <= b)%Qc -> (j <= k)%nat -> (b ^ j <= b ^ k)%Qc.
Proof.
  intros H1 Hjk. replace k with ((k - j) + j)%nat by lia.
  rewrite Qcpower_add. rewrite <- (Qcmult_1_l (b ^ j)) at 1.
  apply Qcmult_le_compat_r; [now apply Qcpower_ge_1|].
  apply Qcpower_pos. apply (Qcle_trans _ 1%Qc); [vm_compute; discriminate | assumption].
Qed.

Lemma percent64_value (c T : Z) :
  T <> 0%Z ->
  Binary64.nmul (Binary64.ndiv (of_Z c) (of_Z T)) (of_Z 100) = Num (percent64 c T).
Proof.
  intros HT. unfold Binary64.nmul, Binary64.ndiv.
  rewrite ndiv_zq by assumption. reflexivity.
Qed.

(** Two roundings: the percentage is within [(1 - u) ^ 2] and
    [(1 + u) ^ 2] of the exact share. *)
Lemma percent64_bounds (c T : Z) :
  (0 <= c)%Z -> (0 < T)%Z ->
  let share := (zq c / zq T * zq 100)%Qc in
  (0 <= share)%Qc /\
  ((1 - Binary64.unit_roundoff) ^ 2 * share <= percent64 c T)%Qc /\
  (percent64 c T <= (1 + Binary64.unit_roundoff) ^ 2 * share)%Qc.
Proof.
  intros Hc HT. cbv zeta. unfold percent64.
  destruct lower_range as [Ha0 Ha1]. destruct upper_range as [Hb0 Hb1].
  set (a := (1 - Binary64.unit_roundoff)%Qc) in *.
  set (b := (1 + Binary64.unit_roundoff)%Qc) in *.
  assert (H100 : (0 <= zq 100)%Qc) by (vm_compute; discriminate).
  assert (Hr : (0 <= zq c / zq T)%Qc) by (apply zq_div_nonneg; lia).
  destruct (round_error Hr) as [Hq1 Hq2]. fold a b in Hq1, Hq2.
  set (r := (zq c / zq T)%Qc) in *.
  set (q := Binary64.round r) in *.
  assert (Hq : (0 <= q)%Qc)
    by (apply (Qcle_trans _ (a * r)%Qc); [now apply Qcmult_nonneg | assumption]).
  assert (Hq100 : (0 <= q * zq 100)%Qc) by now apply Qcmult_nonneg.
  destruct (round_error Hq100) as [Hp1 Hp2]. fold a b in Hp1, Hp2.
  split; [now apply Qcmult_nonneg|]. split.
  - apply (Qcle_trans _ (a * (q * zq 100))%Qc); [|assumption].
    replace (a ^ 2 * (r * zq 100))%Qc with (a * (a * r * zq 100))%Qc
      by (cbn [Qcpower]; ring).
    apply Qcmult_le_compat_l; [|assumption].
    now apply Qcmult_le_compat_r.
  - apply (Qcle_trans _ (b * (q * zq 100))%Qc); [assumption|].
    replace (b ^ 2 * (r * zq 100))%Qc with (b * (b * r * zq 100))%Qc
      by (cbn [Qcpower]; ring).
    apply Qcmult_le_compat_l; [|assumption].
    now apply Qcmult_le_compat_r.
Qed.

(** The exact sum of the percentages of the counters [cs]. *)
Lemma percent64_sum_exact (T : Z) (cs : list Z) :
  (0 < T)%Z -> Forall (fun c => (0 <= c)%Z) cs ->
  let share := (zq (sum_Z cs) / zq T * zq 100)%Qc in
  ((1 - Binary64.unit_roundoff) ^ 2 * share
   <= sum_Qc (map (fun c => percent64 c T) cs))%Qc /\
  (sum_Qc (map (fun c => percent64 c T) cs)
   <= (1 + Binary64.unit_roundoff) ^ 2 * share)%Qc.
Proof.
  intros HT Hcs. cbv zeta. induction Hcs as [|c cs Hc Hcs IH].
  - cbn [map sum_Qc fold_right]. change (sum_Z []) with 0%Z. rewrite zq_0.
    unfold Qcdiv. split.
    + replace ((1 - Binary64.unit_roundoff) ^ 2 * (0 * / zq T * zq 100))%Qc
        with 0%Qc by ring. apply Qcle_refl.
    + replace ((1 + Binary64.unit_roundoff) ^ 2 * (0 * / zq T * zq 100))%Qc
        with 0%Qc by ring. apply Qcle_refl.
  - cbn [map sum_Qc fold_right]. fold (sum_Qc (map (fun c => percent64 c T) cs)).
    rewrite sum_Z_cons, zq_add.
    destruct (percent64_bounds Hc HT) as (_ & H1 & H2). destruct IH as [IH1 IH2].
    split.
    + replace ((1 - Binary64.unit_roundoff) ^ 2
               * ((zq c + zq (sum_Z cs)) / zq T * zq 100))%Qc
        with ((1 - Binary64.unit_roundoff) ^ 2 * (zq c / zq T * zq 100)
              + (1 - Binary64.unit_roundoff) ^ 2 * (zq (sum_Z cs) / zq T * zq 100))%Qc
        by (unfold Qcdiv; ring).
      now apply Qcplus_le_compat.
    + replace ((1 + Binary64.unit_roundoff) ^ 2
               * ((zq c + zq (sum_Z cs)) / zq T * zq 100))%Qc
        with ((1 + Binary64.unit_roundoff) ^ 2 * (zq c / zq T * zq 100)
              + (1 + Binary64.unit_roundoff) ^ 2 * (zq (sum_Z cs) / zq T * zq 100))%Qc
        by (unfold Qcdiv; ring).
      now apply Qcplus_le_compat.
Qed.

(** The sum accumulated in double precision, from the left: one more
    rounding for every term. *)
Lemma percent64_sum_rounded (T : Z) (cs : list Z) : forall (k : nat) (s : Qc) (S : Z),
  (0 < T)%Z -> Forall (fun c => (0 <= c)%Z) cs -> (0 <= S)%Z ->
  ((1 - Binary64.unit_roundoff) ^ (k + 2) * (zq S / zq T * zq 100) <= s)%Qc ->
  (s <= (1 + Binary64.unit_roundoff) ^ (k + 2) * (zq S / zq T * zq 100))%Qc ->
  let r := fold_left (fun s p => Binary64.round (s + p))
             (map (fun c => percent64 c T) cs) s in
  let share := (zq (S + sum_Z cs) / zq T * zq 100)%Qc in
  ((1 - Binary64.unit_roundoff) ^ (k + length cs + 2) * share <= r)%Qc /\
  (r <= (1 + Binary64.unit_roundoff) ^ (k + length cs + 2) * share)%Qc.
Proof.
  destruct lower_range as [Ha0 Ha1]. destruct upper_range as [Hb0 Hb1].
  set (a := (1 - Binary64.unit_roundoff)%Qc) in *.
  set (b := (1 + Binary64.unit_roundoff)%Qc) in *.
  induction cs as [|c cs IH]; intros k s S HT Hcs HS Hlo Hhi; cbv zeta.
  - cbn [map fold_left length]. change (sum_Z []) with 0%Z.
    rewrite Z.add_0_r, Nat.add_0_r. auto.
  - inversion Hcs as [|? ? Hc Hcs']; subst.
    cbn [map fold_left length]. rewrite sum_Z_cons.
    replace (k + Datatypes.S (length cs) + 2)%nat with (Datatypes.S k + length cs + 2)%nat by lia.
    replace (S + (c + sum_Z cs))%Z with ((S + c) + sum_Z cs)%Z by lia.
    apply IH; [assumption | assumption | lia | |].
    + destruct (percent64_bounds Hc HT) as (Hsh & Hp1 & _).
      assert (HS' : (0 <= zq S / zq T * zq 100)%Qc).
      { apply Qcmult_nonneg; [apply zq_div_nonneg; lia | vm_compute; discriminate]. }
      assert (Hs0 : (0 <= s)%Qc).
      { eapply Qcle_trans; [|exact Hlo].
        apply Qcmult_nonneg; [now apply Qcpower_pos | assumption]. }
      assert (Hp0 : (0 <= percent64 c T)%Qc).
      { eapply Qcle_trans; [|exact Hp1].
        apply Qcmult_nonneg; [now apply Qcpower_pos | assumption]. }
      destruct (round_error (Qcplus_nonneg Hs0 Hp0)) as [Hr _]. fold a in Hr.
      eapply Qcle_trans; [|exact Hr].
      replace (a ^ (Datatypes.S k + 2) * (zq (S + c) / zq T * zq 100))%Qc
        with (a * (a ^ (k + 2) * (zq S / zq T * zq 100)
                   + a ^ k * (a ^ 2 * (zq c / zq T * zq 100))))%Qc
        by (rewrite zq_add, !Qcpower_add; cbn [Qcpower]; unfold Qcdiv; ring).
      apply Qcmult_le_compat_l; [|assumption].
      apply Qcplus_le_compat; [assumption|].
      apply (Qcle_trans _ (1 * (a ^ 2 * (zq c / zq T * zq 100)))%Qc).
      * apply Qcmult_le_compat_r; [now apply Qcpower_le_1|].
        apply Qcmult_nonneg; [now apply Qcpower_pos | assumption].
      * now rewrite Qcmult_1_l.
    + destruct (percent64_bounds Hc HT) as (Hsh & Hp1 & Hp2).
      assert (HS' : (0 <= zq S / zq T * zq 100)%Qc).
      { apply Qcmult_nonneg; [apply zq_div_nonneg; lia | vm_compute; discriminate]. }
      assert (Hs0 : (0 <= s)%Qc).
      { eapply Qcle_trans; [|exact Hlo].
        apply Qcmult_nonneg; [now apply Qcpower_pos | assumption]. }
      assert (Hp0 : (0 <= percent64 c T)%Qc).
      { eapply Qcle_trans; [|exact Hp1].
        apply Qcmult_nonneg; [now apply Qcpower_pos | assumption]. }
      destruct (round_error (Qcplus_nonneg Hs0 Hp0)) as [_ Hr]. fold b in Hr.
      eapply Qcle_trans; [exact Hr|].
      replace (b ^ (Datatypes.S k + 2) * (zq (S + c) / zq T * zq 100))%Qc
        with (b * (b ^ (k + 2) * (zq S / zq T * zq 100)
                   + b ^ k * (b ^ 2 * (zq c / zq T * zq 100))))%Qc
        by (rewrite zq_add, !Qcpower_add; cbn [Qcpower]; unfold Qcdiv; ring).
      apply Qcmult_le_compat_l; [|assumption].
      apply Qcplus_le_compat; [assumption|].
      apply (Qcle_trans _ (1 * (b ^ 2 * (zq c / zq T * zq 100)))%Qc).
      * now rewrite Qcmult_1_l.
      * apply Qcmult_le_compat_r; [now apply Qcpower_ge_1|].
        apply Qcmult_nonneg; [now apply Qcpower_pos | assumption].
Qed.

Lemma tolerance_lower (k : nat) :
  (k <= 10)%nat ->
  (zq 100 - tolerance <= (1 - Binary64.unit_roundoff) ^ k * zq 100)%Qc.
Proof.
  intros Hk. destruct lower_range as [Ha0 Ha1].
  apply (Qcle_trans _ ((1 - Binary64.unit_roundoff) ^ 10 * zq 100)%Qc).
  - vm_compute. discriminate.
  - apply Qcmult_le_compat_r; [|vm_compute; discriminate].
    now apply Qcpower_antitone.
Qed.

Lemma tolerance_upper (k : nat) :
  (k <= 10)%nat ->
  ((1 + Binary64.unit_roundoff) ^ k * zq 100 <= zq 100 + tolerance)%Qc.
Proof.
  intros Hk. destruct upper_range as [Hb0 Hb1].
  apply (Qcle_trans _ ((1 + Binary64.unit_roundoff) ^ 10 * zq 100)%Qc).
  - apply Qcmult_le_compat_r; [|vm_compute; discriminate].
    now apply Qcpower_monotone.
  - vm_compute. discriminate.
Qed.

Lemma sum64_Num ps : forall s,
  fold_left Binary64.nadd (map Num ps) (Num s)
  = Num (fold_left (fun s p => Binary64.round (s + p)) ps s).
Proof.
  induction ps as [|p ps IH]; intros s; cbn [map fold_left]; [reflexivity|].
  change (Binary64.nadd (Num s) (Num p)) with (Num (Binary64.round (s + p))).
  apply IH.
Qed.

Lemma share_of_total (T : Z) : (0 < T)%Z -> (zq T / zq T * zq 100 = zq 100)%Qc.
Proof. intros HT. field. apply zq_neq_0. lia. Qed.

(** The percentages of at most eight counters that add up to the total
    [T] add up to 100 within the tolerance, whether they are added exactly
    or in double precision. *)
Lemma percentages_about_100 (T : Z) (cs : list Z) :
  (0 < T)%Z -> Forall (fun c => (0 <= c)%Z) cs -> sum_Z cs = T ->
  (length cs <= 8)%nat ->
  about_100 (sum_numbers (map (fun c => Num (percent64 c T)) cs)) /\
  about_100 (Binary64.sum (map (fun c => Num (percent64 c T)) cs)).
Proof.
  intros HT Hcs Hsum Hlen. split.
  - destruct (percent64_sum_exact HT Hcs) as [H1 H2]. cbv zeta in H1, H2.
    rewrite Hsum, share_of_total in H1, H2 by assumption.
    exists (zq 0 + sum_Qc (map (fun c => percent64 c T) cs))%Qc. split.
    + unfold sum_numbers. rewrite <- (map_map (fun c => percent64 c T) Num).
      rewrite of_Z_zq. apply sum_numbers_Num.
    + rewrite zq_0, Qcplus_0_l. split.
      * eapply Qcle_trans; [apply (@tolerance_lower 2); lia | exact H1].
      * eapply Qcle_trans; [exact H2 | apply (@tolerance_upper 2); lia].
  - assert (H0 : (zq 0 / zq T * zq 100 = 0)%Qc)
      by (rewrite zq_0; unfold Qcdiv; ring).
    destruct (@percent64_sum_rounded T cs 0%nat 0%Qc 0%Z HT Hcs ltac:(lia))
      as [H1 H2].
    { rewrite H0, Qcmult_0_r. apply Qcle_refl. }
    { rewrite H0, Qcmult_0_r. apply Qcle_refl. }
    cbv zeta in H1, H2. rewrite Z.add_0_l, Hsum, share_of_total in H1, H2 by assumption.
    eexists. split.
    + unfold Binary64.sum. rewrite <- (map_map (fun c => percent64 c T) Num).
      rewrite of_Z_zq, zq_0. apply sum64_Num.
    + split.
      * eapply Qcle_trans; [apply (@tolerance_lower (0 + length cs + 2)); lia | exact H1].
      * eapply Qcle_trans; [exact H2 | apply (@tolerance_upper (0 + length cs + 2)); lia].
Qed.

(** ** The percentages by category *)

Lemma sum_Z_perm l1 l2 : Permutation l1 l2 -> sum_Z l1 = sum_Z l2.
Proof.
  induction 1 as [|x l1 l2 _ IH|x y l|l1 l2 l3 _ IH1 _ IH2].
  - reflexivity.
  - now rewrite !sum_Z_cons, IH.
  - rewrite !sum_Z_cons. lia.
  - congruence.
Qed.

Lemma sum_counts_sum_Z (m : list (Category * DataProcessing.Tally)) :
  sum_counts m = sum_Z (map (fun kv => DataProcessing.count (snd kv)) m).
Proof.
  induction m as [|kv m IH]; [reflexivity|].
  cbn [map]. rewrite sum_Z_cons, <- IH. reflexivity.
Qed.

(** The rows of [calculateCategoryStats] before they are sorted. *)
Lemma calculateCategoryStats64_rows data :
  exists (m : list (Category * DataProcessing.Tally)),
    NoDup (keys m) /\
    (forall c, obj_get Category_eqb c m
               = merge_tally None (entries_of_category c (all_entries data))) /\
    sum_counts m = Z.of_nat (length (all_entries data)) /\
    Binary64.calculateCategoryStats data
    = sort (fun a b =>
              ngt (Binary64.nsub (DataProcessing.avgPowerLevel b)
                                 (DataProcessing.avgPowerLevel a)) (of_Z 0))
        (map (row64 (Z.of_nat (length (all_entries data)))) m).
Proof.
  unfold Binary64.calculateCategoryStats.
  match goal with
  | |- context [fold_left ?g (values data) ([], 0%Z)] =>
      rewrite (fold_left_ext g
                 (fun acc day => fold_left tally_step (entries day) acc))
        by (intros acc day; apply fold_left_ext; intros [cm te] e; reflexivity)
  end.
  pose proof (tally_days_fold (values data) [] 0) as Hfold.
  pose proof (fun c => tally_days_get c (values data) [] 0) as Hget.
  pose proof (@tally_days_NoDup (values data) [] 0%Z (NoDup_nil _)) as Hnd.
  cbv zeta in Hfold.
  destruct (fold_left (fun acc day => fold_left tally_step (entries day) acc)
              (values data) ([], 0%Z)) as [m T].
  cbn [fst snd] in *. destruct Hfold as [Hsum HT]. simpl in Hsum, HT.
  exists m. split; [assumption|]. split; [exact Hget|]. split; [exact Hsum|].
  cbv beta iota zeta. f_equal. apply map_ext. intros [c v].
  unfold row64. cbn [fst snd]. unfold all_entries. now rewrite HT.
Qed.

(** The two embeddings of [calculateCategoryStats] return the same
    categories with the same counts; they differ in the rounding of the
    quotients, and so possibly in the order of the rows. *)
Lemma calculateCategoryStats64_same_counts data :
  Permutation
    (map (fun s => (DataProcessing.cs_category s, DataProcessing.entryCount s))
       (Binary64.calculateCategoryStats data))
    (map (fun s => (DataProcessing.cs_category s, DataProcessing.entryCount s))
       (DataProcessing.calculateCategoryStats data)).
Proof.
  unfold Binary64.calculateCategoryStats, DataProcessing.calculateCategoryStats.
  match goal with
  | |- context [fold_left ?g (values data) ([], 0%Z)] =>
      destruct (fold_left g (values data) ([], 0%Z)) as [m T]
  end.
  cbv beta iota zeta.
  eapply Permutation_trans; [apply Permutation_map, sort_perm|].
  eapply Permutation_trans; [|apply Permutation_sym, Permutation_map, sort_perm].
  rewrite !map_map.
  erewrite map_ext; [apply Permutation_refl|].
  intros [c v]. reflexivity.
Qed.

(** C8.  For a collection that holds at least one entry,
    [calculateCategoryStats], computed in double precision, returns one
    row for every category present and no other; the percentage of a row
    is the double [count / totalEntries * 100] of the entries of its
    category, and the percentages of the rows add up to 100 within the
    tolerance [2 ^ -42] of floating point, whether they are added exactly
    or in double precision in the order of the rows. *)
Theorem category_percentages_sum_to_100 (data : ConfidenceData) :
  all_entries data <> [] ->
  let all := all_entries data in
  let rows := Binary64.calculateCategoryStats data in
  NoDup (map DataProcessing.cs_category rows) /\
  (forall c,
     In c (map DataProcessing.cs_category rows)
     <-> entries_of_category c all <> []) /\
  (forall s,
     In s rows ->
     DataProcessing.entryCount s
     = Z.of_nat (length (entries_of_category (DataProcessing.cs_category s) all)) /\
     DataProcessing.percentage s
     = Binary64.nmul
         (Binary64.ndiv (of_Z (DataProcessing.entryCount s)) (of_nat (length all)))
         (of_Z 100)) /\
  about_100 (sum_numbers (map DataProcessing.percentage rows)) /\
  about_100 (Binary64.sum (map DataProcessing.percentage rows)).
Proof.
  intros Hne. cbv zeta.
  destruct (calculateCategoryStats64_rows data) as (m & Hnd & Hget & Hsum & ->).
  set (T := Z.of_nat (length (all_entries data))) in *.
  assert (HT : (0 < T)%Z)
    by (unfold T; destruct (all_entries data); [congruence | simpl; lia]).
  set (after := fun a b : DataProcessing.CategoryStats =>
                  ngt (Binary64.nsub (DataProcessing.avgPowerLevel b)
                                     (DataProcessing.avgPowerLevel a)) (of_Z 0)).
  pose proof (sort_perm after (map (row64 T) m)) as Hperm.
  assert (Hrow : forall s,
             In s (sort after (map (row64 T) m)) ->
             exists c v, s = row64 T (c, v) /\
                         entries_of_category c (all_entries data) <> [] /\
                         DataProcessing.count v
                         = Z.of_nat (length (entries_of_category c (all_entries data)))).
  { intros s Hs. apply (Permutation_in _ Hperm) in Hs.
    apply in_map_iff in Hs. destruct Hs as ([c v] & <- & Hcv).
    apply (In_obj_get Category_eqb Category_eqb_eq) in Hcv; [|assumption].
    rewrite Hget in Hcv. apply merge_tally_None_Some in Hcv.
    exists c, v. tauto. }
  assert (Hcats : Permutation
                    (map DataProcessing.cs_category (sort after (map (row64 T) m)))
                    (keys m)).
  { eapply Permutation_trans; [apply Permutation_map, Hperm|].
    rewrite map_map. apply Permutation_refl. }
  split; [|split; [|split]].
  - eapply Permutation_NoDup; [apply Permutation_sym, Hcats | exact Hnd].
  - intros c. split.
    + intros Hin. apply in_map_iff in Hin. destruct Hin as (s & <- & Hs).
      destruct (Hrow s Hs) as (c' & v & -> & Hc & _). exact Hc.
    + intros Hc. apply (Permutation_in _ (Permutation_sym Hcats)).
      specialize (Hget c).
      destruct (entries_of_category c (all_entries data)) as [|e l] eqn:E;
        [congruence|].
      cbn [merge_tally] in Hget. cbv zeta in Hget.
      apply (obj_get_In Category_eqb Category_eqb_eq) in Hget.
      unfold keys. apply in_map_iff. eexists. split; [|exact Hget]. reflexivity.
  - intros s Hs. destruct (Hrow s Hs) as (c & v & -> & _ & Hcount).
    unfold row64. cbn [fst snd DataProcessing.cs_category
                       DataProcessing.entryCount DataProcessing.percentage].
    split; [exact Hcount | reflexivity].
  - assert (Hmap : map DataProcessing.percentage (sort after (map (row64 T) m))
                   = map (fun c => Num (percent64 c T))
                       (map DataProcessing.entryCount (sort after (map (row64 T) m)))).
    { rewrite map_map. apply map_ext_in. intros s Hs.
      destruct (Hrow s Hs) as (c & v & -> & _ & _).
      unfold row64. cbn [snd DataProcessing.entryCount DataProcessing.percentage].
      apply percent64_value. lia. }
    rewrite Hmap. apply percentages_about_100.
    + exact HT.
    + apply Forall_forall. intros n Hn. apply in_map_iff in Hn.
      destruct Hn as (s & <- & Hs).
      destruct (Hrow s Hs) as (c & v & -> & _ & Hcount).
      unfold row64. cbn [snd DataProcessing.entryCount]. lia.
    + rewrite (sum_Z_perm (Permutation_map DataProcessing.entryCount Hperm)).
      rewrite map_map. unfold row64. cbn [DataProcessing.entryCount].
      now rewrite <- sum_counts_sum_Z.
    + rewrite length_map, <- (length_map DataProcessing.cs_category).
      apply NoDup_categories_length.
      eapply Permutation_NoDup; [apply Permutation_sym, Hcats | exact Hnd].
Qed.

Lemma category_percentages_sum_to_100_witness :
  about_100
    (Binary64.sum
       (map DataProcessing.percentage (Binary64.calculateCategoryStats scenario))).
Proof.
  apply (@category_percentages_sum_to_100 scenario). simpl. discriminate.
Defined.

(** ** The percentages of the two types *)

(** X8.  For a collection that holds an entry, the personal and the
    professional percentage of [getOverallStats], computed in double
    precision, are the doubles [count / total * 100] of the entries of
    each type, and they add up to 100 within the tolerance [2 ^ -42] of
    floating point, whether they are added exactly or in double
    precision. *)
Theorem overall_percentages_sum_to_100 (data : ConfidenceData) :
  all_entries data <> [] ->
  let all := all_entries data in
  let stats := Binary64.getOverallStats data in
  DataProcessing.personalPercentage stats
  = Binary64.nmul
      (Binary64.ndiv (of_nat (count_type personal all)) (of_nat (length all)))
      (of_Z 100) /\
  DataProcessing.professionalPercentage stats
  = Binary64.nmul
      (Binary64.ndiv (of_nat (count_type professional all)) (of_nat (length all)))
      (of_Z 100) /\
  about_100 (JS.nadd (DataProcessing.personalPercentage stats)
                     (DataProcessing.professionalPercentage stats)) /\
  about_100 (Binary64.nadd (DataProcessing.personalPercentage stats)
                           (DataProcessing.professionalPercentage stats)).
Proof.
  intros Hne. cbv zeta. unfold Binary64.getOverallStats.
  cbn [DataProcessing.personalPercentage DataProcessing.professionalPercentage].
  fold (all_entries data).
  fold (count_type personal (all_entries data)).
  fold (count_type professional (all_entries data)).
  split; [reflexivity|]. split; [reflexivity|].
  pose proof (count_type_total (all_entries data)) as Ht.
  set (T := Z.of_nat (length (all_entries data))).
  set (c1 := Z.of_nat (count_type personal (all_entries data))).
  set (c2 := Z.of_nat (count_type professional (all_entries data))).
  assert (HT : (0 < T)%Z)
    by (unfold T; destruct (all_entries data); [congruence | simpl; lia]).
  unfold of_nat. fold T c1 c2.
  rewrite !percent64_value by lia.
  assert (Hcs : Forall (fun c => (0 <= c)%Z) [c1; c2])
    by (repeat constructor; unfold c1, c2; lia).
  assert (Hsum : sum_Z [c1; c2] = T)
    by (rewrite !sum_Z_cons; change (sum_Z []) with 0%Z; unfold c1, c2, T; lia).
  destruct (percent64_sum_exact HT Hcs) as [H1 H2]. cbv zeta in H1, H2.
  rewrite Hsum, share_of_total in H1, H2 by assumption.
  cbn [map sum_Qc fold_right] in H1, H2. rewrite Qcplus_0_r in H1, H2.
  destruct lower_range as [Ha0 Ha1]. destruct upper_range as [Hb0 Hb1].
  assert (H100 : (0 <= zq 100)%Qc) by (vm_compute; discriminate).
  assert (Hpos : (0 <= percent64 c1 T + percent64 c2 T)%Qc).
  { eapply Qcle_trans; [|exact H1].
    apply Qcmult_nonneg; [now apply Qcpower_pos | assumption]. }
  split.
  - exists (percent64 c1 T + percent64 c2 T)%Qc. split; [reflexivity|]. split.
    + eapply Qcle_trans; [apply (@tolerance_lower 2); lia | exact H1].
    + eapply Qcle_trans; [exact H2 | apply (@tolerance_upper 2); lia].
  - exists (Binary64.round (percent64 c1 T + percent64 c2 T)). split; [reflexivity|].
    destruct (round_error Hpos) as [Hr1 Hr2]. split.
    + eapply Qcle_trans; [apply (@tolerance_lower 3); lia|].
      eapply Qcle_trans; [|exact Hr1].
      replace ((1 - Binary64.unit_roundoff) ^ 3 * zq 100)%Qc
        with ((1 - Binary64.unit_roundoff)
              * ((1 - Binary64.unit_roundoff) ^ 2 * zq 100))%Qc
        by (cbn [Qcpower]; ring).
      now apply Qcmult_le_compat_l.
    + eapply Qcle_trans; [|apply (@tolerance_upper 3); lia].
      eapply Qcle_trans; [exact Hr2|].
      replace ((1 + Binary64.unit_roundoff) ^ 3 * zq 100)%Qc
        with ((1 + Binary64.unit_roundoff)
              * ((1 + Binary64.unit_roundoff) ^ 2 * zq 100))%Qc
        by (cbn [Qcpower]; ring).
      now apply Qcmult_le_compat_l.
Qed.

Lemma overall_percentages_sum_to_100_witness :
  about_100
    (Binary64.nadd
       (DataProcessing.personalPercentage (Binary64.getOverallStats scenario))
       (DataProcessing.professionalPercentage (Binary64.getOverallStats scenario))).
Proof.
  apply (@overall_percentages_sum_to_100 scenario). simpl. discriminate.
Defined.
